(** * plot.py: DeepCC measurement-log plotter

    A shallow embedding of [plot.py]: the column map [COLS], the triplet
    table, the loader built on [numpy.loadtxt], the column-count check, the
    column accessor, the chart helpers and [main], followed by the
    properties of the report that the specification states. *)

From Stdlib Require Import String Ascii List Arith Bool Lia PeanoNat.
From Stdlib Require Import DecimalString QArith Lqa.
Import ListNotations.

Local Open Scope nat_scope.
Local Open Scope list_scope.
Local Open Scope string_scope.

(* ------------------------------------------------------------------ *)
(** ** Schema: [COLS], [TRIPLETS], [SINGLES_IN_ORDER]                   *)
(* ------------------------------------------------------------------ *)

(** The dict literal [COLS], in source order. *)
Definition COLS : list (string * nat) :=
  [ ("time", 0);
    ("max_tmp", 1);
    ("rtt_100x_ms", 2); ("rttvar_ms", 3); ("rto_100x_ms", 4); ("ato_100x_ms", 5);
    ("pacing_rate_norm", 6); ("delivery_rate_norm", 7);
    ("snd_ssthresh", 8); ("ca_state", 9);

    ("rtt_s_avg", 10); ("rtt_s_min", 11); ("rtt_s_max", 12);
    ("rtt_m_avg", 13); ("rtt_m_min", 14); ("rtt_m_max", 15);
    ("rtt_l_avg", 16); ("rtt_l_min", 17); ("rtt_l_max", 18);

    ("thr_s_avg", 19); ("thr_s_min", 20); ("thr_s_max", 21);
    ("thr_m_avg", 22); ("thr_m_min", 23); ("thr_m_max", 24);
    ("thr_l_avg", 25); ("thr_l_min", 26); ("thr_l_max", 27);

    ("rtt_rate_s_avg", 28); ("rtt_rate_s_min", 29); ("rtt_rate_s_max", 30);
    ("rtt_rate_m_avg", 31); ("rtt_rate_m_min", 32); ("rtt_rate_m_max", 33);
    ("rtt_rate_l_avg", 34); ("rtt_rate_l_min", 35); ("rtt_rate_l_max", 36);

    ("rtt_var_s_avg", 37); ("rtt_var_s_min", 38); ("rtt_var_s_max", 39);
    ("rtt_var_m_avg", 40); ("rtt_var_m_min", 41); ("rtt_var_m_max", 42);
    ("rtt_var_l_avg", 43); ("rtt_var_l_min", 44); ("rtt_var_l_max", 45);

    ("inflight_s_avg", 46); ("inflight_s_min", 47); ("inflight_s_max", 48);
    ("inflight_m_avg", 49); ("inflight_m_min", 50); ("inflight_m_max", 51);
    ("inflight_l_avg", 52); ("inflight_l_min", 53); ("inflight_l_max", 54);

    ("lost_s_avg", 55); ("lost_s_min", 56); ("lost_s_max", 57);
    ("lost_m_avg", 58); ("lost_m_min", 59); ("lost_m_max", 60);
    ("lost_l_avg", 61); ("lost_l_min", 62); ("lost_l_max", 63);

    ("dr_minus_loss", 64);
    ("time_delta_norm", 65);
    ("rtt_rate_scalar", 66);
    ("loss_norm", 67);
    ("acked_rate_norm", 68);
    ("dr_w_ratio", 69);
    ("queue_delay_proxy", 70);
    ("dr_w_norm", 71);
    ("cwnd_unacked_rate", 72);
    ("dr_w_max_ratio", 73);
    ("dr_w_max_norm", 74);
    ("reward", 75);
    ("cwnd_rate", 76) ].

(** [COLS.keys()] and [COLS.values()]. *)
Definition COLS_keys : list string := map fst COLS.
Definition COLS_values : list nat := map snd COLS.

(** [COLS[key]]: [None] stands for the [KeyError] of an unregistered name.
    A later item of a dict literal would overwrite an earlier one with the
    same key, hence the search from the right. *)
Fixpoint dict_get (items : list (string * nat)) (key : string) : option nat :=
  match items with
  | [] => None
  | (k, v) :: rest =>
      match dict_get rest key with
      | Some v' => Some v'
      | None => if String.eqb k key then Some v else None
      end
  end.

Definition COLS_get (key : string) : option nat := dict_get COLS key.

(** [max(COLS.values())]. *)
Definition max_list (l : list nat) : nat := fold_right Nat.max 0 l.
Definition COLS_max : nat := max_list COLS_values.

Definition TRIPLETS : list (string * string) :=
  [ ("rtt_s", "ms (avg/min/max)");
    ("rtt_m", "ms (avg/min/max)");
    ("rtt_l", "ms (avg/min/max)");

    ("thr_s", "norm (avg/min/max)");
    ("thr_m", "norm (avg/min/max)");
    ("thr_l", "norm (avg/min/max)");

    ("rtt_rate_s", "1/s (avg/min/max)");
    ("rtt_rate_m", "1/s (avg/min/max)");
    ("rtt_rate_l", "1/s (avg/min/max)");

    ("rtt_var_s", "ms (avg/min/max)");
    ("rtt_var_m", "ms (avg/min/max)");
    ("rtt_var_l", "ms (avg/min/max)");

    ("inflight_s", "k pkts (avg/min/max)");
    ("inflight_m", "k pkts (avg/min/max)");
    ("inflight_l", "k pkts (avg/min/max)");

    ("lost_s", "x/100 (avg/min/max)");
    ("lost_m", "x/100 (avg/min/max)");
    ("lost_l", "x/100 (avg/min/max)") ].

Definition triplet_bases : list string := map fst TRIPLETS.

Definition SINGLES_IN_ORDER : list (string * string) :=
  [ ("rtt_100x_ms", "RTT (100x ms)");
    ("rttvar_ms", "RTTVar (ms)");
    ("rto_100x_ms", "RTO (100x ms)");
    ("ato_100x_ms", "ATO (100x ms)");
    ("pacing_rate_norm", "Pacing rate (norm)");
    ("delivery_rate_norm", "Delivery rate (norm)");
    ("snd_ssthresh", "snd_ssthresh");
    ("ca_state", "TCP CA state");

    ("rtt_rate_scalar", "RTT rate (scalar)");
    ("dr_minus_loss", "Delivered − Loss (Mbps)");
    ("time_delta_norm", "time_delta (norm)");
    ("loss_norm", "loss (norm)");
    ("acked_rate_norm", "acked_rate (norm)");
    ("dr_w_ratio", "dr_w ratio");
    ("queue_delay_proxy", "queue delay proxy");
    ("dr_w_norm", "dr_w (norm)");
    ("cwnd_unacked_rate", "cwnd_unacked_rate");
    ("dr_w_max_ratio", "dr_w_max ratio");
    ("dr_w_max_norm", "dr_w_max (norm)");
    ("cwnd_rate", "cwnd_rate");
    ("reward", "reward");
    ("max_tmp", "max_tmp (capacity)") ].

(** The three keys [f"{base_key}_avg"], [f"{base_key}_min"],
    [f"{base_key}_max"] that [plot_triplet] formats. *)
Definition key_avg (base_key : string) : string := base_key ++ "_avg".
Definition key_min (base_key : string) : string := base_key ++ "_min".
Definition key_max (base_key : string) : string := base_key ++ "_max".

(** [str(n)] for a non-negative integer. *)
Definition str_nat (n : nat) : string := NilZero.string_of_uint (Nat.to_uint n).

(** [sub in s] for strings. *)
Definition contains (s sub : string) : Prop :=
  exists pre post, s = pre ++ sub ++ post.

(* ------------------------------------------------------------------ *)
(** ** Text of the input file                                           *)
(* ------------------------------------------------------------------ *)

(** Line ends of a file opened in text mode: LF and CR (CR LF leaves an
    empty line in between, which the reader skips like any blank line). *)
Definition is_newline (c : ascii) : bool :=
  Ascii.eqb c "010" || Ascii.eqb c "013".

(** Whitespace that separates the fields of a line: the space, the tab,
    the vertical tab, the form feed and the four separators FS, GS, RS
    and US. The text of a file is taken as ASCII; the spaces beyond
    ASCII, which the reader also splits at, are not covered. *)
Definition is_space (c : ascii) : bool :=
  Ascii.eqb c " " || Ascii.eqb c "009" || Ascii.eqb c "011" || Ascii.eqb c "012"
  || Ascii.eqb c "028" || Ascii.eqb c "029" || Ascii.eqb c "030" || Ascii.eqb c "031".

(** The pieces of [s] between the characters chosen by [p], empty pieces
    included. *)
Fixpoint split_at (p : ascii -> bool) (s : string) : list string :=
  match s with
  | EmptyString => [EmptyString]
  | String c rest =>
      if p c then EmptyString :: split_at p rest
      else match split_at p rest with
           | [] => [String c EmptyString]
           | w :: ws => String c w :: ws
           end
  end.

Definition nonempty (s : string) : bool :=
  match s with EmptyString => false | String _ _ => true end.

(** [str.split()]-like fields: the non-empty pieces. *)
Definition fields (p : ascii -> bool) (s : string) : list string :=
  filter nonempty (split_at p s).

(** [comments='#']: a line is cut at the first [#]. *)
Fixpoint strip_comment (s : string) : string :=
  match s with
  | EmptyString => EmptyString
  | String c rest => if Ascii.eqb c "#" then EmptyString else String c (strip_comment rest)
  end.

(** The data lines of a file, each as its list of tokens; lines without
    a token (blank, or comment only) are skipped. *)
Definition data_lines (text : string) : list (list string) :=
  filter (fun toks => match toks with [] => false | _ :: _ => true end)
         (map (fun line => fields is_space (strip_comment line))
              (split_at is_newline text)).

(* ------------------------------------------------------------------ *)
(** ** Paths: [os.path.splitext], [os.path.basename] (POSIX)            *)
(* ------------------------------------------------------------------ *)

(** [p.rfind(c) + 1]: 0 when [c] does not occur, else one past the index
    of its last occurrence. *)
Fixpoint rfind_succ (c : ascii) (p : string) : nat :=
  match p with
  | EmptyString => 0
  | String d rest =>
      match rfind_succ c rest with
      | 0 => if Ascii.eqb d c then 1 else 0
      | S k => S (S k)
      end
  end.

(** [p[i:]] and [p[:i]]. *)
Definition str_from (i : nat) (p : string) : string := substring i (String.length p - i) p.
Definition str_to (i : nat) (p : string) : string := substring 0 i p.

(** [os.path.basename(p)]: [p[p.rfind('/') + 1:]]. *)
Definition basename (p : string) : string := str_from (rfind_succ "/" p) p.

(** The loop of [genericpath._splitext] that skips leading dots: is there
    a character other than [.] in [p[filenameIndex:dotIndex]]? *)
Fixpoint has_non_dot (s : string) : bool :=
  match s with
  | EmptyString => false
  | String c rest => if Ascii.eqb c "." then has_non_dot rest else true
  end.

(** [os.path.splitext(p)[0]]. *)
Definition splitext_root (p : string) : string :=
  let sep1 := rfind_succ "/" p in      (* sepIndex + 1 *)
  let dot1 := rfind_succ "." p in      (* dotIndex + 1 *)
  if Nat.ltb sep1 dot1 then
    if has_non_dot (substring sep1 (dot1 - 1 - sep1) p) then str_to (dot1 - 1) p else p
  else p.

(* ------------------------------------------------------------------ *)
(** ** Charts                                                           *)
(* ------------------------------------------------------------------ *)

(** How a series is drawn: by [ax.plot], or by [ax.step] with its
    [where] argument. *)
Inductive draw_kind := DrawPlot | DrawStep (where_ : string).

(** Line styles selected by the format string of [ax.plot]. *)
Inductive linestyle := Solid | Dashed | Dotted.

(** The format strings the program passes; no format string leaves the
    default style [rcParams["lines.linestyle"]], a solid line. *)
Definition linestyle_of_fmt (fmt : option string) : option linestyle :=
  match fmt with
  | None => Some Solid
  | Some f =>
      if String.eqb f "--" then Some Dashed
      else if String.eqb f ":" then Some Dotted
      else if String.eqb f "-" then Some Solid
      else None
  end.

(* ------------------------------------------------------------------ *)
(** ** Exceptions                                                       *)
(* ------------------------------------------------------------------ *)

(** Why [np.loadtxt] fails: the file cannot be opened, a token is not a
    number (at a data row and field, both 0-based), or a data row has
    [found] fields where the first one had [ncols]. *)
Inductive loadtxt_failure :=
| CannotOpen (path : string)
| BadToken (tok : string) (row col : nat)
| ColumnsChanged (ncols found row : nat).

(** The Python exceptions the program meets; [OSError] stands for the
    failures of the operating system when a file is written. *)
Inductive exception :=
| LoadtxtError (f : loadtxt_failure)
| ValueError (msg : string)
| IndexError (msg : string)
| KeyError (key : string)
| NameError (name : string)
| OSError (msg : string).

(** A step returns a value, raises an exception, or ends the process
    with [sys.exit(code)]. *)
Inductive outcome (A : Type) :=
| Ret (a : A)
| Raise (e : exception)
| Exit (code : nat).
Arguments Ret {A} a.
Arguments Raise {A} e.
Arguments Exit {A} code.

(** Parsed command line: the positional [file] and the optional [--out]. *)
Record cli_args := mk_args { arg_file : string; arg_out : option string }.

(* ------------------------------------------------------------------ *)
(** ** A concrete reading of tokens, for running the program on files   *)
(* ------------------------------------------------------------------ *)

(** Plain decimal literals ([12], [-0.5], [+3.25]) read as rationals; every
    such token is also a token [float] accepts. The other tokens that
    [float] accepts (exponents, [nan], [inf], underscores) are refused
    here: this reading serves the concrete runs only, and the theorems
    hold for any reading [float_of_token]. *)
Definition digit_value (c : ascii) : option nat :=
  let n := nat_of_ascii c in
  if Nat.leb 48 n && Nat.leb n 57 then Some (n - 48) else None.

Fixpoint digits_value (acc : nat) (s : string) : option nat :=
  match s with
  | EmptyString => Some acc
  | String c rest =>
      match digit_value c with
      | Some d => digits_value (10 * acc + d) rest
      | None => None
      end
  end.

Definition unsigned_decimal (s : string) : option Q :=
  match split_at (fun c => Ascii.eqb c ".") s with
  | [ip] =>
      if nonempty ip then
        match digits_value 0 ip with
        | Some n => Some (inject_Z (Z.of_nat n))
        | None => None
        end
      else None
  | [ip; fp] =>
      if nonempty ip || nonempty fp then
        match digits_value 0 ip, digits_value 0 fp with
        | Some n, Some f =>
            Some (inject_Z (Z.of_nat n)
                  + Qmake (Z.of_nat f) (Pos.of_nat (10 ^ String.length fp)))%Q
        | _, _ => None
        end
      else None
  | _ => None
  end.

Definition decimal_of_token (tok : string) : option Q :=
  match tok with
  | String "-" rest => option_map Qopp (unsigned_decimal rest)
  | String "+" rest => unsigned_decimal rest
  | _ => unsigned_decimal tok
  end.

(** A wording for the failures of a load, after numpy's. *)
Definition failure_text (f : loadtxt_failure) : string :=
  match f with
  | CannotOpen path => path ++ " not found."
  | BadToken tok row col =>
      "could not convert string '" ++ tok ++ "' to float64 at row " ++ str_nat row
      ++ ", column " ++ str_nat (col + 1) ++ "."
  | ColumnsChanged ncols found row =>
      "the number of columns changed from " ++ str_nat ncols ++ " to " ++ str_nat found
      ++ " at row " ++ str_nat (row + 1)
      ++ "; use `usecols` to select a subset and avoid this error"
  end.

(** The line of a list of tokens, and a one-file file system. *)
Fixpoint line_of (toks : list string) : string :=
  match toks with
  | [] => String "010" EmptyString
  | tok :: rest => tok ++ " " ++ line_of rest
  end.

Definition one_file (path text : string) : string -> option string :=
  fun p => if String.eqb p path then Some text else None.

Section Program.

(** Double-precision values, numpy's conversion of a token to one, and the
    text numpy gives the exception of a failed load. *)
Context {V : Type}.
Variable float_of_token : string -> option V.
Variable loadtxt_message : loadtxt_failure -> string.

(** [str(e)]. *)
Definition str_exception (e : exception) : string :=
  match e with
  | LoadtxtError f => loadtxt_message f
  | ValueError msg => msg
  | IndexError msg => msg
  | KeyError key => "'" ++ key ++ "'"
  | NameError name => "name '" ++ name ++ "' is not defined"
  | OSError msg => msg
  end.

(* ------------------------------------------------------------------ *)
(** ** Arrays                                                           *)
(* ------------------------------------------------------------------ *)

(** An [np.ndarray]: its shape and its elements in row-major order. *)
Record ndarray := mk_ndarray { shape : list nat; buf : list V }.

Definition ndim (a : ndarray) : nat := List.length (shape a).
Definition prod_list (l : list nat) : nat := fold_right Nat.mul 1 l.
Definition size (a : ndarray) : nat := prod_list (shape a).

(** The buffer holds as many elements as the shape says. *)
Definition well_formed (a : ndarray) : Prop := List.length (buf a) = size a.

(** [a.reshape(1, -1)]: the unknown dimension is [size / 1]. *)
Definition reshape_1_neg1 (a : ndarray) : ndarray :=
  {| shape := [1; size a / 1]; buf := buf a |}.

(** [np.squeeze(a)]: the axes of length one are removed. *)
Definition squeeze (a : ndarray) : ndarray :=
  {| shape := filter (fun d => negb (Nat.eqb d 1)) (shape a); buf := buf a |}.

(** [a[:, c]]: for each index [r] of the first axis, the block at index [c]
    of the second axis. [None] stands for the [IndexError] of an array
    with fewer than two axes or of [c] outside the second axis. *)
Definition index_col (a : ndarray) (c : nat) : option ndarray :=
  match shape a with
  | r :: n :: rest =>
      if Nat.ltb c n then
        let inner := prod_list rest in
        Some {| shape := r :: rest;
                buf := flat_map (fun i => firstn inner (skipn ((i * n + c) * inner) (buf a)))
                                (seq 0 r) |}
      else None
  | _ => None
  end.

(** The text of the [IndexError] of [a[:, c]]. *)
Definition index_error_text (a : ndarray) (c : nat) : string :=
  match shape a with
  | _ :: n :: _ =>
      "index " ++ str_nat c ++ " is out of bounds for axis 1 with size " ++ str_nat n
  | _ =>
      "too many indices for array: array is " ++ str_nat (ndim a)
      ++ "-dimensional, but 2 were indexed"
  end.

(** [repr] of a shape: [()], [(3,)], [(2, 77)]. *)
Definition str_shape (sh : list nat) : string :=
  match sh with
  | [n] => "(" ++ str_nat n ++ ",)"
  | _ => "(" ++ String.concat ", " (map str_nat sh) ++ ")"
  end.

(* ------------------------------------------------------------------ *)
(** ** [np.loadtxt(path, dtype=float)]                                  *)
(* ------------------------------------------------------------------ *)

(** The fields of one data row, converted left to right. *)
Fixpoint convert_row (row col : nat) (toks : list string) : loadtxt_failure + list V :=
  match toks with
  | [] => inr []
  | tok :: rest =>
      match float_of_token tok with
      | None => inl (BadToken tok row col)
      | Some v =>
          match convert_row row (S col) rest with
          | inl f => inl f
          | inr vs => inr (v :: vs)
          end
      end
  end.

(** The data rows in file order; the first one fixes the number of
    columns, and a row of another width stops the read. *)
Fixpoint read_rows (ncols : option nat) (row : nat) (lines : list (list string))
  : loadtxt_failure + list (list V) :=
  match lines with
  | [] => inr []
  | toks :: rest =>
      let n := match ncols with Some n => n | None => List.length toks end in
      if negb (Nat.eqb (List.length toks) n) then inl (ColumnsChanged n (List.length toks) row)
      else match convert_row row 0 toks with
           | inl f => inl f
           | inr vs =>
               match read_rows (Some n) (S row) rest with
               | inl f => inl f
               | inr vss => inr (vs :: vss)
               end
           end
  end.

(** The two-dimensional array of the rows read; a file without data
    gives the shape (0, 1). *)
Definition array_of_rows (rows : list (list V)) : ndarray :=
  {| shape := [List.length rows; match rows with [] => 1 | r :: _ => List.length r end];
     buf := concat rows |}.

(** [_ensure_ndmin_ndarray(arr, ndmin=0)]: an array of more than [ndmin]
    axes is squeezed. *)
Definition ensure_ndmin0 (a : ndarray) : ndarray :=
  if Nat.ltb 0 (ndim a) then squeeze a else a.

(** [np.loadtxt] on the file system [files]: [files path] is the text
    that the reader gets from the path, after the decompression that
    numpy chooses by the extension of the name, and [None] when there is
    no such file or it cannot be opened or decoded. *)
Definition np_loadtxt (files : string -> option string) (path : string)
  : loadtxt_failure + ndarray :=
  match files path with
  | None => inl (CannotOpen path)
  | Some text =>
      match read_rows None 0 (data_lines text) with
      | inl f => inl f
      | inr rows => inr (ensure_ndmin0 (array_of_rows rows))
      end
  end.

(* ------------------------------------------------------------------ *)
(** ** Figures                                                          *)
(* ------------------------------------------------------------------ *)

(** One drawn series: how it is drawn, its x and y arrays, its line
    style and its legend label. *)
Record series := mk_series {
  s_kind : draw_kind;
  s_x : ndarray;
  s_y : ndarray;
  s_style : linestyle;
  s_label : option string }.

(** One chart (a matplotlib [Axes]). *)
Record axes := mk_axes {
  ax_series : list series;
  ax_ylabel : option string;
  ax_xlabel : option string;
  ax_grid : bool;
  ax_legend : bool }.

(** One page: [fig.suptitle] and the stacked charts, top to bottom. *)
Record figure := mk_figure { fig_suptitle : string; fig_axes : list axes }.

Definition new_axes : axes :=
  {| ax_series := []; ax_ylabel := None; ax_xlabel := None;
     ax_grid := false; ax_legend := false |}.

(* ------------------------------------------------------------------ *)
(** ** State and control                                                *)
(* ------------------------------------------------------------------ *)

(** What the process can see and change.
    - [files]: for each path, the text that numpy's reader gets from it
      (for a name in [.gz], [.bz2] or [.xz], what decompressing the file
      gives), [None] when the file cannot be opened or decoded.
    - [open_error], [save_error]: what the platform refuses to write.
      [open_error p] is the exception of [PdfPages(p)], if it raises;
      [save_error p pages fig] is the exception of [pdf.savefig(fig)] on
      the document of path [p] that holds [pages], if it raises (the
      file cannot be created or written, or the figure cannot be
      rendered, as with a title that is no valid math text).
    - [g_data]: the module-level variable [data].
    - [out_lines], [err_lines]: the lines that the program itself printed
      on the two streams; the interpreter's traceback of an uncaught
      exception and the warning numpy issues for an input without data
      are not recorded.
    - [pdf_open], [pdf_closed]: the document being written, and the
      documents closed so far (newest first), each with its pages. *)
Record world := mk_world {
  files : string -> option string;
  open_error : string -> option exception;
  save_error : string -> list figure -> figure -> option exception;
  g_data : option ndarray;
  out_lines : list string;
  err_lines : list string;
  pdf_open : option (string * list figure);
  pdf_closed : list (string * list figure) }.

Definition M (A : Type) : Type := world -> outcome A * world.

Definition ret {A} (a : A) : M A := fun w => (Ret a, w).

Definition bind {A B} (m : M A) (k : A -> M B) : M B :=
  fun w =>
    match m w with
    | (Ret a, w') => k a w'
    | (Raise e, w') => (Raise e, w')
    | (Exit c, w') => (Exit c, w')
    end.

Notation "x <- m ;; k" := (bind m (fun x => k))
  (at level 61, m at next level, right associativity).
Notation "m ;; k" := (bind m (fun _ => k))
  (at level 61, right associativity).

Definition raise {A} (e : exception) : M A := fun w => (Raise e, w).

(** [sys.exit(code)]. *)
Definition sys_exit {A} (code : nat) : M A := fun w => (Exit code, w).

(** [try: body  except Exception as e: handler(e)]; [SystemExit] is not
    an [Exception] and passes through. *)
Definition try_except {A} (body : M A) (handler : exception -> M A) : M A :=
  fun w =>
    match body w with
    | (Raise e, w') => handler e w'
    | r => r
    end.

(** [print(line)] and [print(line, file=sys.stderr)]. *)
Definition print (line : string) : M unit :=
  fun w => (Ret tt, {| files := files w;
                       open_error := open_error w; save_error := save_error w;
                       g_data := g_data w;
                       out_lines := out_lines w ++ [line]; err_lines := err_lines w;
                       pdf_open := pdf_open w; pdf_closed := pdf_closed w |}%list).

Definition print_err (line : string) : M unit :=
  fun w => (Ret tt, {| files := files w;
                       open_error := open_error w; save_error := save_error w;
                       g_data := g_data w;
                       out_lines := out_lines w; err_lines := err_lines w ++ [line];
                       pdf_open := pdf_open w; pdf_closed := pdf_closed w |}%list).

(** Assignment to, and use of, the global name [data]. *)
Definition set_data (a : ndarray) : M unit :=
  fun w => (Ret tt, {| files := files w;
                       open_error := open_error w; save_error := save_error w;
                       g_data := Some a;
                       out_lines := out_lines w; err_lines := err_lines w;
                       pdf_open := pdf_open w; pdf_closed := pdf_closed w |}).

Definition get_data : M ndarray :=
  fun w => match g_data w with
           | Some a => (Ret a, w)
           | None => (Raise (NameError "data"), w)
           end.

(** [np.loadtxt] as a step: a failure is raised. (What the program
    prints is unchanged by a load; the warning that numpy itself issues
    for an input without data is outside [err_lines].) *)
Definition loadtxt (path : string) : M ndarray :=
  fun w => match np_loadtxt (files w) path with
           | inl f => (Raise (LoadtxtError f), w)
           | inr a => (Ret a, w)
           end.

(** [PdfPages(out_path)]: unless the platform refuses, the document is
    opened empty. (Whether the file is created here or by the first
    [savefig] depends on the version of matplotlib; [open_error] and
    [save_error] cover both.) *)
Definition pdf_enter (out_path : string) : M unit :=
  fun w => match open_error w out_path with
           | Some e => (Raise e, w)
           | None =>
               (Ret tt, {| files := files w;
                           open_error := open_error w; save_error := save_error w;
                           g_data := g_data w;
                           out_lines := out_lines w; err_lines := err_lines w;
                           pdf_open := Some (out_path, []);
                           pdf_closed := pdf_closed w |})
           end.

(** [pdf.savefig(fig)]: unless the platform refuses, the page is appended
    to the open document. *)
Definition pdf_savefig (fig : figure) : M unit :=
  fun w => match pdf_open w with
           | Some (path, pages) =>
               match save_error w path pages fig with
               | Some e => (Raise e, w)
               | None =>
                   (Ret tt, {| files := files w;
                               open_error := open_error w; save_error := save_error w;
                               g_data := g_data w;
                               out_lines := out_lines w; err_lines := err_lines w;
                               pdf_open := Some (path, pages ++ [fig]);
                               pdf_closed := pdf_closed w |}%list)
               end
           | None => (Raise (ValueError "I/O operation on closed file"), w)
           end.

(** Leaving the [with] block closes the document. *)
Definition pdf_exit : M unit :=
  fun w => (Ret tt, {| files := files w;
                       open_error := open_error w; save_error := save_error w;
                       g_data := g_data w;
                       out_lines := out_lines w; err_lines := err_lines w;
                       pdf_open := None;
                       pdf_closed := match pdf_open w with
                                     | Some doc => doc :: pdf_closed w
                                     | None => pdf_closed w
                                     end |}).

(** [with PdfPages(out_path) as pdf: body]: when [PdfPages(out_path)]
    raises, the block is not entered; otherwise the document is closed
    however [body] ends, and the way it ended is passed on. *)
Definition with_PdfPages (out_path : string) (body : M unit) : M unit :=
  fun w =>
    match pdf_enter out_path w with
    | (Ret _, w1) =>
        match body w1 with
        | (r, w2) => (r, snd (pdf_exit w2))
        end
    | r => r
    end.

(* ------------------------------------------------------------------ *)
(** ** Drawing on a chart                                               *)
(* ------------------------------------------------------------------ *)

(** The shape after [np.atleast_1d], and the length of its first axis. *)
Definition shape_1d (a : ndarray) : list nat :=
  match shape a with [] => [1] | sh => sh end.

Definition first_dim (a : ndarray) : nat :=
  match shape a with [] => 1 | d :: _ => d end.

Definition add_series (s : series) (ax : axes) : axes :=
  {| ax_series := ax_series ax ++ [s]; ax_ylabel := ax_ylabel ax;
     ax_xlabel := ax_xlabel ax; ax_grid := ax_grid ax; ax_legend := ax_legend ax |}%list.

(** Both drawing calls refuse x and y of different lengths. The program
    passes arrays of one axis and no format string but ["--"] and [":"];
    any other format string is refused here, as matplotlib refuses an
    unknown character, and what matplotlib does with the colours and
    markers it would accept, or with arrays of more than two axes, is
    not covered. *)
Definition draw (kind : draw_kind) (x y : ndarray) (fmt label : option string)
  (ax : axes) : M axes :=
  if Nat.eqb (first_dim x) (first_dim y) then
    match linestyle_of_fmt fmt with
    | Some st => ret (add_series {| s_kind := kind; s_x := x; s_y := y;
                                    s_style := st; s_label := label |} ax)
    | None => raise (ValueError "Unrecognized character in format string")
    end
  else raise (ValueError ("x and y must have same first dimension, but have shapes "
                          ++ str_shape (shape_1d x) ++ " and " ++ str_shape (shape_1d y))).

(** [ax.plot(x, y, fmt, label=label)]. *)
Definition ax_plot (x y : ndarray) (fmt label : option string) (ax : axes) : M axes :=
  draw DrawPlot x y fmt label ax.

(** [ax.step(x, y, where=where_)]. *)
Definition ax_step (x y : ndarray) (where_ : string) (ax : axes) : M axes :=
  draw (DrawStep where_) x y None None ax.

(** [ax.set_ylabel], [ax.set_xlabel], [ax.grid(True, ...)], [ax.legend(...)]. *)
Definition ax_set_ylabel (label : string) (ax : axes) : axes :=
  {| ax_series := ax_series ax; ax_ylabel := Some label;
     ax_xlabel := ax_xlabel ax; ax_grid := ax_grid ax; ax_legend := ax_legend ax |}.

Definition ax_set_xlabel (label : string) (ax : axes) : axes :=
  {| ax_series := ax_series ax; ax_ylabel := ax_ylabel ax;
     ax_xlabel := Some label; ax_grid := ax_grid ax; ax_legend := ax_legend ax |}.

Definition ax_grid_on (ax : axes) : axes :=
  {| ax_series := ax_series ax; ax_ylabel := ax_ylabel ax;
     ax_xlabel := ax_xlabel ax; ax_grid := true; ax_legend := ax_legend ax |}.

Definition ax_legend_on (ax : axes) : axes :=
  {| ax_series := ax_series ax; ax_ylabel := ax_ylabel ax;
     ax_xlabel := ax_xlabel ax; ax_grid := ax_grid ax; ax_legend := true |}.

(** [l[i] = x], nothing changed when [i] is out of range (the callers
    look [i] up first). *)
Fixpoint list_set {A} (i : nat) (x : A) (l : list A) : list A :=
  match l, i with
  | [], _ => []
  | _ :: t, 0 => x :: t
  | h :: t, S j => h :: list_set j x t
  end.

(** The statements applied to the chart [axes[i]] of a figure. *)
Definition on_ax (i : nat) (f : axes -> M axes) (fig : figure) : M figure :=
  match nth_error (fig_axes fig) i with
  | None => raise (IndexError "index out of bounds")
  | Some ax =>
      ax' <- f ax ;;
      ret {| fig_suptitle := fig_suptitle fig;
             fig_axes := list_set i ax' (fig_axes fig) |}
  end.

(** The same for [axes[-1]]. *)
Definition on_last_ax (f : axes -> M axes) (fig : figure) : M figure :=
  on_ax (List.length (fig_axes fig) - 1) f fig.

(** A [for] loop over a list, threading the figure it changes. *)
Fixpoint for_each {A S} (l : list A) (body : A -> S -> M S) (s : S) : M S :=
  match l with
  | [] => ret s
  | x :: rest => s' <- body x s ;; for_each rest body s'
  end.

(** [zip(axes, keys)]: the charts by position, paired with the keys. *)
Definition zip_axes (fig : figure) (keys : list string) : list (nat * string) :=
  combine (seq 0 (List.length (fig_axes fig))) keys.

(* ------------------------------------------------------------------ *)
(** ** The program                                                      *)
(* ------------------------------------------------------------------ *)

Definition load_data (path : string) : M ndarray :=
  try_except
    (data <- loadtxt path ;;
     let data := if Nat.eqb (ndim data) 1 then reshape_1_neg1 data else data in
     ret data)
    (fun e =>
       print_err ("Error reading '" ++ path ++ "': " ++ str_exception e) ;;
       sys_exit 1).

Definition ensure_cols (data : ndarray) : M unit :=
  let needed := COLS_max in
  match nth_error (shape data) 1 with
  | None => raise (IndexError "tuple index out of range")
  | Some ncols =>
      if Nat.leb ncols needed then
        raise (ValueError ("File has " ++ str_nat ncols ++ " cols; expected ≥ "
                           ++ str_nat (needed + 1) ++ " from the C++ logger."))
      else ret tt
  end.

Definition pick (data : ndarray) (key : string) : M ndarray :=
  match COLS_get key with
  | None => raise (KeyError key)
  | Some c =>
      match index_col data c with
      | None => raise (IndexError (index_error_text data c))
      | Some col => ret col
      end
  end.

(** [plot_triplet] has no [data] parameter: each [pick(data, ...)] in it
    reads the global name. *)
Definition plot_triplet (ax : axes) (t : ndarray) (base_key ylabel : string) : M axes :=
  data <- get_data ;;
  y <- pick data (base_key ++ "_avg") ;;
  ax <- ax_plot t y None (Some (base_key ++ " avg")) ax ;;
  data <- get_data ;;
  y <- pick data (base_key ++ "_min") ;;
  ax <- ax_plot t y (Some "--") (Some (base_key ++ " min")) ax ;;
  data <- get_data ;;
  y <- pick data (base_key ++ "_max") ;;
  ax <- ax_plot t y (Some ":") (Some (base_key ++ " max")) ax ;;
  let ax := ax_set_ylabel ylabel ax in
  let ax := ax_grid_on ax in
  let ax := ax_legend_on ax in
  ret ax.

(** [page(fig_title, rows)]: a figure of [rows] empty stacked charts. *)
Definition page (fig_title : string) (rows : nat) : M figure :=
  ret {| fig_suptitle := fig_title; fig_axes := repeat new_axes rows |}.

(** [ax.plot(t, pick(data, key)); ax.set_ylabel(ylabel); ax.grid(...)],
    the statement row of the single-series charts of [main]. *)
Definition plot_single (t : ndarray) (key ylabel : string) (ax : axes) : M axes :=
  data <- get_data ;;
  y <- pick data key ;;
  ax <- ax_plot t y None None ax ;;
  let ax := ax_set_ylabel ylabel ax in
  ret (ax_grid_on ax).

(** [pdf.savefig(fig); plt.close(fig)]. *)
Definition save_page (fig : figure) : M unit := pdf_savefig fig.

(** Pages 4 to 9 of [main]: three triplet charts, and the time label
    under the last one. *)
Definition triplet_page (t : ndarray) (fig_title : string)
  (b0 l0 b1 l1 b2 l2 : string) : M unit :=
  fig <- page fig_title 3 ;;
  fig <- on_ax 0 (fun ax => plot_triplet ax t b0 l0) fig ;;
  fig <- on_ax 1 (fun ax => plot_triplet ax t b1 l1) fig ;;
  fig <- on_ax 2 (fun ax => plot_triplet ax t b2 l2) fig ;;
  fig <- on_last_ax (fun ax => ret (ax_set_xlabel "time (s)" ax)) fig ;;
  save_page fig.

(** Page 1: Headline signals. *)
Definition main_page1 (t : ndarray) (title_suffix : string) : M unit :=
  fig <- page ("Headline: Gradients & Reward — " ++ title_suffix) 5 ;;
  fig <- on_ax 0 (fun ax => plot_triplet ax t "rtt_rate_s" "Short grad (1/s)") fig ;;
  fig <- on_ax 1 (fun ax => plot_triplet ax t "rtt_rate_m" "Med grad (1/s)") fig ;;
  fig <- on_ax 2 (fun ax => plot_triplet ax t "rtt_rate_l" "Long grad (1/s)") fig ;;
  fig <- on_ax 3 (fun ax =>
           data <- get_data ;;
           y <- pick data "rtt_rate_scalar" ;;
           ax <- ax_plot t y None None ax ;;
           ret (ax_grid_on (ax_set_ylabel "rtt_rate scalar" ax))) fig ;;
  fig <- on_ax 4 (fun ax =>
           data <- get_data ;;
           y <- pick data "reward" ;;
           ax <- ax_plot t y None None ax ;;
           ret (ax_grid_on (ax_set_xlabel "time (s)" (ax_set_ylabel "reward" ax)))) fig ;;
  save_page fig.

(** Page 2: Base TCP variables. *)
Definition main_page2 (t : ndarray) : M unit :=
  fig <- page "Base TCP / pacing / delivery" 6 ;;
  let singles := ["rtt_100x_ms"; "rttvar_ms"; "rto_100x_ms"; "ato_100x_ms";
                  "pacing_rate_norm"; "delivery_rate_norm"] in
  fig <- for_each (zip_axes fig singles)
           (fun '(i, key) fig => on_ax i (plot_single t key key) fig) fig ;;
  fig <- on_last_ax (fun ax => ret (ax_set_xlabel "time (s)" ax)) fig ;;
  save_page fig.

(** Page 3: Congestion state. *)
Definition main_page3 (t : ndarray) : M unit :=
  fig <- page "Congestion state" 3 ;;
  fig <- on_ax 0 (plot_single t "snd_ssthresh" "snd_ssthresh") fig ;;
  fig <- on_ax 1 (fun ax =>
           data <- get_data ;;
           y <- pick data "ca_state" ;;
           ax <- ax_step t y "post" ax ;;
           ret (ax_grid_on (ax_set_ylabel "ca_state" ax))) fig ;;
  fig <- on_ax 2 (fun ax =>
           data <- get_data ;;
           y <- pick data "cwnd_rate" ;;
           ax <- ax_plot t y None None ax ;;
           ret (ax_grid_on (ax_set_xlabel "time (s)" (ax_set_ylabel "cwnd_rate" ax)))) fig ;;
  save_page fig.

(** Page 4: RTT smoothed windows. *)
Definition main_page4 (t : ndarray) : M unit :=
  triplet_page t "RTT smoothed windows"
    "rtt_s" "RTT short (ms)" "rtt_m" "RTT med (ms)" "rtt_l" "RTT long (ms)".

(** Page 5: Throughput smoothed windows. *)
Definition main_page5 (t : ndarray) : M unit :=
  triplet_page t "Throughput (normalized) windows"
    "thr_s" "thr short (norm)" "thr_m" "thr med (norm)" "thr_l" "thr long (norm)".

(** Page 6: RTT gradient windows. *)
Definition main_page6 (t : ndarray) : M unit :=
  triplet_page t "RTT gradient windows"
    "rtt_rate_s" "grad short (1/s)" "rtt_rate_m" "grad med (1/s)"
    "rtt_rate_l" "grad long (1/s)".

(** Page 7: RTT variance windows. *)
Definition main_page7 (t : ndarray) : M unit :=
  triplet_page t "RTT variance windows"
    "rtt_var_s" "rttvar short (ms)" "rtt_var_m" "rttvar med (ms)"
    "rtt_var_l" "rttvar long (ms)".

(** Page 8: Inflight windows. *)
Definition main_page8 (t : ndarray) : M unit :=
  triplet_page t "Inflight windows"
    "inflight_s" "inflight short (k pkts)" "inflight_m" "inflight med (k pkts)"
    "inflight_l" "inflight long (k pkts)".

(** Page 9: Loss windows. *)
Definition main_page9 (t : ndarray) : M unit :=
  triplet_page t "Loss windows"
    "lost_s" "lost short (x/100)" "lost_m" "lost med (x/100)"
    "lost_l" "lost long (x/100)".

(** The list [tail_keys] of page 10. *)
Definition tail_keys : list string :=
  [ "dr_minus_loss"; "time_delta_norm"; "rtt_rate_scalar"; "loss_norm"; "acked_rate_norm";
    "dr_w_ratio"; "queue_delay_proxy"; "dr_w_norm"; "cwnd_unacked_rate";
    "dr_w_max_ratio"; "dr_w_max_norm"; "reward"; "max_tmp" ].

(** Page 10: Tail metrics (64..76) plus capacity. *)
Definition main_page10 (t : ndarray) : M unit :=
  fig <- page "Tail metrics" 7 ;;
  let rows := List.length (fig_axes fig) in
  fig <- for_each (zip_axes fig (firstn rows tail_keys))
           (fun '(i, key) fig => on_ax i (plot_single t key key) fig) fig ;;
  fig <- on_last_ax (fun ax => ret (ax_set_xlabel "time (s)" ax)) fig ;;
  save_page fig.

(** [args.out or (os.path.splitext(args.file)[0] + "_all_metrics.pdf")]:
    an absent or empty [--out] gives the derived path. *)
Definition resolve_out_path (args : cli_args) : string :=
  match arg_out args with
  | Some out => if nonempty out then out
                else splitext_root (arg_file args) ++ "_all_metrics.pdf"
  | None => splitext_root (arg_file args) ++ "_all_metrics.pdf"
  end.

Definition main (args : cli_args) : M unit :=
  data <- load_data (arg_file args) ;;
  set_data data ;;
  data <- get_data ;;
  ensure_cols data ;;
  let out_path := resolve_out_path args in
  data <- get_data ;;
  t <- pick data "time" ;;
  let title_suffix := basename (arg_file args) in
  with_PdfPages out_path
    (main_page1 t title_suffix ;;
     main_page2 t ;;
     main_page3 t ;;
     main_page4 t ;;
     main_page5 t ;;
     main_page6 t ;;
     main_page7 t ;;
     main_page8 t ;;
     main_page9 t ;;
     main_page10 t) ;;
  print ("Wrote " ++ out_path).

(** The process around [main]: status 0 when [main] returns, the code of
    [sys.exit], and status 1 when an exception is not caught (the
    interpreter's traceback is not recorded in [err_lines]). *)
Definition run (args : cli_args) (w : world) : nat * world :=
  match main args w with
  | (Ret _, w') => (0, w')
  | (Exit code, w') => (code, w')
  | (Raise _, w') => (1, w')
  end.

(** A fresh process on a platform that refuses no write: nothing
    printed, [data] unbound, no document. *)
Definition initial_world (fs : string -> option string) : world :=
  {| files := fs;
     open_error := fun _ => None; save_error := fun _ _ _ => None;
     g_data := None; out_lines := []; err_lines := [];
     pdf_open := None; pdf_closed := [] |}.

(* ------------------------------------------------------------------ *)
(** ** What a series looks like on the page                             *)
(* ------------------------------------------------------------------ *)

(** The position of a value on its axis. *)
Variable coord : V -> Q.

(** The samples of a series as points. *)
Definition samples (s : series) : list (Q * Q) :=
  combine (map coord (buf (s_x s))) (map coord (buf (s_y s))).

(** matplotlib's [pts_to_poststep]: x0 x1 x1 x2 x2 ..., y0 y0 y1 y1 y2 ... *)
Fixpoint pts_to_poststep (pts : list (Q * Q)) : list (Q * Q) :=
  match pts with
  | [] => []
  | (x0, y0) :: rest =>
      (x0, y0) :: match rest with
                  | [] => []
                  | (x1, _) :: _ => (x1, y0) :: pts_to_poststep rest
                  end
  end.

(** matplotlib's [pts_to_prestep]: x0 x0 x1 x1 ..., y0 y1 y1 y2 y2 ... *)
Fixpoint pts_to_prestep (pts : list (Q * Q)) : list (Q * Q) :=
  match pts with
  | [] => []
  | (x0, y0) :: rest =>
      (x0, y0) :: match rest with
                  | [] => []
                  | (_, y1) :: _ => (x0, y1) :: pts_to_prestep rest
                  end
  end.

(** The vertices of the line drawn for a series, and the number of
    vertices per sample. [where="mid"] is not covered. *)
Definition vertices (s : series) : option (list (Q * Q)) :=
  match s_kind s with
  | DrawPlot => Some (samples s)
  | DrawStep where_ =>
      if String.eqb where_ "post" then Some (pts_to_poststep (samples s))
      else if String.eqb where_ "pre" then Some (pts_to_prestep (samples s))
      else None
  end.

Definition stride (s : series) : nat :=
  match s_kind s with DrawPlot => 1 | DrawStep _ => 2 end.

(** The point (x, y) lies on the straight segment from [p] to [q]. *)
Definition on_segment (p q : Q * Q) (x y : Q) : Prop :=
  exists l : Q, (0 <= l /\ l <= 1 /\
                 x == (1 - l) * fst p + l * fst q /\
                 y == (1 - l) * snd p + l * snd q)%Q.

(** The point (x, y) lies on the line through the vertices [vs]. *)
Fixpoint on_polyline (vs : list (Q * Q)) (x y : Q) : Prop :=
  match vs with
  | [] => False
  | p :: rest =>
      match rest with
      | [] => False
      | q :: _ => on_segment p q x y \/ on_polyline rest x y
      end
  end.

(** The point (x, y) lies on the part of the drawn line that leads from
    sample [i] to sample [i + 1]. *)
Definition rendered_between (s : series) (i : nat) (x y : Q) : Prop :=
  match vertices s with
  | Some vs => on_polyline (firstn (stride s + 1) (skipn (stride s * i) vs)) x y
  | None => False
  end.

(** The series of chart [row] on page [pg] (both 0-based) of a document. *)
Definition chart_series (pages : list figure) (pg row : nat) : list series :=
  match nth_error pages pg with
  | Some fig => match nth_error (fig_axes fig) row with
                | Some ax => ax_series ax
                | None => []
                end
  | None => []
  end.

(* ------------------------------------------------------------------ *)
(** ** Vocabulary of the statements                                     *)
(* ------------------------------------------------------------------ *)

(** The column [c] of a table, as [a[:, c]] returns it (the empty array
    where that raises). *)
Definition column (a : ndarray) (c : nat) : ndarray :=
  match index_col a c with
  | Some col => col
  | None => {| shape := []; buf := [] |}
  end.

(** [pdf.savefig(fig); plt.close(fig)] for each of the figures in turn. *)
Fixpoint save_all (figs : list figure) : M unit :=
  match figs with
  | [] => ret tt
  | fig :: rest => save_page fig ;; save_all rest
  end.

(** The text of a file reads as the data rows [rows]. *)
Definition reads_as (fs : string -> option string) (path : string)
  (rows : list (list V)) : Prop :=
  exists text, fs path = Some text /\ read_rows None 0 (data_lines text) = inr rows.

(** The three ways a file fails to be a table: there is no such file, one
    of its tokens is not a number, or two of its data lines differ in
    their number of fields. *)
Definition cannot_load (fs : string -> option string) (path : string) : Prop :=
  match fs path with
  | None => True
  | Some text =>
      (exists toks tok, In toks (data_lines text) /\ In tok toks /\
                        float_of_token tok = None) \/
      (exists r1 r2, In r1 (data_lines text) /\ In r2 (data_lines text) /\
                     List.length r1 <> List.length r2)
  end.

(** Number of fields of the first data row. *)
Definition width (rows : list (list V)) : nat :=
  match rows with [] => 0 | r :: _ => List.length r end.

(** The table of the data rows [rows]: one row per data line, one column
    per field. It is what [load_data] returns for one or more rows of
    two or more fields each ([load_data_table]); with no row, or with
    rows of a single field, [load_data] returns another array (see
    [load_data_single_column] and the runs on such files). *)
Definition table_of_rows (rows : list (list V)) : ndarray :=
  {| shape := [List.length rows; width rows]; buf := concat rows |}.

(** Duplicate-free lists, decided. *)
Fixpoint nodupb {A} (eqb : A -> A -> bool) (l : list A) : bool :=
  match l with
  | [] => true
  | x :: rest => negb (existsb (eqb x) rest) && nodupb eqb rest
  end.

(** The titles of the ten pages, in the order of the report. *)
Definition page_titles (title_suffix : string) : list string :=
  [ "Headline: Gradients & Reward — " ++ title_suffix;
    "Base TCP / pacing / delivery";
    "Congestion state";
    "RTT smoothed windows";
    "Throughput (normalized) windows";
    "RTT gradient windows";
    "RTT variance windows";
    "Inflight windows";
    "Loss windows";
    "Tail metrics" ].

(** The index of a registered name (0 for any other). *)
Definition COLS_index (key : string) : nat :=
  match COLS_get key with Some c => c | None => 0 end.

(** A finished single-series chart of column [key] of [data] over [t]. *)
Definition single_chart (kind : draw_kind) (t data : ndarray) (key ylabel : string)
  (xlabel : option string) : axes :=
  {| ax_series := [ {| s_kind := kind; s_x := t; s_y := column data (COLS_index key);
                       s_style := Solid; s_label := None |} ];
     ax_ylabel := Some ylabel; ax_xlabel := xlabel;
     ax_grid := true; ax_legend := false |}.

(** The three series of a triplet: avg solid, min dashed, max dotted. *)
Definition triplet_series (t data : ndarray) (base_key : string) : list series :=
  [ {| s_kind := DrawPlot; s_x := t; s_y := column data (COLS_index (key_avg base_key));
       s_style := Solid; s_label := Some (base_key ++ " avg") |};
    {| s_kind := DrawPlot; s_x := t; s_y := column data (COLS_index (key_min base_key));
       s_style := Dashed; s_label := Some (base_key ++ " min") |};
    {| s_kind := DrawPlot; s_x := t; s_y := column data (COLS_index (key_max base_key));
       s_style := Dotted; s_label := Some (base_key ++ " max") |} ].

(** A finished triplet chart. *)
Definition triplet_chart (t data : ndarray) (base_key ylabel : string)
  (xlabel : option string) : axes :=
  {| ax_series := triplet_series t data base_key;
     ax_ylabel := Some ylabel; ax_xlabel := xlabel;
     ax_grid := true; ax_legend := true |}.

(** A finished page of three triplet charts. *)
Definition triplet_figure (t data : ndarray) (fig_title : string)
  (b0 l0 b1 l1 b2 l2 : string) : figure :=
  {| fig_suptitle := fig_title;
     fig_axes := [ triplet_chart t data b0 l0 None;
                   triplet_chart t data b1 l1 None;
                   triplet_chart t data b2 l2 (Some "time (s)") ] |}.

(** The ten pages that [main] puts in the document for the table [data],
    its time column [t] and the base name of the input file. *)
Definition report (t data : ndarray) (title_suffix : string) : list figure :=
  [ {| fig_suptitle := "Headline: Gradients & Reward — " ++ title_suffix;
       fig_axes := [ triplet_chart t data "rtt_rate_s" "Short grad (1/s)" None;
                     triplet_chart t data "rtt_rate_m" "Med grad (1/s)" None;
                     triplet_chart t data "rtt_rate_l" "Long grad (1/s)" None;
                     single_chart DrawPlot t data "rtt_rate_scalar" "rtt_rate scalar" None;
                     single_chart DrawPlot t data "reward" "reward" (Some "time (s)") ] |};
    {| fig_suptitle := "Base TCP / pacing / delivery";
       fig_axes := [ single_chart DrawPlot t data "rtt_100x_ms" "rtt_100x_ms" None;
                     single_chart DrawPlot t data "rttvar_ms" "rttvar_ms" None;
                     single_chart DrawPlot t data "rto_100x_ms" "rto_100x_ms" None;
                     single_chart DrawPlot t data "ato_100x_ms" "ato_100x_ms" None;
                     single_chart DrawPlot t data "pacing_rate_norm" "pacing_rate_norm" None;
                     single_chart DrawPlot t data "delivery_rate_norm" "delivery_rate_norm"
                                  (Some "time (s)") ] |};
    {| fig_suptitle := "Congestion state";
       fig_axes := [ single_chart DrawPlot t data "snd_ssthresh" "snd_ssthresh" None;
                     single_chart (DrawStep "post") t data "ca_state" "ca_state" None;
                     single_chart DrawPlot t data "cwnd_rate" "cwnd_rate" (Some "time (s)") ] |};
    triplet_figure t data "RTT smoothed windows"
      "rtt_s" "RTT short (ms)" "rtt_m" "RTT med (ms)" "rtt_l" "RTT long (ms)";
    triplet_figure t data "Throughput (normalized) windows"
      "thr_s" "thr short (norm)" "thr_m" "thr med (norm)" "thr_l" "thr long (norm)";
    triplet_figure t data "RTT gradient windows"
      "rtt_rate_s" "grad short (1/s)" "rtt_rate_m" "grad med (1/s)"
      "rtt_rate_l" "grad long (1/s)";
    triplet_figure t data "RTT variance windows"
      "rtt_var_s" "rttvar short (ms)" "rtt_var_m" "rttvar med (ms)"
      "rtt_var_l" "rttvar long (ms)";
    triplet_figure t data "Inflight windows"
      "inflight_s" "inflight short (k pkts)" "inflight_m" "inflight med (k pkts)"
      "inflight_l" "inflight long (k pkts)";
    triplet_figure t data "Loss windows"
      "lost_s" "lost short (x/100)" "lost_m" "lost med (x/100)"
      "lost_l" "lost long (x/100)";
    {| fig_suptitle := "Tail metrics";
       fig_axes := [ single_chart DrawPlot t data "dr_minus_loss" "dr_minus_loss" None;
                     single_chart DrawPlot t data "time_delta_norm" "time_delta_norm" None;
                     single_chart DrawPlot t data "rtt_rate_scalar" "rtt_rate_scalar" None;
                     single_chart DrawPlot t data "loss_norm" "loss_norm" None;
                     single_chart DrawPlot t data "acked_rate_norm" "acked_rate_norm" None;
                     single_chart DrawPlot t data "dr_w_ratio" "dr_w_ratio" None;
                     single_chart DrawPlot t data "queue_delay_proxy" "queue_delay_proxy"
                                  (Some "time (s)") ] |} ].

(** The three names of a triplet. *)
Definition triplet_keys (base_key : string) : list string :=
  [key_avg base_key; key_min base_key; key_max base_key].

(** Pages 1 to 9 as the specification lists them: for each page, top to
    bottom, the names of the columns that each chart draws. Page 1, the
    three RTT-gradient triplets, the scalar gradient and the reward;
    page 2, six scalar series; page 3, the slow-start threshold, the
    state and the congestion-window rate; pages 4 to 9, the triplets of
    the short, medium and long windows of RTT, throughput, RTT gradient,
    RTT variance, in-flight count and loss. *)
Definition charts_of_pages_1_to_9 : list (list (list string)) :=
  [ [ triplet_keys "rtt_rate_s"; triplet_keys "rtt_rate_m"; triplet_keys "rtt_rate_l";
      ["rtt_rate_scalar"]; ["reward"] ];
    [ ["rtt_100x_ms"]; ["rttvar_ms"]; ["rto_100x_ms"]; ["ato_100x_ms"];
      ["pacing_rate_norm"]; ["delivery_rate_norm"] ];
    [ ["snd_ssthresh"]; ["ca_state"]; ["cwnd_rate"] ];
    map triplet_keys ["rtt_s"; "rtt_m"; "rtt_l"];
    map triplet_keys ["thr_s"; "thr_m"; "thr_l"];
    map triplet_keys ["rtt_rate_s"; "rtt_rate_m"; "rtt_rate_l"];
    map triplet_keys ["rtt_var_s"; "rtt_var_m"; "rtt_var_l"];
    map triplet_keys ["inflight_s"; "inflight_m"; "inflight_l"];
    map triplet_keys ["lost_s"; "lost_m"; "lost_l"] ].

(** The y arrays of the series of a page, chart by chart, and the x
    arrays of all of them. *)
Definition charts_columns (fig : figure) : list (list ndarray) :=
  map (fun ax => map s_y (ax_series ax)) (fig_axes fig).

Definition charts_abscissas (fig : figure) : list ndarray :=
  flat_map (fun ax => map s_x (ax_series ax)) (fig_axes fig).

(** The report of the table of the rows of the input file. *)
Definition report_of (args : cli_args) (rows : list (list V)) : list figure :=
  report (column (table_of_rows rows) 0) (table_of_rows rows) (basename (arg_file args)).

(** The pages [pages] can be written under [out_path]: the platform lets
    the document be opened there, and lets each page be saved after the
    pages before it. *)
Definition can_write (w : world) (out_path : string) (pages : list figure) : Prop :=
  open_error w out_path = None /\
  forall pre fig post,
    pages = app pre (fig :: post) -> save_error w out_path pre fig = None.

(** [pdf.savefig] for the pages [figs] in turn, on a document that holds
    [pre]: the exception of the first page refused, if any, and the
    pages that the document holds in the end. *)
Fixpoint save_outcome (refuse : list figure -> figure -> option exception)
  (pre figs : list figure) : option exception * list figure :=
  match figs with
  | [] => (None, pre)
  | fig :: rest =>
      match refuse pre fig with
      | Some e => (Some e, pre)
      | None => save_outcome refuse (app pre [fig]) rest
      end
  end.

(** The world once [main] has bound the global [data]. *)
Definition world_with_data (w : world) (data : ndarray) : world :=
  snd (set_data data w).

(** The world in which the open document is that of [out_path] and holds
    [pages]. *)
Definition with_open (w : world) (out_path : string) (pages : list figure) : world :=
  {| files := files w;
     open_error := open_error w; save_error := save_error w;
     g_data := g_data w;
     out_lines := out_lines w; err_lines := err_lines w;
     pdf_open := Some (out_path, pages);
     pdf_closed := pdf_closed w |}.

(** The world in which [main] returns: [data] bound, the report closed
    under [out_path], one more line on the output stream. *)
Definition world_after_main (w : world) (data : ndarray) (out_path : string)
  (pages : list figure) : world :=
  {| files := files w;
     open_error := open_error w; save_error := save_error w;
     g_data := Some data;
     out_lines := app (out_lines w) ["Wrote " ++ out_path];
     err_lines := err_lines w;
     pdf_open := None;
     pdf_closed := (out_path, pages) :: pdf_closed w |}.

(** The world in which [main] is left by the exception of a page that
    could not be saved: [data] bound, the document closed with the pages
    saved before, nothing printed. *)
Definition world_after_refusal (w : world) (data : ndarray) (out_path : string)
  (pages : list figure) : world :=
  {| files := files w;
     open_error := open_error w; save_error := save_error w;
     g_data := Some data;
     out_lines := out_lines w;
     err_lines := err_lines w;
     pdf_open := None;
     pdf_closed := (out_path, pages) :: pdf_closed w |}.

(** The result of a step is fixed by the binding of the global [data]:
    two worlds that agree on it give the same outcome, and agree on it
    afterwards. *)
Definition reads_only_data {A} (m : M A) : Prop :=
  forall w1 w2, g_data w1 = g_data w2 ->
    fst (m w1) = fst (m w2) /\ g_data (snd (m w1)) = g_data (snd (m w2)).

(* ================================================================== *)
(** * Properties                                                        *)
(* ================================================================== *)

(* ------------------------------------------------------------------ *)
(** ** The column map                                                   *)
(* ------------------------------------------------------------------ *)

Lemma nodupb_sound {A} (eqb : A -> A -> bool) :
  (forall x y, eqb x y = true <-> x = y) ->
  forall l, nodupb eqb l = true -> NoDup l.
Proof.
  intros Heqb l; induction l as [|x rest IH]; simpl; intro H.
  - constructor.
  - apply andb_true_iff in H as [Hx Hrest].
    constructor; [|now apply IH].
    intro Hin. apply negb_true_iff in Hx.
    assert (existsb (eqb x) rest = true) as E; [|congruence].
    apply existsb_exists. exists x. split; [assumption|].
    now apply Heqb.
Qed.

Lemma dict_get_in (items : list (string * nat)) (key : string) :
  In key (map fst items) <-> exists c, dict_get items key = Some c.
Proof.
  induction items as [|[k v] rest IH]; simpl.
  - split; [tauto|]. intros [c H]; discriminate.
  - split.
    + intros [Hk | Hin].
      * subst k. destruct (dict_get rest key) as [c|]; [now exists c|].
        rewrite String.eqb_refl. now exists v.
      * apply IH in Hin as [c Hc]. rewrite Hc. now exists c.
    + intros [c H]. destruct (dict_get rest key) as [c'|] eqn:E.
      * right. apply IH. now exists c'.
      * destruct (String.eqb k key) eqn:Ek; [|discriminate].
        left. now apply String.eqb_eq.
Qed.

Lemma triplets_resolve :
  Forall (fun base => exists a,
            COLS_get (key_avg base) = Some a /\
            COLS_get (key_min base) = Some (a + 1) /\
            COLS_get (key_max base) = Some (a + 2)) triplet_bases.
Proof.
  unfold triplet_bases, TRIPLETS; simpl map.
  repeat (apply Forall_cons;
          [eexists; split; [vm_compute; reflexivity|split; vm_compute; reflexivity]|]).
  apply Forall_nil.
Qed.

(** C7. The column map has exactly 77 names, each bound to one index; the
    indices are pairwise different and are exactly 0..76; and each of the
    18 triplet base names resolves, through its [_avg], [_min] and [_max]
    names, to three adjacent indices in that order. *)
Theorem schema_registry_invariant :
  List.length COLS = 77 /\
  NoDup COLS_keys /\
  (forall key, In key COLS_keys <-> exists c, COLS_get key = Some c) /\
  NoDup COLS_values /\
  (forall i, In i COLS_values <-> i < 77) /\
  List.length TRIPLETS = 18 /\
  Forall (fun base => exists a,
            COLS_get (key_avg base) = Some a /\
            COLS_get (key_min base) = Some (a + 1) /\
            COLS_get (key_max base) = Some (a + 2)) triplet_bases.
Proof.
  assert (COLS_values = seq 0 77) as Hvals by reflexivity.
  split; [reflexivity|].
  split; [apply (nodupb_sound String.eqb String.eqb_eq); vm_compute; reflexivity|].
  split; [intro key; apply dict_get_in|].
  split; [rewrite Hvals; apply seq_NoDup|].
  split; [intro i; rewrite Hvals, in_seq; lia|].
  split; [reflexivity|].
  exact triplets_resolve.
Qed.

(* ------------------------------------------------------------------ *)
(** ** The column-count check                                           *)
(* ------------------------------------------------------------------ *)

Lemma append_assoc (a b c : string) : (a ++ b) ++ c = a ++ (b ++ c).
Proof. induction a as [|ch a IH]; simpl; [reflexivity | now rewrite IH]. Qed.

Lemma contains_mid (pre sub post : string) : contains (pre ++ sub ++ post) sub.
Proof. now exists pre, post. Qed.

Lemma COLS_max_value : COLS_max = 76.
Proof. reflexivity. Qed.

(** The message of the [ValueError] that [ensure_cols] raises. *)
Lemma ensure_cols_raises (data : ndarray) (ncols : nat) (w : world) :
  nth_error (shape data) 1 = Some ncols ->
  ncols <= COLS_max ->
  ensure_cols data w =
    (Raise (ValueError ("File has " ++ str_nat ncols ++ " cols; expected ≥ "
                        ++ str_nat (COLS_max + 1) ++ " from the C++ logger.")), w).
Proof.
  intros Hn Hle. unfold ensure_cols. rewrite Hn.
  apply Nat.leb_le in Hle. rewrite Hle. reflexivity.
Qed.

Lemma ensure_cols_passes (data : ndarray) (ncols : nat) (w : world) :
  nth_error (shape data) 1 = Some ncols ->
  COLS_max < ncols ->
  ensure_cols data w = (Ret tt, w).
Proof.
  intros Hn Hlt. unfold ensure_cols. rewrite Hn.
  apply Nat.leb_gt in Hlt. rewrite Hlt. reflexivity.
Qed.

(** C2. For a table of [ncols] columns the check passes exactly when
    [ncols] exceeds the largest index of the column map; it passes at
    [ncols = max + 1], and with one column fewer it raises a [ValueError]
    whose message contains the decimal forms of both the actual count and
    the required count. *)
Theorem ensure_cols_threshold (data : ndarray) (ncols : nat) (w : world) :
  nth_error (shape data) 1 = Some ncols ->
  (ensure_cols data w = (Ret tt, w) <-> COLS_max < ncols) /\
  (ncols = COLS_max + 1 -> ensure_cols data w = (Ret tt, w)) /\
  (ncols <= COLS_max ->
   exists msg, ensure_cols data w = (Raise (ValueError msg), w) /\
               contains msg (str_nat ncols) /\
               contains msg (str_nat (COLS_max + 1))) /\
  (ncols + 1 = COLS_max + 1 ->
   exists msg, ensure_cols data w = (Raise (ValueError msg), w) /\
               contains msg (str_nat ncols) /\
               contains msg (str_nat (COLS_max + 1))).
Proof.
  intro Hn.
  assert (forall n, n = ncols -> n <= COLS_max ->
          exists msg, ensure_cols data w = (Raise (ValueError msg), w) /\
                      contains msg (str_nat ncols) /\
                      contains msg (str_nat (COLS_max + 1))) as Hfail.
  { intros n -> Hle. eexists. split; [exact (ensure_cols_raises _ _ _ Hn Hle)|]. split.
    - apply contains_mid.
    - rewrite <- (append_assoc _ " cols; expected ≥ "), <- append_assoc.
      apply contains_mid. }
  split; [|split; [|split]].
  - split.
    + intro Hok. destruct (Nat.le_gt_cases ncols COLS_max) as [Hle|Hgt]; [|exact Hgt].
      rewrite (ensure_cols_raises _ _ _ Hn Hle) in Hok. discriminate.
    + now apply ensure_cols_passes.
  - intros ->. apply (ensure_cols_passes _ _ _ Hn). lia.
  - intro Hle. now apply (Hfail ncols).
  - intro Heq. apply (Hfail ncols); [reflexivity | lia].
Qed.

(* ------------------------------------------------------------------ *)
(** ** The loader                                                       *)
(* ------------------------------------------------------------------ *)

(** A load that fails: one line on the error stream, then [sys.exit(1)]. *)
Lemma load_data_failure (path : string) (w : world) (f : loadtxt_failure) :
  np_loadtxt (files w) path = inl f ->
  load_data path w =
    (Exit 1, snd (print_err ("Error reading '" ++ path ++ "': " ++ loadtxt_message f) w)).
Proof.
  intro H. unfold load_data, try_except, bind, loadtxt. rewrite H. reflexivity.
Qed.

(** A load that succeeds returns the array of [np.loadtxt], reshaped to
    one row when it has a single axis, and changes nothing. *)
Lemma load_data_success (path : string) (w : world) (a : ndarray) :
  np_loadtxt (files w) path = inr a ->
  load_data path w =
    (Ret (if Nat.eqb (ndim a) 1 then reshape_1_neg1 a else a), w).
Proof.
  intro H. unfold load_data, try_except, bind, loadtxt. rewrite H. reflexivity.
Qed.

Lemma np_loadtxt_rows (fs : string -> option string) (path : string) (rows : list (list V)) :
  reads_as fs path rows ->
  np_loadtxt fs path = inr (ensure_ndmin0 (array_of_rows rows)).
Proof.
  intros (text & Hfile & Hread). unfold np_loadtxt. now rewrite Hfile, Hread.
Qed.

Lemma reshape_vector (n : nat) (b : list V) :
  reshape_1_neg1 {| shape := [n]; buf := b |} = {| shape := [1; n]; buf := b |}.
Proof.
  unfold reshape_1_neg1, size; cbn [shape buf prod_list fold_right].
  now rewrite Nat.mul_1_r, Nat.div_1_r.
Qed.

(** Rows of two or more fields load as the table of those rows, also
    when there is a single row. *)
Lemma load_data_table (path : string) (w : world) (rows : list (list V)) :
  reads_as (files w) path rows ->
  1 <= List.length rows ->
  2 <= width rows ->
  load_data path w =
    (Ret {| shape := [List.length rows; width rows]; buf := concat rows |}, w).
Proof.
  intros Hreads Hrows Hwidth.
  rewrite (load_data_success _ _ _ (np_loadtxt_rows _ _ _ Hreads)).
  destruct rows as [|r rest]; [simpl in Hrows; lia|].
  simpl in Hwidth.
  unfold ensure_ndmin0, array_of_rows, squeeze, ndim.
  cbn [shape buf List.length Nat.ltb Nat.leb filter width].
  destruct (Nat.eqb_spec (List.length r) 1) as [E|_]; [lia|].
  destruct rest as [|r' rest]; cbn [List.length Nat.eqb negb].
  - apply (f_equal (fun a => (Ret a, w))), reshape_vector.
  - reflexivity.
Qed.

(** Two or more rows of one field each load as a single row. *)
Lemma load_data_single_column (path : string) (w : world) (rows : list (list V)) :
  reads_as (files w) path rows ->
  2 <= List.length rows ->
  width rows = 1 ->
  load_data path w =
    (Ret {| shape := [1; List.length rows]; buf := concat rows |}, w).
Proof.
  intros Hreads Hrows Hwidth.
  rewrite (load_data_success _ _ _ (np_loadtxt_rows _ _ _ Hreads)).
  destruct rows as [|r [|r' rest]]; simpl in Hrows; try lia.
  simpl in Hwidth.
  unfold ensure_ndmin0, array_of_rows, squeeze, ndim.
  cbn [shape buf List.length Nat.ltb Nat.leb filter width].
  rewrite Hwidth. cbn [List.length Nat.eqb negb].
  apply (f_equal (fun a => (Ret a, w))), reshape_vector.
Qed.

(** [read_rows] returns as many rows as it was given lines, each of the
    width of the first. *)
Lemma convert_row_length (row col : nat) (toks : list string) (vs : list V) :
  convert_row row col toks = inr vs -> List.length vs = List.length toks.
Proof.
  revert col vs; induction toks as [|tok rest IH]; simpl; intros col vs H.
  - now inversion H.
  - destruct (float_of_token tok); [|discriminate].
    destruct (convert_row row (S col) rest) eqn:E; [discriminate|].
    inversion H; subst; simpl. f_equal. eapply IH; eassumption.
Qed.

Lemma read_rows_widths (ncols : option nat) (row : nat) (lines : list (list string))
  (rows : list (list V)) :
  read_rows ncols row lines = inr rows ->
  List.length rows = List.length lines /\
  forall n, (ncols = Some n \/ (ncols = None /\ n = width rows)) ->
            Forall (fun r => List.length r = n) rows.
Proof.
  revert ncols row rows; induction lines as [|toks rest IH]; simpl; intros ncols row rows H.
  - inversion H; subst. split; [reflexivity|]. intros; constructor.
  - set (n0 := match ncols with Some n => n | None => List.length toks end) in *.
    destruct (Nat.eqb_spec (List.length toks) n0) as [En|]; simpl in H; [|discriminate].
    destruct (convert_row row 0 toks) as [|vs] eqn:Ec; [discriminate|].
    destruct (read_rows (Some n0) (S row) rest) as [|vss] eqn:Er; [discriminate|].
    inversion H; subst rows; clear H.
    apply IH in Er as [Hlen Hall]. apply convert_row_length in Ec.
    split; [simpl; now rewrite Hlen|].
    intros n Hn. assert (n = n0) as ->.
    { destruct Hn as [Hn | [Hn Hw]]; subst n0; rewrite Hn in *.
      - reflexivity.
      - simpl in Hw. lia. }
    constructor; [lia|]. apply Hall. now left.
Qed.

Lemma concat_length_uniform (rows : list (list V)) (n : nat) :
  Forall (fun r => List.length r = n) rows ->
  List.length (concat rows) = List.length rows * n.
Proof.
  induction 1 as [|r rows Hr _ IH]; [reflexivity|].
  simpl. rewrite length_app, IH, Hr. reflexivity.
Qed.

(** The table of the rows read from a file is well formed: its buffer
    has one element per row and column. *)
Lemma table_of_rows_well_formed (fs : string -> option string) (path : string)
  (rows : list (list V)) :
  reads_as fs path rows -> well_formed (table_of_rows rows).
Proof.
  intros (text & _ & Hread).
  apply read_rows_widths in Hread as [_ Hall].
  unfold well_formed, size, table_of_rows; cbn [shape buf prod_list fold_right].
  rewrite (concat_length_uniform rows (width rows)); [lia|].
  apply Hall. now right.
Qed.

Lemma convert_row_tokens (row col : nat) (toks : list string) (vs : list V) :
  convert_row row col toks = inr vs ->
  Forall (fun tok => float_of_token tok <> None) toks.
Proof.
  revert col vs; induction toks as [|tok rest IH]; simpl; intros col vs H.
  - constructor.
  - destruct (float_of_token tok) eqn:Et; [|discriminate].
    destruct (convert_row row (S col) rest) eqn:E; [discriminate|].
    constructor; [congruence | eapply IH; eassumption].
Qed.

(** A read that succeeds met only numeric tokens and lines of one width. *)
Lemma read_rows_lines (ncols : option nat) (row : nat) (lines : list (list string))
  (rows : list (list V)) :
  read_rows ncols row lines = inr rows ->
  Forall (Forall (fun tok => float_of_token tok <> None)) lines /\
  exists n, Forall (fun toks => List.length toks = n) lines.
Proof.
  revert ncols row rows; induction lines as [|toks rest IH]; simpl; intros ncols row rows H.
  - split; [constructor | exists 0; constructor].
  - set (n0 := match ncols with Some n => n | None => List.length toks end) in *.
    destruct (Nat.eqb_spec (List.length toks) n0) as [En|]; simpl in H; [|discriminate].
    destruct (convert_row row 0 toks) as [|vs] eqn:Ec; [discriminate|].
    destruct (read_rows (Some n0) (S row) rest) as [|vss] eqn:Er; [discriminate|].
    apply convert_row_tokens in Ec.
    assert (Forall (fun toks => List.length toks = n0) rest) as Hrest.
    { clear -Er. revert vss Er. generalize (S row) as k.
      induction rest as [|l rest IH]; intros k vss Er.
      - constructor.
      - simpl in Er.
        destruct (Nat.eqb_spec (List.length l) n0) as [El|]; simpl in Er; [|discriminate].
        destruct (convert_row k 0 l); [discriminate|].
        destruct (read_rows (Some n0) (S k) rest) eqn:E; [discriminate|].
        constructor; [exact El | eapply IH; eassumption]. }
    apply IH in Er as [Htok _].
    split; [now constructor | exists n0; now constructor].
Qed.

Lemma cannot_load_fails (fs : string -> option string) (path : string) :
  cannot_load fs path -> exists f, np_loadtxt fs path = inl f.
Proof.
  unfold cannot_load, np_loadtxt. destruct (fs path) as [text|]; [|now eexists].
  intro Hbad. destruct (read_rows None 0 (data_lines text)) as [f|rows] eqn:E; [now exists f|].
  exfalso. apply read_rows_lines in E as [Htok [n Hn]].
  rewrite Forall_forall in Htok, Hn.
  destruct Hbad as [(toks & tok & Hin & Hintok & Hnone) | (r1 & r2 & H1 & H2 & Hne)].
  - specialize (Htok _ Hin). rewrite Forall_forall in Htok. now apply (Htok tok).
  - apply Hn in H1, H2. congruence.
Qed.

(** C8. When the file of the path is missing, holds a token that is not a
    number, or has data lines of different widths, [np.loadtxt] fails;
    [load_data] then prints one line on the error stream, made of the
    path and of the text of the failure, prints nothing else, and ends
    the process with status 1 before any document is opened. *)
Theorem load_failure_is_reported (args : cli_args) (w : world) :
  cannot_load (files w) (arg_file args) ->
  exists f msg w',
    np_loadtxt (files w) (arg_file args) = inl f /\
    msg = "Error reading '" ++ arg_file args ++ "': " ++ loadtxt_message f /\
    contains msg (arg_file args) /\
    contains msg (loadtxt_message f) /\
    load_data (arg_file args) w = (Exit 1, w') /\
    run args w = (1, w') /\
    err_lines w' = (err_lines w ++ [msg])%list /\
    out_lines w' = out_lines w /\
    pdf_open w' = pdf_open w /\
    pdf_closed w' = pdf_closed w.
Proof.
  intro Hbad. apply cannot_load_fails in Hbad as [f Hf].
  exists f. eexists. eexists.
  split; [exact Hf|]. split; [reflexivity|].
  split; [apply (contains_mid "Error reading '" (arg_file args))|].
  split.
  { exists ("Error reading '" ++ arg_file args ++ "': "), "".
    rewrite <- !append_assoc. clear. generalize (loadtxt_message f) as m.
    generalize ((("Error reading '" ++ arg_file args) ++ "': ")) as p.
    intros p m. induction p as [|c p IH]; simpl.
    - induction m as [|c m IH]; simpl; [reflexivity | now rewrite <- IH].
    - now rewrite <- IH. }
  split; [exact (load_data_failure _ _ _ Hf)|].
  split.
  { unfold run, main, bind. rewrite (load_data_failure _ _ _ Hf). reflexivity. }
  repeat split.
Qed.

(* ------------------------------------------------------------------ *)
(** ** The accessor                                                     *)
(* ------------------------------------------------------------------ *)

Lemma index_col_table (data : ndarray) (nrows ncols c : nat) :
  shape data = [nrows; ncols] ->
  c < ncols ->
  index_col data c = Some (column data c) /\ shape (column data c) = [nrows].
Proof.
  intros Hs Hc. unfold column, index_col. rewrite Hs.
  apply Nat.ltb_lt in Hc. rewrite Hc. split; reflexivity.
Qed.

(** On a table, [pick] returns the column of the key, a one-axis array
    with one entry per row, and changes nothing. *)
Lemma pick_table (data : ndarray) (nrows ncols c : nat) (key : string) (w : world) :
  shape data = [nrows; ncols] ->
  COLS_get key = Some c ->
  c < ncols ->
  pick data key w = (Ret (column data c), w).
Proof.
  intros Hs Hk Hc. unfold pick. rewrite Hk.
  destruct (index_col_table data nrows ncols c Hs Hc) as [-> _]. reflexivity.
Qed.

Lemma first_dim_column (data : ndarray) (nrows ncols c : nat) :
  shape data = [nrows; ncols] ->
  c < ncols ->
  first_dim (column data c) = nrows.
Proof.
  intros Hs Hc. unfold first_dim.
  destruct (index_col_table data nrows ncols c Hs Hc) as [_ ->]. reflexivity.
Qed.

(** The column 0 of a one-row table holds the first field of the row. *)
Lemma column0_one_row (n : nat) (vs : list V) :
  1 <= n ->
  buf (column {| shape := [1; n]; buf := vs |} 0) = firstn 1 vs.
Proof.
  intro Hn. unfold column, index_col; cbn [shape buf].
  apply Nat.ltb_lt in Hn. rewrite Hn. cbn. now rewrite app_nil_r.
Qed.

(** A file with exactly one data line of two or more numeric tokens loads
    as a table of one row whose columns are the tokens in order; [pick]
    of ["time"] on it returns a one-axis array of length 1 holding the
    first value. (The reshape of [load_data] is there for this case; a
    line of a single token escapes it, see the run on [one.txt].) *)
Lemma single_row_file_is_one_row_table (path : string) (w : world) (vs : list V) :
  reads_as (files w) path [vs] ->
  2 <= List.length vs ->
  exists table col,
    load_data path w = (Ret table, w) /\
    shape table = [1; List.length vs] /\
    buf table = vs /\
    pick table "time" w = (Ret col, w) /\
    shape col = [1] /\
    buf col = firstn 1 vs /\
    List.length (buf col) = 1.
Proof.
  intros Hreads Hlen.
  pose proof (load_data_table path w [vs] Hreads) as Hload.
  cbn [List.length width concat] in Hload. rewrite app_nil_r in Hload.
  specialize (Hload (le_n 1) Hlen).
  set (table := {| shape := [1; List.length vs]; buf := vs |}) in *.
  assert (shape table = [1; List.length vs]) as Hs by reflexivity.
  assert (0 < List.length vs) as H0 by lia.
  exists table, (column table 0).
  split; [exact Hload|]. split; [exact Hs|]. split; [reflexivity|].
  split; [exact (pick_table table _ _ 0 "time" w Hs eq_refl H0)|].
  split; [exact (proj2 (index_col_table table _ _ 0 Hs H0))|].
  assert (buf (column table 0) = firstn 1 vs) as Hb by (apply column0_one_row; lia).
  split; [exact Hb|].
  rewrite Hb. destruct vs as [|v rest]; [simpl in Hlen; lia | reflexivity].
Qed.

(** A one-axis result of [np.loadtxt] leaves [load_data] as a table of
    one row over the same elements. *)
Lemma load_data_one_axis (path : string) (w : world) (a : ndarray) :
  np_loadtxt (files w) path = inr a ->
  ndim a = 1 ->
  exists n, shape a = [n] /\
            load_data path w = (Ret {| shape := [1; n]; buf := buf a |}, w).
Proof.
  intros Hload Hdim. rewrite (load_data_success _ _ _ Hload), Hdim.
  destruct a as [sh b]. unfold ndim in Hdim; cbn [shape] in Hdim.
  destruct sh as [|n [|m sh]]; try discriminate.
  exists n. split; [reflexivity|]. cbn [Nat.eqb buf]. now rewrite reshape_vector.
Qed.

Lemma np_loadtxt_single_column (fs : string -> option string) (path : string)
  (rows : list (list V)) :
  reads_as fs path rows ->
  2 <= List.length rows ->
  width rows = 1 ->
  np_loadtxt fs path = inr {| shape := [List.length rows]; buf := concat rows |}.
Proof.
  intros Hreads Hrows Hwidth. rewrite (np_loadtxt_rows _ _ _ Hreads).
  destruct rows as [|r [|r' rest]]; simpl in Hrows; try lia.
  simpl in Hwidth.
  unfold ensure_ndmin0, array_of_rows, squeeze, ndim.
  cbn [shape buf List.length Nat.ltb Nat.leb filter width].
  rewrite Hwidth. reflexivity.
Qed.

Lemma concat_singletons (vs : list V) : concat (map (fun v => [v]) vs) = vs.
Proof. induction vs as [|v vs IH]; simpl; [reflexivity | now rewrite IH]. Qed.

(** C10. Whenever [np.loadtxt] returns a one-axis array, [load_data]
    returns a table of exactly one row over the same elements. A file of
    two or more lines with one token each is such a case: its N values
    come back as one row of N columns, the same table that the file with
    the N values on one line loads as. *)
Theorem one_axis_load_is_one_row (w : world) (path : string) :
  (forall a, np_loadtxt (files w) path = inr a -> ndim a = 1 ->
     exists n, shape a = [n] /\
               load_data path w = (Ret {| shape := [1; n]; buf := buf a |}, w)) /\
  (forall rows, reads_as (files w) path rows -> 2 <= List.length rows -> width rows = 1 ->
     (exists a, np_loadtxt (files w) path = inr a /\ ndim a = 1) /\
     load_data path w =
       (Ret {| shape := [1; List.length rows]; buf := concat rows |}, w)) /\
  (forall path_row vs,
     reads_as (files w) path (map (fun v => [v]) vs) ->
     reads_as (files w) path_row [vs] ->
     2 <= List.length vs ->
     load_data path w = (Ret {| shape := [1; List.length vs]; buf := vs |}, w) /\
     load_data path_row w = load_data path w).
Proof.
  split; [|split].
  - intros a Hload Hdim. exact (load_data_one_axis path w a Hload Hdim).
  - intros rows Hreads Hrows Hwidth. split.
    + eexists. split; [exact (np_loadtxt_single_column _ _ _ Hreads Hrows Hwidth)|].
      reflexivity.
    + exact (load_data_single_column path w rows Hreads Hrows Hwidth).
  - intros path_row vs Hcol Hrow Hlen.
    assert (load_data path w = (Ret {| shape := [1; List.length vs]; buf := vs |}, w)) as Hc.
    { rewrite (load_data_single_column path w _ Hcol).
      - now rewrite length_map, concat_singletons.
      - now rewrite length_map.
      - destruct vs; [simpl in Hlen; lia | reflexivity]. }
    split; [exact Hc|]. rewrite Hc.
    rewrite (load_data_table path_row w [vs] Hrow (le_n 1) Hlen).
    cbn [List.length width concat]. now rewrite app_nil_r.
Qed.

(* ------------------------------------------------------------------ *)
(** ** Drawing steps on a checked table                                 *)
(* ------------------------------------------------------------------ *)

Lemma bind_returns {A B} (m : M A) (k : A -> M B) (w w' : world) (a : A)
  (r : outcome B * world) :
  m w = (Ret a, w') -> k a w' = r -> bind m k w = r.
Proof. intros Hm Hk. unfold bind. now rewrite Hm. Qed.

Lemma get_data_bound (data : ndarray) (w : world) :
  g_data w = Some data -> get_data w = (Ret data, w).
Proof. intro H. unfold get_data. now rewrite H. Qed.

Lemma draw_ok (kind : draw_kind) (x y : ndarray) (fmt label : option string)
  (st : linestyle) (ax : axes) (w : world) :
  first_dim x = first_dim y ->
  linestyle_of_fmt fmt = Some st ->
  draw kind x y fmt label ax w =
    (Ret (add_series {| s_kind := kind; s_x := x; s_y := y;
                        s_style := st; s_label := label |} ax), w).
Proof.
  intros Hd Hst. unfold draw. rewrite Hd, Nat.eqb_refl, Hst. reflexivity.
Qed.

Lemma dict_get_bound (items : list (string * nat)) (key : string) (c : nat) :
  dict_get items key = Some c -> c <= max_list (map snd items).
Proof.
  induction items as [|[k v] rest IH]; simpl; [discriminate|].
  destruct (dict_get rest key) as [c'|].
  - intro H; inversion H; subst. specialize (IH eq_refl). lia.
  - destruct (String.eqb k key); [|discriminate]. intro H; inversion H; subst. lia.
Qed.

Lemma COLS_get_bound (key : string) (c : nat) :
  COLS_get key = Some c -> c <= COLS_max.
Proof. apply dict_get_bound. Qed.

Lemma COLS_index_get (key : string) (c : nat) :
  COLS_get key = Some c -> COLS_index key = c.
Proof. intro H. unfold COLS_index. now rewrite H. Qed.

Lemma on_ax_returns (i : nat) (f : axes -> M axes) (fig : figure) (w : world)
  (ax ax' : axes) :
  nth_error (fig_axes fig) i = Some ax ->
  f ax w = (Ret ax', w) ->
  on_ax i f fig w =
    (Ret {| fig_suptitle := fig_suptitle fig;
            fig_axes := list_set i ax' (fig_axes fig) |}, w).
Proof.
  intros Hi Hf. unfold on_ax. rewrite Hi. unfold bind. rewrite Hf. reflexivity.
Qed.

Lemma save_page_keeps_data (fig : figure) (w : world) :
  g_data (snd (save_page fig w)) = g_data w.
Proof.
  unfold save_page, pdf_savefig.
  destruct (pdf_open w) as [[p pages]|]; [destruct (save_error w p pages fig)|]; reflexivity.
Qed.

Ltac in_bases :=
  unfold triplet_bases, TRIPLETS; cbn [map fst In];
  repeat (first [left; reflexivity | right]).

(** One step of a page: the statement returns, and the rest of the page
    goes on in the world it leaves. *)
Tactic Notation "page_step" tactic3(lem) :=
  eapply bind_returns; [lem | cbv beta].

Tactic Notation "on_ax_step" tactic3(lem) :=
  eapply bind_returns; [eapply on_ax_returns; [reflexivity | lem] | cbv beta].

Section Drawing.

(** A table [data] of [nrows] rows and more than [COLS_max] columns, and
    an x array [t] with one entry per row. *)
Variables (data t : ndarray) (nrows ncols : nat).
Hypothesis data_shape : shape data = [nrows; ncols].
Hypothesis data_wide : COLS_max < ncols.
Hypothesis t_rows : first_dim t = nrows.

Lemma pick_registered (key : string) (c : nat) (w : world) :
  COLS_get key = Some c ->
  pick data key w = (Ret (column data (COLS_index key)), w).
Proof.
  intro Hk. rewrite (COLS_index_get key c Hk).
  apply (pick_table data nrows ncols c key w data_shape Hk).
  apply COLS_get_bound in Hk. lia.
Qed.

Lemma first_dim_registered (key : string) (c : nat) :
  COLS_get key = Some c ->
  first_dim t = first_dim (column data (COLS_index key)).
Proof.
  intro Hk. rewrite (COLS_index_get key c Hk), t_rows. symmetry.
  apply (first_dim_column data nrows ncols c data_shape).
  apply COLS_get_bound in Hk. lia.
Qed.

(** One single-series chart of [main] on a fresh chart: the column is
    read from the global [data], drawn over [t], and the chart is
    finished by its labels and grid. *)
Lemma inline_chart_ok (kind : draw_kind) (key : string) (c : nat)
  (finish : axes -> axes) (w : world) :
  COLS_get key = Some c ->
  g_data w = Some data ->
  (data' <- get_data ;; y <- pick data' key ;;
   ax <- draw kind t y None None new_axes ;; ret (finish ax)) w =
    (Ret (finish (add_series {| s_kind := kind; s_x := t;
                                s_y := column data (COLS_index key);
                                s_style := Solid; s_label := None |} new_axes)), w).
Proof.
  intros Hk Hg.
  eapply bind_returns; [exact (get_data_bound data w Hg)|].
  eapply bind_returns; [exact (pick_registered key c w Hk)|].
  eapply bind_returns;
    [apply draw_ok; [exact (first_dim_registered key c Hk) | reflexivity]|].
  reflexivity.
Qed.

Lemma plot_single_ok (key ylabel : string) (c : nat) (w : world) :
  COLS_get key = Some c ->
  g_data w = Some data ->
  plot_single t key ylabel new_axes w =
    (Ret (single_chart DrawPlot t data key ylabel None), w).
Proof.
  intros Hk Hg. unfold plot_single, ax_plot.
  exact (inline_chart_ok DrawPlot key c
           (fun ax => ax_grid_on (ax_set_ylabel ylabel ax)) w Hk Hg).
Qed.

(** [plot_triplet] on any chart: three series are added, in the order
    avg, min, max, and the label, grid and legend are set. *)
Lemma plot_triplet_ok (ax : axes) (base_key ylabel : string) (a m x : nat) (w : world) :
  COLS_get (key_avg base_key) = Some a ->
  COLS_get (key_min base_key) = Some m ->
  COLS_get (key_max base_key) = Some x ->
  g_data w = Some data ->
  plot_triplet ax t base_key ylabel w =
    (Ret {| ax_series := app (ax_series ax) (triplet_series t data base_key);
            ax_ylabel := Some ylabel; ax_xlabel := ax_xlabel ax;
            ax_grid := true; ax_legend := true |}, w).
Proof.
  intros Ha Hm Hx Hg. unfold plot_triplet, ax_plot.
  eapply bind_returns; [exact (get_data_bound data w Hg)|].
  eapply bind_returns; [exact (pick_registered _ a w Ha)|].
  eapply bind_returns;
    [apply draw_ok; [exact (first_dim_registered _ a Ha) | reflexivity]|].
  eapply bind_returns; [exact (get_data_bound data w Hg)|].
  eapply bind_returns; [exact (pick_registered _ m w Hm)|].
  eapply bind_returns;
    [apply draw_ok; [exact (first_dim_registered _ m Hm) | reflexivity]|].
  eapply bind_returns; [exact (get_data_bound data w Hg)|].
  eapply bind_returns; [exact (pick_registered _ x w Hx)|].
  eapply bind_returns;
    [apply draw_ok; [exact (first_dim_registered _ x Hx) | reflexivity]|].
  unfold ret, ax_legend_on, ax_grid_on, ax_set_ylabel, add_series, triplet_series.
  cbn [ax_series ax_ylabel ax_xlabel ax_grid ax_legend].
  now rewrite <- !app_assoc.
Qed.

Lemma triplet_base_registered (base_key : string) :
  In base_key triplet_bases ->
  exists a, COLS_get (key_avg base_key) = Some a /\
            COLS_get (key_min base_key) = Some (a + 1) /\
            COLS_get (key_max base_key) = Some (a + 2).
Proof.
  intro Hin. pose proof triplets_resolve as Hall.
  rewrite Forall_forall in Hall. exact (Hall base_key Hin).
Qed.

(** C6. For every triplet base name, [plot_triplet] on an empty chart
    draws exactly three series over [t], in the order avg, min, max: the
    [_avg] column solid, the [_min] column dashed, the [_max] column
    dotted, each labelled for the legend, and the legend is attached; the
    three columns are adjacent in the table. *)
Theorem plot_triplet_three_series (base_key ylabel : string) (w : world) :
  In base_key triplet_bases ->
  g_data w = Some data ->
  exists ax a,
    plot_triplet new_axes t base_key ylabel w = (Ret ax, w) /\
    COLS_get (key_avg base_key) = Some a /\
    ax_series ax =
      [ {| s_kind := DrawPlot; s_x := t; s_y := column data a;
           s_style := Solid; s_label := Some (base_key ++ " avg") |};
        {| s_kind := DrawPlot; s_x := t; s_y := column data (a + 1);
           s_style := Dashed; s_label := Some (base_key ++ " min") |};
        {| s_kind := DrawPlot; s_x := t; s_y := column data (a + 2);
           s_style := Dotted; s_label := Some (base_key ++ " max") |} ] /\
    List.length (ax_series ax) = 3 /\
    ax_legend ax = true /\
    ax_ylabel ax = Some ylabel.
Proof.
  intros Hin Hg.
  destruct (triplet_base_registered base_key Hin) as (a & Ha & Hm & Hx).
  eexists. exists a.
  split; [exact (plot_triplet_ok new_axes base_key ylabel _ _ _ w Ha Hm Hx Hg)|].
  split; [exact Ha|].
  cbn [ax_series ax_legend ax_ylabel new_axes app]. unfold triplet_series.
  rewrite (COLS_index_get _ _ Ha), (COLS_index_get _ _ Hm), (COLS_index_get _ _ Hx).
  repeat split.
Qed.

(* ------------------------------------------------------------------ *)
(** ** The pages                                                        *)
(* ------------------------------------------------------------------ *)

(** A chart statement of [plot_triplet] on a fresh chart of a page. *)
Lemma plot_triplet_fresh (base_key ylabel : string) (w : world) :
  In base_key triplet_bases ->
  g_data w = Some data ->
  plot_triplet new_axes t base_key ylabel w =
    (Ret (triplet_chart t data base_key ylabel None), w).
Proof.
  intros Hin Hg.
  destruct (triplet_base_registered base_key Hin) as (a & Ha & Hm & Hx).
  exact (plot_triplet_ok new_axes base_key ylabel _ _ _ w Ha Hm Hx Hg).
Qed.

(** Each page of [main], in a world that binds [data] to the table, draws
    its figure and then hands it to [pdf.savefig]. *)
Lemma triplet_page_ok (fig_title b0 l0 b1 l1 b2 l2 : string) (w : world) :
  In b0 triplet_bases -> In b1 triplet_bases -> In b2 triplet_bases ->
  g_data w = Some data ->
  triplet_page t fig_title b0 l0 b1 l1 b2 l2 w =
    save_page (triplet_figure t data fig_title b0 l0 b1 l1 b2 l2) w.
Proof.
  intros H0 H1 H2 Hg. unfold triplet_page.
  page_step reflexivity.
  on_ax_step (exact (plot_triplet_fresh b0 l0 w H0 Hg)).
  on_ax_step (exact (plot_triplet_fresh b1 l1 w H1 Hg)).
  on_ax_step (exact (plot_triplet_fresh b2 l2 w H2 Hg)).
  page_step (unfold on_last_ax; eapply on_ax_returns; reflexivity).
  reflexivity.
Qed.

Lemma main_page1_ok (title_suffix : string) (w : world) :
  g_data w = Some data ->
  main_page1 t title_suffix w =
    save_page (nth 0 (report t data title_suffix) (mk_figure "" [])) w.
Proof.
  intro data_bound. unfold main_page1.
  page_step reflexivity.
  on_ax_step (apply plot_triplet_fresh; [in_bases | exact data_bound]).
  on_ax_step (apply plot_triplet_fresh; [in_bases | exact data_bound]).
  on_ax_step (apply plot_triplet_fresh; [in_bases | exact data_bound]).
  on_ax_step (unfold ax_plot; eapply inline_chart_ok; [reflexivity | exact data_bound]).
  on_ax_step (unfold ax_plot; eapply inline_chart_ok; [reflexivity | exact data_bound]).
  reflexivity.
Qed.

Lemma main_page2_ok (w : world) :
  g_data w = Some data ->
  main_page2 t w = save_page (nth 1 (report t data "") (mk_figure "" [])) w.
Proof.
  intro data_bound. unfold main_page2.
  page_step reflexivity.
  cbn [for_each zip_axes combine seq List.length fig_axes repeat].
  page_step (
    do 6 (on_ax_step (eapply plot_single_ok; [reflexivity | exact data_bound]));
    reflexivity).
  page_step (unfold on_last_ax; eapply on_ax_returns; reflexivity).
  reflexivity.
Qed.

Lemma main_page3_ok (w : world) :
  g_data w = Some data ->
  main_page3 t w = save_page (nth 2 (report t data "") (mk_figure "" [])) w.
Proof.
  intro data_bound. unfold main_page3.
  page_step reflexivity.
  on_ax_step (eapply plot_single_ok; [reflexivity | exact data_bound]).
  on_ax_step (unfold ax_step; eapply inline_chart_ok; [reflexivity | exact data_bound]).
  on_ax_step (unfold ax_plot; eapply inline_chart_ok; [reflexivity | exact data_bound]).
  reflexivity.
Qed.

Lemma main_page10_ok (w : world) :
  g_data w = Some data ->
  main_page10 t w = save_page (nth 9 (report t data "") (mk_figure "" [])) w.
Proof.
  intro data_bound. unfold main_page10.
  page_step reflexivity.
  cbn [for_each zip_axes combine seq List.length fig_axes repeat firstn tail_keys].
  page_step (
    do 7 (on_ax_step (eapply plot_single_ok; [reflexivity | exact data_bound]));
    reflexivity).
  page_step (unfold on_last_ax; eapply on_ax_returns; reflexivity).
  reflexivity.
Qed.

(** A page followed by the rest of the block: when the page amounts to
    saving [fig], and the rest to [K], wherever [data] is bound. *)
Lemma page_then (p k K : M unit) (fig : figure) :
  (forall w, g_data w = Some data -> p w = save_page fig w) ->
  (forall w, g_data w = Some data -> k w = K w) ->
  forall w, g_data w = Some data ->
    bind p (fun _ => k) w = bind (save_page fig) (fun _ => K) w.
Proof.
  intros Hp Hk w Hg. unfold bind. rewrite (Hp w Hg).
  pose proof (save_page_keeps_data fig w) as Hkeep.
  destruct (save_page fig w) as [[[]|e|c] w']; try reflexivity.
  cbn [snd] in Hkeep. apply Hk. now rewrite Hkeep.
Qed.

Lemma bind_ret_tt (m : M unit) (w : world) : bind m (fun _ => ret tt) w = m w.
Proof. unfold bind, ret. now destruct (m w) as [[[]|e|c] w']. Qed.

(** The body of the [with] block of [main] draws the ten pages of the
    report and saves them in turn. *)
Lemma pages_are_saved (title_suffix : string) (w : world) :
  g_data w = Some data ->
  (main_page1 t title_suffix ;; main_page2 t ;; main_page3 t ;; main_page4 t ;;
   main_page5 t ;; main_page6 t ;; main_page7 t ;; main_page8 t ;; main_page9 t ;;
   main_page10 t) w =
  save_all (report t data title_suffix) w.
Proof.
  revert w.
  unfold main_page4, main_page5, main_page6, main_page7, main_page8, main_page9, report.
  cbn [save_all].
  apply page_then; [intros w Hg; exact (main_page1_ok title_suffix w Hg)|].
  apply page_then; [intros w Hg; exact (main_page2_ok w Hg)|].
  apply page_then; [intros w Hg; exact (main_page3_ok w Hg)|].
  do 6 (apply page_then;
        [intros w Hg; apply triplet_page_ok; [in_bases | in_bases | in_bases | exact Hg]|]).
  intros w Hg. rewrite bind_ret_tt. exact (main_page10_ok w Hg).
Qed.

End Drawing.

(* ------------------------------------------------------------------ *)
(** ** The whole run                                                    *)
(* ------------------------------------------------------------------ *)

(** Saving pages in turn stops at the first one that the platform
    refuses; the open document then holds the pages saved before it. *)
Lemma save_all_eval (figs : list figure) :
  forall (w : world) (out_path : string) (pre : list figure),
    pdf_open w = Some (out_path, pre) ->
    save_all figs w =
      match save_outcome (save_error w out_path) pre figs with
      | (None, pages) => (Ret tt, with_open w out_path pages)
      | (Some e, pages) => (Raise e, with_open w out_path pages)
      end.
Proof.
  induction figs as [|fig rest IH]; intros w out_path pre Hopen.
  - cbn [save_all save_outcome]. unfold ret, with_open.
    destruct w; cbn in *. now rewrite Hopen.
  - cbn [save_all save_outcome]. unfold bind, save_page, pdf_savefig. rewrite Hopen.
    destruct (save_error w out_path pre fig) as [e|] eqn:Hsave.
    + unfold with_open. destruct w; cbn in *. now rewrite Hopen.
    + rewrite (IH _ out_path (app pre [fig])) by reflexivity. cbn [save_error].
      destruct (save_outcome (save_error w out_path) (app pre [fig]) rest) as [[e|] pages];
        reflexivity.
Qed.

(** All pages are saved exactly when none is refused. *)
Lemma save_outcome_none (refuse : list figure -> figure -> option exception)
  (figs : list figure) :
  forall pre pages, save_outcome refuse pre figs = (None, pages) -> pages = app pre figs.
Proof.
  induction figs as [|fig rest IH]; intros pre pages H; cbn [save_outcome] in H.
  - inversion H. now rewrite app_nil_r.
  - destruct (refuse pre fig); [discriminate|].
    rewrite (IH _ _ H), <- app_assoc. reflexivity.
Qed.

Lemma save_outcome_all (refuse : list figure -> figure -> option exception)
  (figs : list figure) :
  forall pre,
    (forall p fig post, figs = app p (fig :: post) -> refuse (app pre p) fig = None) ->
    save_outcome refuse pre figs = (None, app pre figs).
Proof.
  induction figs as [|fig rest IH]; intros pre Hall; cbn [save_outcome].
  - now rewrite app_nil_r.
  - pose proof (Hall [] fig rest eq_refl) as H0. rewrite app_nil_r in H0. rewrite H0.
    rewrite IH; [now rewrite <- app_assoc|].
    intros p f post Heq. rewrite <- app_assoc. apply (Hall (fig :: p) f post).
    cbn [app]. now rewrite Heq.
Qed.

Lemma save_outcome_saved (refuse : list figure -> figure -> option exception)
  (q : list figure) (fig : figure) (post : list figure) :
  forall acc res,
    save_outcome refuse acc (app q (fig :: post)) = (None, res) ->
    refuse (app acc q) fig = None.
Proof.
  induction q as [|x q IH]; intros acc res H; cbn [app save_outcome] in H.
  - rewrite app_nil_r. destruct (refuse acc fig); [discriminate | reflexivity].
  - destruct (refuse acc x); [discriminate|].
    specialize (IH _ _ H). now rewrite <- app_assoc in IH.
Qed.

Lemma save_outcome_ext (r1 r2 : list figure -> figure -> option exception)
  (figs : list figure) :
  (forall pre fig, r1 pre fig = r2 pre fig) ->
  forall pre, save_outcome r1 pre figs = save_outcome r2 pre figs.
Proof.
  intro H. induction figs as [|fig rest IH]; intro pre; cbn [save_outcome]; [reflexivity|].
  rewrite H. destruct (r2 pre fig); [reflexivity | apply IH].
Qed.

Lemma can_write_outcome (w : world) (out_path : string) (pages : list figure) :
  can_write w out_path pages <->
  open_error w out_path = None /\
  save_outcome (save_error w out_path) [] pages = (None, pages).
Proof.
  unfold can_write. split; intros [Hopen Hsave]; (split; [exact Hopen|]).
  - exact (save_outcome_all (save_error w out_path) pages [] Hsave).
  - intros pre fig post Heq. subst pages.
    exact (save_outcome_saved (save_error w out_path) pre fig post [] _ Hsave).
Qed.

(** The [with] block of [main]: refused at once, or entered and left
    with the document closed, whatever its body did. *)
Lemma with_PdfPages_eval (out_path : string) (body : M unit) (w : world) :
  with_PdfPages out_path body w =
    match open_error w out_path with
    | Some e => (Raise e, w)
    | None => (fst (body (with_open w out_path [])),
               snd (pdf_exit (snd (body (with_open w out_path [])))))
    end.
Proof.
  unfold with_PdfPages, pdf_enter.
  destruct (open_error w out_path); [reflexivity|].
  fold (with_open w out_path []). now destruct (body (with_open w out_path [])).
Qed.

(** Whatever the table, the tenth page of the report has seven charts,
    labelled by the first seven names of [tail_keys]. *)
Lemma tail_page_of_report (t data : ndarray) (title_suffix : string) :
  exists tail,
    nth_error (report t data title_suffix) 9 = Some tail /\
    fig_suptitle tail = "Tail metrics" /\
    List.length (fig_axes tail) = 7 /\
    map ax_ylabel (fig_axes tail) = map Some (firstn 7 tail_keys) /\
    List.length tail_keys = 13.
Proof. eexists. repeat split. Qed.

(** [main] on any table that the loader returns and the check accepts:
    it stops at [PdfPages(out_path)] when that is refused, at the first
    page that cannot be saved when there is one, and otherwise returns
    after closing the report and printing its path. *)
Lemma main_on_table (args : cli_args) (w : world) (data : ndarray) (nrows ncols : nat) :
  load_data (arg_file args) w = (Ret data, w) ->
  shape data = [nrows; ncols] ->
  COLS_max < ncols ->
  main args w =
    match open_error w (resolve_out_path args) with
    | Some e => (Raise e, world_with_data w data)
    | None =>
        match save_outcome (save_error w (resolve_out_path args)) []
                (report (column data 0) data (basename (arg_file args))) with
        | (None, pages) =>
            (Ret tt, world_after_main w data (resolve_out_path args) pages)
        | (Some e, pages) =>
            (Raise e, world_after_refusal w data (resolve_out_path args) pages)
        end
    end.
Proof.
  intros Hload Hs Hw.
  set (t := column data 0).
  assert (first_dim t = nrows) as Ht.
  { apply (first_dim_column data _ ncols 0 Hs). lia. }
  unfold main.
  page_step (exact Hload).
  page_step reflexivity.
  page_step reflexivity.
  page_step (apply (ensure_cols_passes _ ncols); [now rewrite Hs | exact Hw]).
  page_step reflexivity.
  page_step (exact (pick_registered data t _ _ Hs Hw Ht "time" 0 _ eq_refl)).
  fold t. unfold bind at 1. rewrite with_PdfPages_eval. cbn [open_error].
  destruct (open_error w (resolve_out_path args)) as [e|]; [reflexivity|].
  rewrite (pages_are_saved data t nrows ncols Hs Hw Ht) by reflexivity.
  rewrite (save_all_eval _ _ (resolve_out_path args) []) by reflexivity.
  cbn [save_error with_open].
  destruct (save_outcome (save_error w (resolve_out_path args)) []
              (report t data (basename (arg_file args)))) as [[e|] pages];
    reflexivity.
Qed.

(** On a file of one or more data rows of at least [COLS_max + 1] numeric
    fields each, whose report the platform lets be written, [main]
    returns after binding [data] to the table, closing the ten-page
    report under the resolved path and printing that path. *)
Lemma main_report (args : cli_args) (w : world) (rows : list (list V)) :
  reads_as (files w) (arg_file args) rows ->
  1 <= List.length rows ->
  COLS_max + 1 <= width rows ->
  can_write w (resolve_out_path args) (report_of args rows) ->
  main args w =
    (Ret tt,
     world_after_main w (table_of_rows rows) (resolve_out_path args) (report_of args rows)).
Proof.
  intros Hreads Hrows Hwidth Hwrite.
  assert (load_data (arg_file args) w = (Ret (table_of_rows rows), w)) as Hload.
  { apply load_data_table; [exact Hreads | exact Hrows|].
    rewrite COLS_max_value in Hwidth; lia. }
  rewrite (main_on_table args w (table_of_rows rows) (List.length rows) (width rows)
             Hload eq_refl); [|lia].
  fold (report_of args rows).
  apply can_write_outcome in Hwrite as [-> ->]. reflexivity.
Qed.

(* ------------------------------------------------------------------ *)
(** ** The shape of a step chart                                        *)
(* ------------------------------------------------------------------ *)

Lemma skipn_two {A} (l : list A) (i : nat) (a b : A) :
  nth_error l i = Some a ->
  nth_error l (S i) = Some b ->
  exists rest, skipn i l = a :: b :: rest.
Proof.
  revert l; induction i as [|i IH]; intros [|h l] Ha Hb; try discriminate.
  - destruct l as [|h' l]; [discriminate|].
    simpl in Ha, Hb. inversion Ha; inversion Hb; subst. now exists l.
  - simpl in Ha. change (nth_error l (S i) = Some b) in Hb.
    destruct (IH l Ha Hb) as [rest Hrest]. now exists rest.
Qed.

Lemma nth_error_combine {A B} (l1 : list A) (l2 : list B) (i : nat) (a : A) (b : B) :
  nth_error l1 i = Some a ->
  nth_error l2 i = Some b ->
  nth_error (combine l1 l2) i = Some (a, b).
Proof.
  revert l1 l2; induction i as [|i IH]; intros [|h1 l1] [|h2 l2] H1 H2;
    try discriminate; simpl in *.
  - now inversion H1; inversion H2.
  - now apply IH.
Qed.

(** The vertices of a post-step line from sample [i] on are the
    post-step vertices of the samples from [i] on. *)
Lemma skipn_poststep (pts : list (Q * Q)) (i : nat) :
  skipn (2 * i) (pts_to_poststep pts) = pts_to_poststep (skipn i pts).
Proof.
  revert pts; induction i as [|i IH]; intro pts; [reflexivity|].
  replace (2 * S i) with (S (S (2 * i))) by lia.
  destruct pts as [|[x0 y0] [|[x1 y1] rest]]; [reflexivity | |].
  - cbn [pts_to_poststep skipn]. now destruct i.
  - cbn [skipn]. rewrite <- IH. reflexivity.
Qed.

(** Between two successive samples a post-step line is a horizontal
    segment at the first value followed by a vertical one. *)
Lemma poststep_piece (s : series) (i : nat) (x0 y0 x1 y1 : Q) :
  s_kind s = DrawStep "post" ->
  nth_error (samples s) i = Some (x0, y0) ->
  nth_error (samples s) (S i) = Some (x1, y1) ->
  forall x y,
    rendered_between s i x y <->
    on_segment (x0, y0) (x1, y0) x y \/ on_segment (x1, y0) (x1, y1) x y.
Proof.
  intros Hk H0 H1 x y. unfold rendered_between, vertices, stride. rewrite Hk.
  cbn [String.eqb Ascii.eqb Bool.eqb].
  replace (2 * i) with (2 * i) by reflexivity. rewrite skipn_poststep.
  destruct (skipn_two _ _ _ _ H0 H1) as [rest ->].
  cbn [pts_to_poststep Nat.add firstn on_polyline]. tauto.
Qed.

(** Every abscissa of a non-degenerate horizontal segment carries the
    height of the segment, and nothing else. *)
Lemma on_horizontal_segment (x0 x1 h x : Q) :
  (x0 < x1)%Q -> (x0 <= x)%Q -> (x <= x1)%Q ->
  on_segment (x0, h) (x1, h) x h.
Proof.
  intros Hlt Hlo Hhi. exists ((x - x0) / (x1 - x0))%Q. cbn [fst snd].
  assert (0 < x1 - x0)%Q as Hpos by lra.
  repeat split.
  - apply Qle_shift_div_l; [exact Hpos | lra].
  - apply Qle_shift_div_r; [exact Hpos | lra].
  - field. lra.
  - field. lra.
Qed.

Lemma on_horizontal_segment_value (x0 x1 h x y : Q) :
  on_segment (x0, h) (x1, h) x y -> (y == h)%Q.
Proof. intros (l & _ & _ & _ & Hy). cbn [fst snd] in Hy. rewrite Hy. ring. Qed.

Lemma on_vertical_segment_abscissa (x1 y0 y1 x y : Q) :
  on_segment (x1, y0) (x1, y1) x y -> (x == x1)%Q.
Proof. intros (l & _ & _ & Hx & _). cbn [fst snd] in Hx. rewrite Hx. ring. Qed.

(** A post-step series holds the value of a sample up to the next one:
    over [x0, x1) the line between the two samples is at [y0], and at
    nothing else. *)
Lemma poststep_holds_value (s : series) (i : nat) (x0 y0 x1 y1 x : Q) :
  s_kind s = DrawStep "post" ->
  nth_error (samples s) i = Some (x0, y0) ->
  nth_error (samples s) (S i) = Some (x1, y1) ->
  (x0 < x1)%Q -> (x0 <= x)%Q -> (x < x1)%Q ->
  rendered_between s i x y0 /\
  forall y, rendered_between s i x y -> (y == y0)%Q.
Proof.
  intros Hk H0 H1 Hlt Hlo Hhi. split.
  - apply (poststep_piece s i x0 y0 x1 y1 Hk H0 H1). left.
    apply on_horizontal_segment; lra.
  - intros y Hy. apply (poststep_piece s i x0 y0 x1 y1 Hk H0 H1) in Hy.
    destruct Hy as [Hh | Hv].
    + exact (on_horizontal_segment_value _ _ _ _ _ Hh).
    + apply on_vertical_segment_abscissa in Hv. lra.
Qed.

(** By contrast a series drawn by [ax.plot] passes half-way between two
    successive samples at the mean of their values. *)
Lemma plot_interpolates (s : series) (i : nat) (x0 y0 x1 y1 : Q) :
  s_kind s = DrawPlot ->
  nth_error (samples s) i = Some (x0, y0) ->
  nth_error (samples s) (S i) = Some (x1, y1) ->
  rendered_between s i ((x0 + x1) / 2) ((y0 + y1) / 2).
Proof.
  intros Hk H0 H1. unfold rendered_between, vertices, stride. rewrite Hk.
  rewrite Nat.mul_1_l. destruct (skipn_two _ _ _ _ H0 H1) as [rest ->].
  cbn [Nat.add firstn on_polyline]. left. exists (1 # 2)%Q. cbn [fst snd].
  repeat split; try lra; field.
Qed.

(** C5. On a file that loads and passes the check, and whose report the
    platform lets be written, the second chart of page 3 is the one
    series drawn by [ax.step] with [where="post"] from the time and
    [ca_state] columns; for two successive samples (t0, s0) and (t1, s1)
    with t0 before t1, the line drawn between them passes, at every
    abscissa from t0 up to but excluding t1, through the height of s0 and
    through no other height. *)
Theorem ca_state_chart_is_post_step (args : cli_args) (w : world)
  (rows : list (list V)) (i : nat) (t0 t1 s0 s1 : V) :
  reads_as (files w) (arg_file args) rows ->
  1 <= List.length rows ->
  COLS_max + 1 <= width rows ->
  can_write w (resolve_out_path args) (report_of args rows) ->
  nth_error (buf (column (table_of_rows rows) (COLS_index "time"))) i = Some t0 ->
  nth_error (buf (column (table_of_rows rows) (COLS_index "time"))) (S i) = Some t1 ->
  nth_error (buf (column (table_of_rows rows) (COLS_index "ca_state"))) i = Some s0 ->
  nth_error (buf (column (table_of_rows rows) (COLS_index "ca_state"))) (S i) = Some s1 ->
  (coord t0 < coord t1)%Q ->
  exists w' pages ser,
    main args w = (Ret tt, w') /\
    pdf_closed w' = (resolve_out_path args, pages) :: pdf_closed w /\
    chart_series pages 2 1 = [ser] /\
    s_kind ser = DrawStep "post" /\
    s_x ser = column (table_of_rows rows) (COLS_index "time") /\
    s_y ser = column (table_of_rows rows) (COLS_index "ca_state") /\
    forall x, (coord t0 <= x)%Q -> (x < coord t1)%Q ->
      rendered_between ser i x (coord s0) /\
      forall y, rendered_between ser i x y -> (y == coord s0)%Q.
Proof.
  intros Hreads Hrows Hwidth Hwrite Ht0 Ht1 Hs0 Hs1 Hlt.
  eexists. eexists. eexists.
  split; [exact (main_report args w rows Hreads Hrows Hwidth Hwrite)|].
  split; [reflexivity|]. split; [reflexivity|]. split; [reflexivity|].
  split; [reflexivity|]. split; [reflexivity|].
  intros x Hlo Hhi.
  apply (poststep_holds_value _ i (coord t0) (coord s0) (coord t1) (coord s1) x);
    try assumption; try reflexivity.
  - apply nth_error_combine; now apply map_nth_error.
  - apply nth_error_combine; now apply map_nth_error.
Qed.

Lemma contains_suffix (a b : string) : contains (a ++ b) b.
Proof.
  exists a, "". f_equal.
  induction b as [|c b IH]; [reflexivity | cbn [append]; now rewrite <- IH].
Qed.

(** C4 (amended). On a file of one or more data rows of at least
    [COLS_max + 1] numeric fields each, whose report the platform lets be
    written under the resolved output path, the process ends with status
    0. It has closed, under that path, a document of exactly ten pages,
    titled in order as the headline, base TCP, congestion state, RTT,
    throughput, RTT gradient, RTT variance, inflight, loss and
    tail-metrics pages. Pages 1 to 9 are those of the report of the
    table: chart by chart, they draw the columns that the specification
    lists for them. Page 10 draws, one chart each, single series of one
    or more leading names of [tail_keys] (how many is left open here).
    Every series of the document is drawn over the time column. The
    process has printed one line on the output stream, which contains
    the output path, and nothing on the error stream. *)
Theorem main_writes_ten_pages (args : cli_args) (w : world) (rows : list (list V)) :
  reads_as (files w) (arg_file args) rows ->
  1 <= List.length rows ->
  COLS_max + 1 <= width rows ->
  can_write w (resolve_out_path args) (report_of args rows) ->
  exists w' pages tail n,
    run args w = (0, w') /\
    pdf_closed w' = (resolve_out_path args, pages) :: pdf_closed w /\
    pdf_open w' = None /\
    List.length pages = 10 /\
    map fig_suptitle pages = page_titles (basename (arg_file args)) /\
    firstn 9 pages = firstn 9 (report_of args rows) /\
    map charts_columns (firstn 9 pages) =
      map (map (map (fun key => column (table_of_rows rows) (COLS_index key))))
          charts_of_pages_1_to_9 /\
    nth_error pages 9 = Some tail /\
    1 <= n <= List.length tail_keys /\
    charts_columns tail =
      map (fun key => [column (table_of_rows rows) (COLS_index key)])
          (firstn n tail_keys) /\
    Forall (fun fig =>
              Forall (fun x => x = column (table_of_rows rows) (COLS_index "time"))
                     (charts_abscissas fig)) pages /\
    out_lines w' = app (out_lines w) ["Wrote " ++ resolve_out_path args] /\
    contains ("Wrote " ++ resolve_out_path args) (resolve_out_path args) /\
    err_lines w' = err_lines w.
Proof.
  intros Hreads Hrows Hwidth Hwrite.
  eexists. eexists. eexists. exists 7.
  split; [unfold run; rewrite (main_report args w rows Hreads Hrows Hwidth Hwrite);
          reflexivity|].
  split; [reflexivity|]. split; [reflexivity|]. split; [reflexivity|].
  split; [reflexivity|]. split; [reflexivity|]. split; [reflexivity|].
  split; [reflexivity|]. split; [cbn [tail_keys List.length]; lia|].
  split; [reflexivity|].
  split.
  { unfold report_of, report, triplet_figure, charts_abscissas.
    repeat (apply Forall_cons;
            [cbn [fig_axes flat_map ax_series triplet_chart single_chart triplet_series
                  map app s_x];
             repeat (apply Forall_cons; [reflexivity|]); apply Forall_nil|]).
    apply Forall_nil. }
  split; [reflexivity|].
  split; [apply contains_suffix | reflexivity].
Qed.

(* ------------------------------------------------------------------ *)
(** ** Where the chart steps find the table                             *)
(* ------------------------------------------------------------------ *)

Lemma reads_only_data_bind {A B} (m : M A) (k : A -> M B) :
  reads_only_data m ->
  (forall a, reads_only_data (k a)) ->
  reads_only_data (bind m k).
Proof.
  intros Hm Hk w1 w2 Hg. unfold bind.
  destruct (Hm w1 w2 Hg) as [Hfst Hsnd].
  destruct (m w1) as [[a1|e1|c1] w1'], (m w2) as [[a2|e2|c2] w2'];
    cbn [fst snd] in *; try discriminate;
    inversion Hfst; subst; try (split; [reflexivity | assumption]).
  exact (Hk a2 w1' w2' Hsnd).
Qed.

Lemma reads_only_data_get : reads_only_data get_data.
Proof.
  intros w1 w2 Hg. unfold get_data. rewrite Hg.
  destruct (g_data w2) eqn:E; cbn [fst snd]; split; congruence.
Qed.

(** A step that leaves the world alone and whose outcome does not depend
    on it. *)
Lemma reads_only_data_fixed {A} (m : M A) (r : outcome A) :
  (forall w, m w = (r, w)) -> reads_only_data m.
Proof. intros Hm w1 w2 Hg. rewrite !Hm. now split. Qed.

Lemma reads_only_data_pick (data : ndarray) (key : string) :
  reads_only_data (pick data key).
Proof.
  unfold pick. destruct (COLS_get key) as [c|].
  - destruct (index_col data c); eapply reads_only_data_fixed; reflexivity.
  - eapply reads_only_data_fixed; reflexivity.
Qed.

Lemma reads_only_data_draw (kind : draw_kind) (x y : ndarray) (fmt label : option string)
  (ax : axes) :
  reads_only_data (draw kind x y fmt label ax).
Proof.
  unfold draw. destruct (Nat.eqb (first_dim x) (first_dim y)).
  - destruct (linestyle_of_fmt fmt); eapply reads_only_data_fixed; reflexivity.
  - eapply reads_only_data_fixed; reflexivity.
Qed.

Lemma reads_only_data_plot_triplet (ax : axes) (t : ndarray) (base_key ylabel : string) :
  reads_only_data (plot_triplet ax t base_key ylabel).
Proof.
  unfold plot_triplet, ax_plot.
  repeat first
    [ apply reads_only_data_bind; [|intro]
    | apply reads_only_data_get
    | apply reads_only_data_pick
    | apply reads_only_data_draw
    | eapply reads_only_data_fixed; reflexivity ].
Qed.

(** C9 (amended). [plot_triplet] is not given the table: it reads the
    global [data]. Two calls with identical arguments plot identical
    series whenever the global [data] is bound alike, whatever else
    differs between the two states; they leave that binding as it was. *)
Theorem plot_triplet_depends_on_global_data (ax : axes) (t : ndarray)
  (base_key ylabel : string) (w1 w2 : world) :
  g_data w1 = g_data w2 ->
  fst (plot_triplet ax t base_key ylabel w1) = fst (plot_triplet ax t base_key ylabel w2) /\
  g_data (snd (plot_triplet ax t base_key ylabel w1)) = g_data w1 /\
  g_data (snd (plot_triplet ax t base_key ylabel w2)) = g_data w2.
Proof.
  intro Hg.
  split; [exact (proj1 (reads_only_data_plot_triplet ax t base_key ylabel w1 w2 Hg))|].
  assert (forall w, g_data (snd (plot_triplet ax t base_key ylabel w)) = g_data w) as Hkeep.
  { intro w. unfold plot_triplet, ax_plot, bind, get_data, pick, draw, raise, ret.
    repeat match goal with
           | |- context [match ?x with _ => _ end] =>
               match x with
               | context [match _ with _ => _ end] => fail 1
               | _ => destruct x eqn:?
               end
           end; cbn [snd]; congruence. }
  split; apply Hkeep.
Qed.

(* ================================================================== *)
(** * Further properties of the program                                 *)
(* ================================================================== *)

(* ------------------------------------------------------------------ *)
(** ** What [load_data] can return                                      *)
(* ------------------------------------------------------------------ *)

Lemma prod_list_squeeze (l : list nat) :
  prod_list (filter (fun d => negb (Nat.eqb d 1)) l) = prod_list l.
Proof.
  unfold prod_list. induction l as [|d l IH]; [reflexivity|]. cbn [filter].
  destruct (Nat.eqb_spec d 1) as [->|_]; cbn [negb fold_right]; rewrite IH; lia.
Qed.

Lemma array_of_rows_well_formed (lines : list (list string)) (rows : list (list V)) :
  read_rows None 0 lines = inr rows -> well_formed (array_of_rows rows).
Proof.
  intro Hread. apply read_rows_widths in Hread as [_ Hall].
  unfold well_formed, size, array_of_rows; cbn [shape buf prod_list fold_right].
  destruct rows as [|r rows]; [reflexivity|].
  rewrite (concat_length_uniform (r :: rows) (List.length r)); [lia|].
  apply Hall. now right.
Qed.

(** The arrays of [np.loadtxt]: well formed, and of at most two axes,
    none of them of length one. *)
Lemma np_loadtxt_array (fs : string -> option string) (path : string) (a : ndarray) :
  np_loadtxt fs path = inr a ->
  well_formed a /\
  ndim a <= 2 /\
  Forall (fun d => d <> 1) (shape a).
Proof.
  unfold np_loadtxt. destruct (fs path) as [text|]; [|discriminate].
  destruct (read_rows None 0 (data_lines text)) as [f|rows] eqn:Hread; [discriminate|].
  intro H; inversion H; subst a; clear H.
  apply array_of_rows_well_formed in Hread.
  unfold ensure_ndmin0, ndim, array_of_rows in *; cbn [shape List.length Nat.ltb Nat.leb].
  unfold well_formed, size, squeeze in *; cbn [shape buf] in *.
  split; [now rewrite prod_list_squeeze|].
  split.
  - cbn [filter]. repeat match goal with
                         | |- context [negb ?b] => destruct b; cbn [negb List.length]
                         end; lia.
  - apply Forall_forall. intros d Hd. apply filter_In in Hd as [_ Hd].
    apply negb_true_iff in Hd. now apply Nat.eqb_neq.
Qed.

(** The arrays that [load_data] returns. *)
Lemma load_data_array (path : string) (w : world) (a : ndarray) :
  np_loadtxt (files w) path = inr a ->
  exists d, load_data path w = (Ret d, w) /\
            well_formed d /\
            ndim d <> 1 /\
            (ndim d = 2 \/ (ndim d = 0 /\ List.length (buf d) = 1)).
Proof.
  intro Hload. rewrite (load_data_success path w a Hload).
  destruct (np_loadtxt_array _ _ _ Hload) as (Hwf & Hdim & Hne1).
  destruct a as [sh b]. unfold ndim, well_formed, size in *; cbn [shape buf] in *.
  destruct sh as [|n [|m [|k sh]]]; cbn [List.length] in Hdim; try lia.
  + eexists. split; [reflexivity|]. cbn [Nat.eqb List.length shape buf].
    split; [exact Hwf|]. split; [lia|]. right. split; [reflexivity | exact Hwf].
  + eexists. split; [reflexivity|]. cbn [Nat.eqb List.length].
    rewrite reshape_vector. cbn [shape buf List.length prod_list fold_right] in *.
    split; [lia|]. split; [lia | left; reflexivity].
  + eexists. split; [reflexivity|]. cbn [Nat.eqb List.length shape buf].
    split; [exact Hwf|]. split; [lia | left; reflexivity].
Qed.

(** X1. [load_data] never lets an exception escape. Either it returns a
    well-formed array that has two axes or, when the file holds a single
    value, none, having printed nothing on the output stream, left the
    global [data] and the documents as they were and, when the array
    holds a value, printed nothing on the error stream; or it ends the
    process with status 1 after printing one line on the error stream.
    It never returns an array of one axis. *)
Theorem load_data_outcomes (path : string) (w : world) :
  (exists a w', load_data path w = (Ret a, w') /\
                well_formed a /\
                ndim a <> 1 /\
                (ndim a = 2 \/ (ndim a = 0 /\ List.length (buf a) = 1)) /\
                out_lines w' = out_lines w /\
                g_data w' = g_data w /\
                pdf_open w' = pdf_open w /\
                pdf_closed w' = pdf_closed w /\
                (buf a <> [] -> err_lines w' = err_lines w)) \/
  (exists f, np_loadtxt (files w) path = inl f /\
             load_data path w =
               (Exit 1, snd (print_err ("Error reading '" ++ path ++ "': "
                                        ++ loadtxt_message f) w))).
Proof.
  destruct (np_loadtxt (files w) path) as [f|a] eqn:Hload.
  - right. exists f. split; [reflexivity | exact (load_data_failure path w f Hload)].
  - left. destruct (load_data_array path w a Hload) as (d & Hd & Hwf & Hne & Hdim).
    exists d, w. repeat split; assumption.
Qed.

(* ------------------------------------------------------------------ *)
(** ** How [main] ends                                                  *)
(* ------------------------------------------------------------------ *)

(** [main] when the check raises: the exception leaves [main] before any
    document is opened. *)
Lemma main_stops_at_check (args : cli_args) (w : world) (data : ndarray) (e : exception) :
  load_data (arg_file args) w = (Ret data, w) ->
  (forall w0, ensure_cols data w0 = (Raise e, w0)) ->
  main args w = (Raise e, world_with_data w data).
Proof.
  intros Hload Hcheck. unfold main.
  page_step (exact Hload).
  page_step reflexivity.
  page_step reflexivity.
  unfold bind. now rewrite Hcheck.
Qed.

(** What [load_data] returns has no axis or two. *)
Lemma load_data_shapes (path : string) (w : world) (a : ndarray) :
  np_loadtxt (files w) path = inr a ->
  exists data, load_data path w = (Ret data, w) /\
               (shape data = [] \/ exists nrows ncols, shape data = [nrows; ncols]).
Proof.
  intro Hload. rewrite (load_data_success path w a Hload).
  destruct (np_loadtxt_array _ _ _ Hload) as (_ & Hdim & _).
  destruct a as [sh b]. unfold ndim in *; cbn [shape] in *.
  destruct sh as [|n [|m [|k sh]]]; cbn [List.length] in Hdim; try lia;
    eexists; (split; [reflexivity|]); cbn [Nat.eqb List.length].
  - now left.
  - rewrite reshape_vector. right. now exists 1, n.
  - right. now exists n, m.
Qed.

(** X2. Whatever the arguments and the state, [main] prints its line only
    once the whole report is closed, and it fails with a document opened
    only when the platform refuses a write. Either [main] returns, having
    closed under the resolved path the ten pages of the report of the
    table it loaded and printed the one line naming that path. Or it does
    not return, and then it has printed nothing on the output stream;
    and either it has neither opened nor closed any document, or it had
    loaded and bound the table and the platform refused a page of its
    report. *)
Theorem main_outcomes (args : cli_args) (w : world) :
  (exists data,
     main args w =
       (Ret tt, world_after_main w data (resolve_out_path args)
                  (report (column data 0) data (basename (arg_file args)))) /\
     List.length (report (column data 0) data (basename (arg_file args))) = 10 /\
     can_write w (resolve_out_path args)
               (report (column data 0) data (basename (arg_file args)))) \/
  (exists r w',
     main args w = (r, w') /\
     r <> Ret tt /\
     out_lines w' = out_lines w /\
     ((pdf_open w' = pdf_open w /\ pdf_closed w' = pdf_closed w) \/
      (exists data,
         g_data w' = Some data /\
         ~ can_write w (resolve_out_path args)
                     (report (column data 0) data (basename (arg_file args)))))).
Proof.
  destruct (np_loadtxt (files w) (arg_file args)) as [f|a] eqn:Hload.
  - right. eexists. eexists. split.
    + unfold main, bind. rewrite (load_data_failure _ _ _ Hload). reflexivity.
    + split; [discriminate|]. split; [reflexivity|]. left. split; reflexivity.
  - destruct (load_data_shapes _ _ _ Hload) as (data & Hdata & [Hs | (nrows & ncols & Hs)]).
    + right. eexists. eexists. split.
      * apply (main_stops_at_check args w data (IndexError "tuple index out of range") Hdata).
        intro w0. unfold ensure_cols. now rewrite Hs.
      * split; [discriminate|]. split; [reflexivity|]. left. split; reflexivity.
    + destruct (Nat.le_gt_cases ncols COLS_max) as [Hle | Hgt].
      * right. eexists. eexists. split.
        -- eapply (main_stops_at_check args w data); [exact Hdata|].
           intro w0. apply (ensure_cols_raises data ncols w0); [now rewrite Hs | exact Hle].
        -- split; [discriminate|]. split; [reflexivity|]. left. split; reflexivity.
      * rewrite (main_on_table args w data nrows ncols Hdata Hs Hgt).
        destruct (open_error w (resolve_out_path args)) as [e|] eqn:Hopen.
        { right. eexists. eexists. split; [reflexivity|].
          split; [discriminate|]. split; [reflexivity|]. left. split; reflexivity. }
        destruct (save_outcome (save_error w (resolve_out_path args)) []
                    (report (column data 0) data (basename (arg_file args))))
          as [[e|] pages] eqn:Hsave.
        { right. eexists. eexists. split; [reflexivity|].
          split; [discriminate|]. split; [reflexivity|]. right.
          exists data. split; [reflexivity|].
          intro Hwrite. apply can_write_outcome in Hwrite as [_ Hwrite].
          rewrite Hsave in Hwrite. discriminate Hwrite. }
        left. exists data.
        pose proof (save_outcome_none _ _ _ _ Hsave) as Hpages. cbn [app] in Hpages.
        subst pages. split; [reflexivity|]. split; [reflexivity|].
        apply can_write_outcome. split; assumption.
Qed.

(** X3. A file of one or more data rows of two or more numeric fields each,
    but no more than the largest index of the column map, makes [main]
    raise the [ValueError] of the check, whose message gives the number
    of fields found and the number required. By then the global [data] is
    bound to the table; nothing was printed and no document was opened.
    The process ends with status 1. *)
Theorem main_schema_mismatch (args : cli_args) (w : world) (rows : list (list V)) :
  reads_as (files w) (arg_file args) rows ->
  1 <= List.length rows ->
  2 <= width rows ->
  width rows <= COLS_max ->
  exists w',
    main args w =
      (Raise (ValueError ("File has " ++ str_nat (width rows) ++ " cols; expected ≥ "
                          ++ str_nat (COLS_max + 1) ++ " from the C++ logger.")), w') /\
    fst (run args w) = 1 /\
    g_data w' = Some (table_of_rows rows) /\
    out_lines w' = out_lines w /\
    err_lines w' = err_lines w /\
    pdf_open w' = pdf_open w /\
    pdf_closed w' = pdf_closed w.
Proof.
  intros Hreads Hrows Hlo Hhi.
  pose proof (load_data_table _ w rows Hreads Hrows Hlo) as Hload.
  fold (table_of_rows rows) in Hload.
  assert (main args w =
            (Raise (ValueError ("File has " ++ str_nat (width rows) ++ " cols; expected ≥ "
                                ++ str_nat (COLS_max + 1) ++ " from the C++ logger.")),
             world_with_data w (table_of_rows rows))) as Hmain.
  { apply (main_stops_at_check args w _ _ Hload).
    intro w0. now apply (ensure_cols_raises (table_of_rows rows) (width rows) w0). }
  eexists. split; [exact Hmain|].
  split; [unfold run; now rewrite Hmain|]. repeat split.
Qed.

(** X4. A file without any data line (empty, blank lines, comments only)
    loads as a table of one row and no column; [main] then raises the
    [ValueError] of the check for 0 columns, with nothing printed and no
    document opened. *)
Theorem main_on_empty_file (args : cli_args) (w : world) (text : string) :
  files w (arg_file args) = Some text ->
  data_lines text = [] ->
  load_data (arg_file args) w = (Ret {| shape := [1; 0]; buf := [] |}, w) /\
  exists w',
    main args w =
      (Raise (ValueError ("File has " ++ str_nat 0 ++ " cols; expected ≥ "
                          ++ str_nat (COLS_max + 1) ++ " from the C++ logger.")), w') /\
    fst (run args w) = 1 /\
    out_lines w' = out_lines w /\
    pdf_open w' = pdf_open w /\
    pdf_closed w' = pdf_closed w.
Proof.
  intros Hfile Hempty.
  assert (load_data (arg_file args) w = (Ret {| shape := [1; 0]; buf := [] |}, w)) as Hload.
  { rewrite (load_data_success _ w {| shape := [0]; buf := [] |}).
    - cbn [ndim shape List.length Nat.eqb]. now rewrite reshape_vector.
    - unfold np_loadtxt. now rewrite Hfile, Hempty. }
  split; [exact Hload|].
  assert (main args w =
            (Raise (ValueError ("File has " ++ str_nat 0 ++ " cols; expected ≥ "
                                ++ str_nat (COLS_max + 1) ++ " from the C++ logger.")),
             world_with_data w {| shape := [1; 0]; buf := [] |})) as Hmain.
  { apply (main_stops_at_check args w _ _ Hload). intro w0. reflexivity. }
  eexists. split; [exact Hmain|].
  split; [unfold run; now rewrite Hmain|]. repeat split.
Qed.

(** X5. A file whose only data is one number makes [main] fail in the
    check with an [IndexError] (the array has no second axis to measure),
    not with the [ValueError] that reports the column counts. *)
Theorem main_on_single_value (args : cli_args) (w : world) (v : V) :
  reads_as (files w) (arg_file args) [[v]] ->
  load_data (arg_file args) w = (Ret {| shape := []; buf := [v] |}, w) /\
  exists w',
    main args w = (Raise (IndexError "tuple index out of range"), w') /\
    fst (run args w) = 1 /\
    g_data w' = Some {| shape := []; buf := [v] |} /\
    out_lines w' = out_lines w /\
    err_lines w' = err_lines w /\
    pdf_open w' = pdf_open w /\
    pdf_closed w' = pdf_closed w.
Proof.
  intro Hreads.
  assert (load_data (arg_file args) w = (Ret {| shape := []; buf := [v] |}, w)) as Hload.
  { rewrite (load_data_success _ w _ (np_loadtxt_rows _ _ _ Hreads)). reflexivity. }
  split; [exact Hload|].
  assert (main args w = (Raise (IndexError "tuple index out of range"),
                         world_with_data w {| shape := []; buf := [v] |})) as Hmain.
  { apply (main_stops_at_check args w _ _ Hload). intro w0. reflexivity. }
  eexists. split; [exact Hmain|].
  split; [unfold run; now rewrite Hmain|]. repeat split.
Qed.

(** X6. A file of 77 or more lines with one number each passes the check:
    its values are taken as the fields of a single sample, the table
    [data] of one row; when the platform lets the report of that table be
    written, [main] writes its ten pages and ends with status 0. *)
Theorem main_accepts_single_column (args : cli_args) (w : world) (rows : list (list V))
  (data : ndarray) :
  reads_as (files w) (arg_file args) rows ->
  width rows = 1 ->
  COLS_max + 1 <= List.length rows ->
  data = {| shape := [1; List.length rows]; buf := concat rows |} ->
  can_write w (resolve_out_path args)
            (report (column data 0) data (basename (arg_file args))) ->
  load_data (arg_file args) w = (Ret data, w) /\
  main args w =
    (Ret tt, world_after_main w data (resolve_out_path args)
               (report (column data 0) data (basename (arg_file args)))) /\
  fst (run args w) = 0 /\
  first_dim (column data 0) = 1.
Proof.
  intros Hreads Hwidth Hlen Hdata Hwrite.
  assert (2 <= List.length rows) as H2 by (rewrite COLS_max_value in Hlen; lia).
  pose proof (load_data_single_column _ w rows Hreads H2 Hwidth) as Hload.
  rewrite <- Hdata in Hload.
  assert (shape data = [1; List.length rows]) as Hs by now subst data.
  assert (main args w =
            (Ret tt, world_after_main w data (resolve_out_path args)
                       (report (column data 0) data (basename (arg_file args))))) as Hmain.
  { rewrite (main_on_table args w data 1 (List.length rows) Hload Hs); [|lia].
    apply can_write_outcome in Hwrite as [-> ->]. reflexivity. }
  split; [exact Hload|]. split; [exact Hmain|].
  split; [unfold run; now rewrite Hmain|].
  apply (first_dim_column data 1 (List.length rows) 0 Hs). lia.
Qed.

(* ------------------------------------------------------------------ *)
(** ** The check and the accessor                                       *)
(* ------------------------------------------------------------------ *)

Lemma ensure_cols_returns (data : ndarray) (w : world) :
  ensure_cols data w = (Ret tt, w) <->
  exists ncols, nth_error (shape data) 1 = Some ncols /\ COLS_max < ncols.
Proof using Type.
  unfold ensure_cols. destruct (nth_error (shape data) 1) as [n|].
  - destruct (Nat.leb_spec n COLS_max) as [Hle|Hgt]; split.
    + discriminate.
    + intros (m & Hm & Hlt). inversion Hm; subst. lia.
    + intros _. now exists n.
    + reflexivity.
  - split; [discriminate|]. intros (m & Hm & _). discriminate.
Qed.

Lemma COLS_last_key : COLS_get "cwnd_rate" = Some COLS_max.
Proof. reflexivity. Qed.

(** X7. The check accepts an array exactly when every name of the column
    map can be picked from it: after [ensure_cols] has returned, [pick]
    returns for each registered name, with one entry per index of the
    first axis; and when [ensure_cols] raises, [pick] raises at least for
    the name of the largest index. Names outside the column map raise
    [KeyError] whatever the array. *)
Theorem ensure_cols_guards_pick (data : ndarray) (w : world) :
  (ensure_cols data w = (Ret tt, w) <->
   forall key, In key COLS_keys -> exists col, pick data key w = (Ret col, w)) /\
  (ensure_cols data w = (Ret tt, w) ->
   forall key, In key COLS_keys ->
     exists col, pick data key w = (Ret col, w) /\
                 first_dim col = first_dim data) /\
  (forall key, ~ In key COLS_keys -> pick data key w = (Raise (KeyError key), w)).
Proof.
  assert (ensure_cols data w = (Ret tt, w) ->
          forall key, In key COLS_keys ->
            exists col, pick data key w = (Ret col, w) /\
                        first_dim col = first_dim data) as Hpicks.
  { intros Hok key Hin. apply ensure_cols_returns in Hok as (ncols & Hn & Hlt).
    apply dict_get_in in Hin as [c Hc]. fold (COLS_get key) in Hc.
    pose proof (COLS_get_bound key c Hc) as Hb.
    unfold pick, index_col, first_dim. rewrite Hc.
    destruct (shape data) as [|r [|n rest]]; try discriminate.
    cbn [nth_error] in Hn. inversion Hn; subst n.
    assert (Nat.ltb c ncols = true) as -> by (apply Nat.ltb_lt; lia).
    eexists. split; reflexivity. }
  split; [split|split].
  - intros Hok key Hin. destruct (Hpicks Hok key Hin) as (col & Hcol & _). now exists col.
  - intro Hall. apply ensure_cols_returns.
    destruct (Hall "cwnd_rate") as [col Hcol].
    { unfold COLS_keys, COLS; cbn [map fst]. do 76 right. now left. }
    unfold pick in Hcol. rewrite COLS_last_key in Hcol. unfold index_col in Hcol.
    destruct (shape data) as [|r [|n rest]]; try discriminate.
    destruct (Nat.ltb_spec COLS_max n) as [Hlt|]; [|discriminate].
    now exists n.
  - exact Hpicks.
  - intros key Hnot. unfold pick.
    destruct (COLS_get key) as [c|] eqn:Hc; [|reflexivity].
    exfalso. apply Hnot. apply dict_get_in. now exists c.
Qed.

Lemma column_of_rows_aux (n c : nat) (rows : list (list V)) :
  c < n ->
  Forall (fun r => List.length r = n) rows ->
  forall (pre : list V) (k : nat),
    List.length pre = k * n ->
    flat_map (fun i => firstn 1 (skipn ((i * n + c) * 1) (pre ++ concat rows)))
             (seq k (List.length rows)) =
    flat_map (fun r => firstn 1 (skipn c r)) rows.
Proof.
  intros Hc Hall. induction Hall as [|r rows Hr _ IH]; intros pre k Hpre; [reflexivity|].
  cbn [List.length seq flat_map concat]. f_equal.
  - rewrite Nat.mul_1_r, skipn_app.
    rewrite (skipn_all2 pre) by lia. cbn [app].
    replace (k * n + c - List.length pre) with c by lia.
    rewrite skipn_app, firstn_app.
    replace (1 - List.length (skipn c r)) with 0 by (rewrite length_skipn; lia).
    cbn [firstn]. now rewrite app_nil_r.
  - rewrite app_assoc. apply IH. rewrite length_app, Hpre, Hr. lia.
Qed.

Lemma first_field_of_rows (n c : nat) (rows : list (list V)) :
  c < n ->
  Forall (fun r => List.length r = n) rows ->
  map Some (flat_map (fun r => firstn 1 (skipn c r)) rows) =
  map (fun r => nth_error r c) rows.
Proof.
  intros Hc Hall. induction Hall as [|r rows Hr _ IH]; [reflexivity|].
  cbn [flat_map map]. rewrite map_app, IH. clear IH.
  assert (map Some (firstn 1 (skipn c r)) = [nth_error r c]) as ->; [|reflexivity].
  clear -Hc Hr. revert n c Hc Hr.
  induction r as [|v r IH]; intros n c Hc Hr; cbn [List.length] in Hr; [lia|].
  destruct c as [|c]; [reflexivity|].
  cbn [skipn nth_error]. apply (IH (List.length r) c); lia.
Qed.

(** The entries of a column of the table of the rows of a file. *)
Lemma column_values (fs : string -> option string) (path : string)
  (rows : list (list V)) (c : nat) :
  reads_as fs path rows ->
  c < width rows ->
  map Some (buf (column (table_of_rows rows) c)) = map (fun r => nth_error r c) rows.
Proof.
  intros (text & _ & Hread) Hc.
  apply read_rows_widths in Hread as [_ Hall].
  specialize (Hall (width rows) (or_intror (conj eq_refl eq_refl))).
  unfold column, index_col, table_of_rows; cbn [shape buf].
  assert (Nat.ltb c (width rows) = true) as -> by now apply Nat.ltb_lt.
  cbn [buf prod_list fold_right].
  rewrite <- (first_field_of_rows (width rows) c rows Hc Hall).
  f_equal.
  exact (column_of_rows_aux (width rows) c rows Hc Hall [] 0 eq_refl).
Qed.

Lemma column_length (fs : string -> option string) (path : string)
  (rows : list (list V)) (c : nat) :
  reads_as fs path rows ->
  c < width rows ->
  List.length (buf (column (table_of_rows rows) c)) = List.length rows.
Proof.
  intros Hreads Hc. pose proof (column_values fs path rows c Hreads Hc) as H.
  apply (f_equal (@List.length _)) in H. now rewrite !length_map in H.
Qed.

(** X8. A file of one or more data rows of two or more numeric fields
    each is loaded by [load_data] as a table on which [pick] of a
    registered name of index [c], when the rows have such a field,
    returns the one-axis array that holds, for each data row in file
    order, the field [c] of that row. *)
Theorem pick_reads_the_field_of_each_row (path : string)
  (rows : list (list V)) (key : string) (c : nat) (w : world) :
  reads_as (files w) path rows ->
  1 <= List.length rows ->
  2 <= width rows ->
  COLS_get key = Some c ->
  c < width rows ->
  exists table col,
    load_data path w = (Ret table, w) /\
    shape table = [List.length rows; width rows] /\
    pick table key w = (Ret col, w) /\
    shape col = [List.length rows] /\
    List.length (buf col) = List.length rows /\
    map Some (buf col) = map (fun r => nth_error r c) rows.
Proof.
  intros Hreads Hrows Hwidth Hkey Hc.
  exists (table_of_rows rows), (column (table_of_rows rows) c).
  split; [exact (load_data_table path w rows Hreads Hrows Hwidth)|].
  split; [reflexivity|].
  split; [exact (pick_table (table_of_rows rows) (List.length rows) (width rows)
                   c key w eq_refl Hkey Hc)|].
  split; [exact (proj2 (index_col_table (table_of_rows rows) _ _ c eq_refl Hc))|].
  split; [exact (column_length (files w) path rows c Hreads Hc)|].
  exact (column_values (files w) path rows c Hreads Hc).
Qed.

(* ------------------------------------------------------------------ *)
(** ** The output path                                                  *)
(* ------------------------------------------------------------------ *)

(** [c in s]. *)
Fixpoint occurs (c : ascii) (s : string) : bool :=
  match s with
  | EmptyString => false
  | String d rest => Ascii.eqb d c || occurs c rest
  end.

Lemma append_length (a b : string) :
  String.length (a ++ b) = String.length a + String.length b.
Proof. induction a as [|ch a IH]; simpl; [reflexivity | now rewrite IH]. Qed.

Lemma rfind_succ_absent (c : ascii) (s : string) :
  occurs c s = false -> rfind_succ c s = 0.
Proof.
  induction s as [|d s IH]; simpl; [reflexivity|].
  intro H. apply orb_false_iff in H as [Hd Hs]. now rewrite (IH Hs), Hd.
Qed.

Lemma rfind_succ_le (c : ascii) (s : string) : rfind_succ c s <= String.length s.
Proof.
  induction s as [|d s IH]; simpl; [lia|].
  destruct (rfind_succ c s); [destruct (Ascii.eqb d c)|]; lia.
Qed.

Lemma rfind_succ_app (c : ascii) (a b : string) :
  rfind_succ c (a ++ b) =
    match rfind_succ c b with
    | 0 => rfind_succ c a
    | S k => String.length a + S k
    end.
Proof.
  induction a as [|d a IH]; simpl.
  - now destruct (rfind_succ c b).
  - rewrite IH. destruct (rfind_succ c b) as [|k]; [reflexivity|].
    now replace (String.length a + S k) with (S (String.length a + k)) by lia.
Qed.

Lemma substring_in_prefix (a b : string) (i n : nat) :
  i + n <= String.length a -> substring i n (a ++ b) = substring i n a.
Proof.
  revert i n; induction a as [|d a IH]; intros i n H; simpl in H.
  - assert (i = 0) by lia. assert (n = 0) by lia. subst. now destruct b.
  - destruct i as [|i]; simpl.
    + destruct n as [|n]; [reflexivity|]. f_equal. apply (IH 0 n). lia.
    + apply IH. lia.
Qed.

Lemma substring_all (a : string) : substring 0 (String.length a) a = a.
Proof. induction a as [|d a IH]; simpl; [reflexivity | now rewrite IH]. Qed.

Lemma str_to_prefix (a b : string) : str_to (String.length a) (a ++ b) = a.
Proof.
  unfold str_to. rewrite substring_in_prefix by lia. apply substring_all.
Qed.

Lemma str_split (p : string) (i : nat) :
  i <= String.length p -> str_to i p ++ str_from i p = p.
Proof.
  unfold str_to, str_from. revert i; induction p as [|d p IH]; intros i H; simpl in H.
  - assert (i = 0) by lia. now subst.
  - destruct i as [|i]; simpl.
    + now rewrite substring_all.
    + f_equal. apply IH. lia.
Qed.

Lemma str_to_length (p : string) (i : nat) :
  i <= String.length p -> String.length (str_to i p) = i.
Proof.
  unfold str_to. revert i; induction p as [|d p IH]; intros i H; simpl in H.
  - assert (i = 0) by lia. now subst.
  - destruct i as [|i]; simpl; [reflexivity|]. f_equal. apply IH. lia.
Qed.

(** The root of [stem.ext] when [ext] is the last dotted part of the last
    path component: [stem] if that component has a character other than a
    dot before the extension, else the whole path. *)
Lemma splitext_root_of_extension (stem ext : string) :
  occurs "." ext = false ->
  occurs "/" ext = false ->
  splitext_root (stem ++ "." ++ ext) =
    if has_non_dot (basename stem) then stem else stem ++ "." ++ ext.
Proof.
  intros Hdot Hsep. unfold splitext_root.
  assert (rfind_succ "." (stem ++ "." ++ ext) = String.length stem + 1) as ->.
  { rewrite rfind_succ_app. simpl. now rewrite (rfind_succ_absent _ _ Hdot). }
  assert (rfind_succ "/" (stem ++ "." ++ ext) = rfind_succ "/" stem) as ->.
  { rewrite rfind_succ_app. simpl. now rewrite (rfind_succ_absent _ _ Hsep). }
  pose proof (rfind_succ_le "/" stem) as Hle.
  assert (Nat.ltb (rfind_succ "/" stem) (String.length stem + 1) = true) as ->
    by (apply Nat.ltb_lt; lia).
  replace (String.length stem + 1 - 1) with (String.length stem) by lia.
  rewrite substring_in_prefix by lia.
  fold (str_from (rfind_succ "/" stem) stem). fold (basename stem).
  now rewrite str_to_prefix.
Qed.

(** The root of a path whose last component has no dot is the path. *)
Lemma splitext_root_without_extension (p : string) :
  occurs "." (basename p) = false -> splitext_root p = p.
Proof.
  intro Hdot. unfold splitext_root.
  pose proof (rfind_succ_le "/" p) as Hle.
  pose proof (str_split p _ Hle) as Hsplit. fold (basename p) in Hsplit.
  assert (rfind_succ "." p <= rfind_succ "/" p) as Hdots.
  { rewrite <- Hsplit at 1. rewrite rfind_succ_app, (rfind_succ_absent _ _ Hdot).
    rewrite <- (str_to_length p _ Hle) at 2. apply rfind_succ_le. }
  apply Nat.ltb_ge in Hdots. now rewrite Hdots.
Qed.

(** X9. The output path. A non-empty [--out] is used as it is. Without
    [--out], or with an empty one, the path is the root of the input path
    followed by [_all_metrics.pdf]: for an input [stem.ext], where [ext]
    holds neither a dot nor a slash, that root is [stem], unless the last
    path component of [stem] is empty or made of dots only (a name such
    as [.hidden]), in which case it is the whole input path; an input
    whose last path component has no dot is its own root, whatever dots
    its directories have. *)
Theorem out_path_policy (args : cli_args) :
  (forall out, arg_out args = Some out -> out <> "" -> resolve_out_path args = out) /\
  (arg_out args = None \/ arg_out args = Some "" ->
   resolve_out_path args = splitext_root (arg_file args) ++ "_all_metrics.pdf") /\
  (arg_out args = None \/ arg_out args = Some "" ->
   forall stem ext,
     arg_file args = stem ++ "." ++ ext ->
     occurs "." ext = false -> occurs "/" ext = false ->
     (has_non_dot (basename stem) = true ->
      resolve_out_path args = stem ++ "_all_metrics.pdf") /\
     (has_non_dot (basename stem) = false ->
      resolve_out_path args = arg_file args ++ "_all_metrics.pdf")) /\
  (arg_out args = None \/ arg_out args = Some "" ->
   occurs "." (basename (arg_file args)) = false ->
   resolve_out_path args = arg_file args ++ "_all_metrics.pdf").
Proof.
  assert (arg_out args = None \/ arg_out args = Some "" ->
          resolve_out_path args = splitext_root (arg_file args) ++ "_all_metrics.pdf")
    as Hdefault.
  { unfold resolve_out_path. intros [-> | ->]; reflexivity. }
  split; [|split; [exact Hdefault | split]].
  - intros out Hout Hne. unfold resolve_out_path. rewrite Hout.
    destruct out; [contradiction | reflexivity].
  - intros Hnone stem ext Hfile Hdot Hsep.
    rewrite (Hdefault Hnone), Hfile, (splitext_root_of_extension stem ext Hdot Hsep).
    split; intros ->; reflexivity.
  - intros Hnone Hdot.
    now rewrite (Hdefault Hnone), (splitext_root_without_extension _ Hdot).
Qed.

(* ------------------------------------------------------------------ *)
(** ** The three tables of names                                        *)
(* ------------------------------------------------------------------ *)

(** The names that the tables give to the columns: [time], the names of
    [SINGLES_IN_ORDER], and the three names of each triplet. *)
Definition listed_names : list string :=
  ("time" :: map fst SINGLES_IN_ORDER)
  ++ flat_map (fun base => [key_avg base; key_min base; key_max base]) triplet_bases.

Definition subsetb (l1 l2 : list string) : bool :=
  forallb (fun x => existsb (String.eqb x) l2) l1.

Lemma subsetb_sound (l1 l2 : list string) :
  subsetb l1 l2 = true -> forall x, In x l1 -> In x l2.
Proof.
  unfold subsetb. rewrite forallb_forall. intros H x Hin.
  apply H in Hin. apply existsb_exists in Hin as (y & Hy & Heq).
  apply String.eqb_eq in Heq. now subst.
Qed.

(** X10. The three tables name the same columns: every name of [COLS] is
    [time], one of the 22 names of [SINGLES_IN_ORDER], or the [_avg],
    [_min] or [_max] name of one of the 18 triplets, each in exactly one
    way; and every name of [SINGLES_IN_ORDER] and of the triplets is a
    name of [COLS]. *)
Theorem names_are_partitioned :
  List.length SINGLES_IN_ORDER = 22 /\
  List.length TRIPLETS = 18 /\
  List.length listed_names = List.length COLS /\
  NoDup listed_names /\
  (forall key, In key COLS_keys <-> In key listed_names).
Proof.
  split; [reflexivity|]. split; [reflexivity|]. split; [reflexivity|].
  split; [apply (nodupb_sound String.eqb String.eqb_eq); vm_compute; reflexivity|].
  intro key; split; apply subsetb_sound; vm_compute; reflexivity.
Qed.

(* ------------------------------------------------------------------ *)
(** ** When [plot_triplet] fails                                        *)
(* ------------------------------------------------------------------ *)

(** [s] without its ending [suf], when it ends so. *)
Definition without_suffix (suf s : string) : option string :=
  let n := String.length s - String.length suf in
  if Nat.leb (String.length suf) (String.length s) then
    if String.eqb (substring n (String.length suf) s) suf then Some (substring 0 n s)
    else None
  else None.

Lemma substring_in_suffix (a b : string) :
  substring (String.length a) (String.length b) (a ++ b) = b.
Proof.
  induction a as [|d a IH]; simpl; [apply substring_all | exact IH].
Qed.

Lemma without_suffix_app (base suf : string) :
  without_suffix suf (base ++ suf) = Some base.
Proof.
  unfold without_suffix. rewrite append_length.
  replace (String.length base + String.length suf - String.length suf)
    with (String.length base) by lia.
  assert (Nat.leb (String.length suf) (String.length base + String.length suf) = true) as ->
    by (apply Nat.leb_le; lia).
  rewrite substring_in_suffix, String.eqb_refl.
  f_equal. apply str_to_prefix.
Qed.

(** The names of [COLS] that end in [_avg] are those of the triplets. *)
Lemma avg_key_is_triplet (base_key : string) :
  In (key_avg base_key) COLS_keys -> In base_key triplet_bases.
Proof.
  intro Hin. apply (in_map (without_suffix "_avg")) in Hin.
  unfold key_avg in Hin. rewrite without_suffix_app in Hin.
  vm_compute in Hin.
  repeat (destruct Hin as [Hin|Hin];
          [first [discriminate Hin | injection Hin as <-; in_bases]|]).
  contradiction.
Qed.

(** X11. [plot_triplet] on a table that passed the check. It returns
    exactly when the global [data] is bound, the base name is one of the
    18 of [TRIPLETS], and [t] has one entry per row of the table. With
    [data] unbound it raises [NameError]; with any other base name it
    raises the [KeyError] of the name [{base}_avg]; with a [t] of another
    length it raises [ValueError]. *)
Theorem plot_triplet_failures (data t : ndarray) (nrows ncols : nat)
  (ax : axes) (base_key ylabel : string) (w : world) :
  shape data = [nrows; ncols] ->
  COLS_max < ncols ->
  (g_data w = None ->
   plot_triplet ax t base_key ylabel w = (Raise (NameError "data"), w)) /\
  (g_data w = Some data -> ~ In base_key triplet_bases ->
   plot_triplet ax t base_key ylabel w = (Raise (KeyError (base_key ++ "_avg")), w)) /\
  (g_data w = Some data -> In base_key triplet_bases -> first_dim t <> nrows ->
   exists msg, plot_triplet ax t base_key ylabel w = (Raise (ValueError msg), w)) /\
  (g_data w = Some data -> In base_key triplet_bases -> first_dim t = nrows ->
   exists ax', plot_triplet ax t base_key ylabel w = (Ret ax', w) /\
               List.length (ax_series ax') = List.length (ax_series ax) + 3).
Proof.
  intros Hs Hw. split; [|split; [|split]].
  - intro Hg. unfold plot_triplet, bind, get_data. now rewrite Hg.
  - intros Hg Hnot. unfold plot_triplet.
    unfold bind at 1. rewrite (get_data_bound data w Hg).
    unfold bind at 1. unfold pick.
    destruct (COLS_get (base_key ++ "_avg")) as [c|] eqn:Hc; [|reflexivity].
    exfalso. apply Hnot, avg_key_is_triplet, dict_get_in. now exists c.
  - intros Hg Hin Ht.
    destruct (triplet_base_registered base_key Hin) as (a & Ha & _).
    assert (a < ncols) as Hlt by (apply COLS_get_bound in Ha; lia).
    eexists. unfold plot_triplet.
    eapply bind_returns; [exact (get_data_bound data w Hg)|].
    eapply bind_returns; [exact (pick_table data nrows ncols a _ w Hs Ha Hlt)|].
    unfold bind at 1, ax_plot, draw.
    rewrite (first_dim_column data nrows ncols a Hs Hlt).
    apply Nat.eqb_neq in Ht. rewrite Ht. reflexivity.
  - intros Hg Hin Ht.
    destruct (triplet_base_registered base_key Hin) as (a & Ha & Hm & Hx).
    eexists. split.
    + exact (plot_triplet_ok data t nrows ncols Hs Hw Ht ax base_key ylabel _ _ _ w
               Ha Hm Hx Hg).
    + cbn [ax_series]. rewrite length_app. reflexivity.
Qed.

(* ------------------------------------------------------------------ *)
(** ** What the report draws                                            *)
(* ------------------------------------------------------------------ *)

(** A chart has its grid and a y label; it carries either three labelled
    series and a legend, or one series, without label and legend. *)
Definition chart_dressed (ax : axes) : Prop :=
  ax_grid ax = true /\
  ax_ylabel ax <> None /\
  ((List.length (ax_series ax) = 3 /\ ax_legend ax = true /\
    Forall (fun s => s_label s <> None) (ax_series ax)) \/
   (List.length (ax_series ax) = 1 /\ ax_legend ax = false /\
    Forall (fun s => s_label s = None) (ax_series ax))).

(** A page has charts, all dressed; the last one carries the x label
    [time (s)], the others none. *)
Definition page_laid_out (fig : figure) : Prop :=
  Forall chart_dressed (fig_axes fig) /\
  Forall (fun ax => ax_xlabel ax = None) (removelast (fig_axes fig)) /\
  ax_xlabel (last (fig_axes fig) new_axes) = Some "time (s)".

(** All series of a document, page by page and chart by chart. *)
Definition all_series (pages : list figure) : list series :=
  flat_map (fun fig => flat_map ax_series (fig_axes fig)) pages.

Definition is_step (s : series) : bool :=
  match s_kind s with DrawStep _ => true | DrawPlot => false end.

Lemma report_laid_out (t data : ndarray) (title_suffix : string) :
  Forall page_laid_out (report t data title_suffix).
Proof.
  unfold report, triplet_figure.
  repeat (apply Forall_cons; [|]); try apply Forall_nil;
    (split; [|split; [|reflexivity]]);
    cbn [fig_axes removelast];
    repeat (apply Forall_cons; [|]); try apply Forall_nil; try reflexivity;
    (split; [reflexivity|]); (split; [discriminate|]);
    first [ left; split; [reflexivity|]; split; [reflexivity|];
            repeat (apply Forall_cons; [discriminate|]); apply Forall_nil
          | right; split; [reflexivity|]; split; [reflexivity|];
            repeat (apply Forall_cons; [reflexivity|]); apply Forall_nil ].
Qed.

(** X12. On a file of one or more data rows of at least [COLS_max + 1]
    numeric fields, whose report the platform lets be written, every page
    of the document that [main] writes is laid out alike: each chart has
    its grid and a y label; a chart has either three labelled series with
    a legend or a single series without one; and the x label [time (s)]
    is on the bottom chart of the page and on no other. *)
Theorem pages_are_laid_out (args : cli_args) (w : world) (rows : list (list V)) :
  reads_as (files w) (arg_file args) rows ->
  1 <= List.length rows ->
  COLS_max + 1 <= width rows ->
  can_write w (resolve_out_path args) (report_of args rows) ->
  exists w' pages,
    main args w = (Ret tt, w') /\
    pdf_closed w' = (resolve_out_path args, pages) :: pdf_closed w /\
    Forall page_laid_out pages.
Proof.
  intros Hreads Hrows Hwidth Hwrite.
  eexists. eexists.
  split; [exact (main_report args w rows Hreads Hrows Hwidth Hwrite)|].
  split; [reflexivity|]. apply report_laid_out.
Qed.

Lemma report_series_are_columns (t data : ndarray) (title_suffix : string) :
  Forall (fun s => s_x s = t /\
                   exists key c, COLS_get key = Some c /\ s_y s = column data c)
         (all_series (report t data title_suffix)).
Proof.
  unfold all_series, report, triplet_figure, triplet_chart, single_chart, triplet_series.
  cbn [flat_map fig_axes ax_series app].
  repeat (apply Forall_cons;
          [split; [reflexivity|]; cbn [s_y];
           match goal with
           | |- exists key c, _ /\ column _ (COLS_index ?k) = _ =>
               exists k; eexists; split; reflexivity
           end|]).
  apply Forall_nil.
Qed.

(** X13. On such a file the document holds 81 series. Each is drawn over
    the time column of the table, from the column of a registered name,
    with one point per data row; the one series drawn in steps is that of
    [ca_state], all others are drawn as lines. *)
Theorem series_are_columns_over_time (args : cli_args) (w : world) (rows : list (list V)) :
  reads_as (files w) (arg_file args) rows ->
  1 <= List.length rows ->
  COLS_max + 1 <= width rows ->
  can_write w (resolve_out_path args) (report_of args rows) ->
  exists w' pages,
    main args w = (Ret tt, w') /\
    pdf_closed w' = (resolve_out_path args, pages) :: pdf_closed w /\
    List.length (all_series pages) = 81 /\
    Forall (fun s =>
              s_x s = column (table_of_rows rows) (COLS_index "time") /\
              List.length (buf (s_x s)) = List.length rows /\
              exists key c,
                COLS_get key = Some c /\
                s_y s = column (table_of_rows rows) c /\
                List.length (buf (s_y s)) = List.length rows)
           (all_series pages) /\
    map s_y (filter is_step (all_series pages)) =
      [column (table_of_rows rows) (COLS_index "ca_state")].
Proof.
  intros Hreads Hrows Hwidth Hwrite.
  assert (forall c, c <= COLS_max ->
            List.length (buf (column (table_of_rows rows) c)) = List.length rows) as Hlen.
  { intros c Hc. apply (column_length _ _ rows c Hreads). lia. }
  eexists. eexists.
  split; [exact (main_report args w rows Hreads Hrows Hwidth Hwrite)|].
  split; [reflexivity|]. split; [reflexivity|]. split; [|reflexivity].
  eapply Forall_impl; [|apply report_series_are_columns].
  intros s (Hx & key & c & Hkey & Hy).
  split; [exact Hx|]. split; [rewrite Hx; apply Hlen; lia|].
  exists key, c. split; [exact Hkey|]. split; [exact Hy|].
  rewrite Hy. apply Hlen. exact (COLS_get_bound key c Hkey).
Qed.

(** The names whose columns the pages draw, page by page and chart by
    chart, and the registered names that no page draws. *)
Definition drawn_keys : list string :=
  (flat_map triplet_keys ["rtt_rate_s"; "rtt_rate_m"; "rtt_rate_l"]
   ++ ["rtt_rate_scalar"; "reward"]
   ++ ["rtt_100x_ms"; "rttvar_ms"; "rto_100x_ms"; "ato_100x_ms";
       "pacing_rate_norm"; "delivery_rate_norm"]
   ++ ["snd_ssthresh"; "ca_state"; "cwnd_rate"]
   ++ flat_map triplet_keys triplet_bases
   ++ firstn 7 tail_keys)%list.

Definition undrawn_keys : list string :=
  ["max_tmp"; "dr_w_norm"; "cwnd_unacked_rate"; "dr_w_max_ratio"; "dr_w_max_norm"].

Lemma in_by_test (key : string) (l : list string) :
  existsb (String.eqb key) l = true -> In key l.
Proof.
  intro H. apply existsb_exists in H as (y & Hy & Heq).
  apply String.eqb_eq in Heq. now subst.
Qed.

Lemma not_in_by_test (key : string) (l : list string) :
  existsb (String.eqb key) l = false -> ~ In key l.
Proof.
  intros H Hin. assert (existsb (String.eqb key) l = true) as E; [|congruence].
  apply existsb_exists. exists key. split; [exact Hin | apply String.eqb_refl].
Qed.

Lemma report_draws_drawn_keys (t data : ndarray) (title_suffix : string) :
  map s_y (all_series (report t data title_suffix)) =
  map (fun key => column data (COLS_index key)) drawn_keys.
Proof. reflexivity. Qed.

(** X14. On a file that loads and passes the check, the y arrays of the
    series of the document are, in order, the columns of the names of
    [drawn_keys]. Of the 77 registered names, [time] is the x axis of
    every series, 71 are drawn, and five are drawn on no page: [max_tmp],
    [dr_w_norm], [cwnd_unacked_rate], [dr_w_max_ratio] and
    [dr_w_max_norm]. *)
Theorem five_names_are_never_drawn (args : cli_args) (w : world) (rows : list (list V)) :
  reads_as (files w) (arg_file args) rows ->
  1 <= List.length rows ->
  COLS_max + 1 <= width rows ->
  can_write w (resolve_out_path args) (report_of args rows) ->
  exists w' pages,
    main args w = (Ret tt, w') /\
    pdf_closed w' = (resolve_out_path args, pages) :: pdf_closed w /\
    map s_y (all_series pages) =
      map (fun key => column (table_of_rows rows) (COLS_index key)) drawn_keys /\
    (forall key, In key drawn_keys -> In key COLS_keys) /\
    (forall key, In key COLS_keys ->
       key = "time" \/ In key drawn_keys \/ In key undrawn_keys) /\
    (forall key, In key undrawn_keys ->
       In key COLS_keys /\ key <> "time" /\ ~ In key drawn_keys) /\
    List.length (nodup string_dec drawn_keys) = 71.
Proof.
  intros Hreads Hrows Hwidth Hwrite.
  eexists. eexists.
  split; [exact (main_report args w rows Hreads Hrows Hwidth Hwrite)|].
  split; [reflexivity|]. split; [apply report_draws_drawn_keys|].
  split; [apply subsetb_sound; vm_compute; reflexivity|].
  split.
  - intros key Hin.
    assert (In key ("time" :: drawn_keys ++ undrawn_keys)%list) as H.
    { revert key Hin. apply subsetb_sound. vm_compute. reflexivity. }
    destruct H as [H|H]; [now left|]. apply in_app_or in H. now right.
  - split; [|vm_compute; reflexivity].
    intros key Hin. cbn [undrawn_keys In] in Hin.
    repeat (destruct Hin as [<-|Hin];
            [split; [apply in_by_test; vm_compute; reflexivity|];
             split; [discriminate|];
             apply not_in_by_test; vm_compute; reflexivity|]).
    contradiction.
Qed.

(** The report is the same for two tables that agree on the time column
    and on the columns of the drawn names. *)
Lemma report_ext (d1 d2 : ndarray) (title_suffix : string) :
  (forall key, key = "time" \/ In key drawn_keys ->
     column d1 (COLS_index key) = column d2 (COLS_index key)) ->
  report (column d1 0) d1 title_suffix = report (column d2 0) d2 title_suffix.
Proof.
  intro H.
  change (column d1 0) with (column d1 (COLS_index "time")).
  change (column d2 0) with (column d2 (COLS_index "time")).
  unfold report, triplet_figure, triplet_chart, single_chart, triplet_series.
  repeat match goal with
         | |- context [column d1 (COLS_index ?k)] =>
             rewrite (H k) by
               (first [left; reflexivity
                      | right; apply in_by_test; vm_compute; reflexivity])
         end.
  reflexivity.
Qed.

(** X15. Two logs that load, pass the check, and agree on the time column
    and on the columns of the drawn names give, for the same command
    line and where the platform lets their reports be written, the same
    document: the fields of the five undrawn names, and any field beyond
    the 77th, have no effect on the pages. *)
Theorem undrawn_columns_do_not_matter (args : cli_args) (w1 w2 : world)
  (rows1 rows2 : list (list V)) :
  reads_as (files w1) (arg_file args) rows1 ->
  reads_as (files w2) (arg_file args) rows2 ->
  1 <= List.length rows1 -> 1 <= List.length rows2 ->
  COLS_max + 1 <= width rows1 -> COLS_max + 1 <= width rows2 ->
  can_write w1 (resolve_out_path args) (report_of args rows1) ->
  can_write w2 (resolve_out_path args) (report_of args rows2) ->
  (forall key, key = "time" \/ In key drawn_keys ->
     column (table_of_rows rows1) (COLS_index key) =
     column (table_of_rows rows2) (COLS_index key)) ->
  exists w1' w2' pages,
    main args w1 = (Ret tt, w1') /\
    main args w2 = (Ret tt, w2') /\
    pdf_closed w1' = (resolve_out_path args, pages) :: pdf_closed w1 /\
    pdf_closed w2' = (resolve_out_path args, pages) :: pdf_closed w2.
Proof.
  intros Hr1 Hr2 Hn1 Hn2 Hw1 Hw2 Hc1 Hc2 Hagree.
  eexists. eexists. eexists.
  split; [exact (main_report args w1 rows1 Hr1 Hn1 Hw1 Hc1)|].
  split; [exact (main_report args w2 rows2 Hr2 Hn2 Hw2 Hc2)|].
  split; [reflexivity|].
  cbn [pdf_closed world_after_main]. unfold report_of.
  now rewrite (report_ext _ _ _ Hagree).
Qed.

(* ------------------------------------------------------------------ *)
(** ** What a run owes to the state it starts in                        *)
(* ------------------------------------------------------------------ *)

Lemma np_loadtxt_ext (fs1 fs2 : string -> option string) (path : string) :
  fs1 path = fs2 path -> np_loadtxt fs1 path = np_loadtxt fs2 path.
Proof. intro H. unfold np_loadtxt. now rewrite H. Qed.

(** X16. [main] takes from the state it starts in the input file and
    what the platform refuses to write, nothing else: in two states that
    hold the same file under the input path and refuse the same writes
    under the output path, whatever the global [data] is bound to,
    whatever was printed and whatever documents were closed before,
    [main] either returns in both with the same table bound and the same
    ten pages written, or fails in both with the same exception or exit,
    having printed nothing on the output stream. *)
Theorem main_ignores_prior_state (args : cli_args) (w1 w2 : world) :
  files w1 (arg_file args) = files w2 (arg_file args) ->
  open_error w1 (resolve_out_path args) = open_error w2 (resolve_out_path args) ->
  (forall pages fig,
     save_error w1 (resolve_out_path args) pages fig =
     save_error w2 (resolve_out_path args) pages fig) ->
  (exists data,
     main args w1 =
       (Ret tt, world_after_main w1 data (resolve_out_path args)
                  (report (column data 0) data (basename (arg_file args)))) /\
     main args w2 =
       (Ret tt, world_after_main w2 data (resolve_out_path args)
                  (report (column data 0) data (basename (arg_file args))))) \/
  (exists r w1' w2',
     r <> Ret tt /\
     main args w1 = (r, w1') /\
     main args w2 = (r, w2') /\
     out_lines w1' = out_lines w1 /\
     out_lines w2' = out_lines w2).
Proof.
  intros Hfiles Hopen Hsave. apply np_loadtxt_ext in Hfiles.
  destruct (np_loadtxt (files w2) (arg_file args)) as [f|a] eqn:Hload.
  - right. exists (Exit 1). eexists. eexists.
    split; [discriminate|].
    split; [unfold main, bind; rewrite (load_data_failure _ _ _ Hfiles); reflexivity|].
    split; [unfold main, bind; rewrite (load_data_failure _ _ _ Hload); reflexivity|].
    split; reflexivity.
  - pose proof (load_data_success _ w1 a Hfiles) as H1.
    pose proof (load_data_success _ w2 a Hload) as H2.
    destruct (load_data_shapes _ _ _ Hload) as (data & Hdata & Hshape).
    rewrite H2 in Hdata. injection Hdata as Hdata. rewrite Hdata in H1, H2.
    destruct Hshape as [Hs | (nrows & ncols & Hs)].
    + right. exists (Raise (IndexError "tuple index out of range")). eexists. eexists.
      assert (forall w0, ensure_cols data w0
                         = (Raise (IndexError "tuple index out of range"), w0)) as Hcheck
        by (intro w0; unfold ensure_cols; now rewrite Hs).
      split; [discriminate|].
      split; [exact (main_stops_at_check args w1 data _ H1 Hcheck)|].
      split; [exact (main_stops_at_check args w2 data _ H2 Hcheck)|].
      split; reflexivity.
    + destruct (Nat.le_gt_cases ncols COLS_max) as [Hle | Hgt].
      * right. eexists. eexists. eexists.
        assert (forall w0, ensure_cols data w0 = _) as Hcheck
          by (intro w0; apply (ensure_cols_raises data ncols w0);
              [now rewrite Hs | exact Hle]).
        split; [|split; [exact (main_stops_at_check args w1 data _ H1 Hcheck)|
                 split; [exact (main_stops_at_check args w2 data _ H2 Hcheck)|
                         split; reflexivity]]].
        discriminate.
      * rewrite (main_on_table args w1 data nrows ncols H1 Hs Hgt).
        rewrite (main_on_table args w2 data nrows ncols H2 Hs Hgt).
        rewrite Hopen.
        rewrite (save_outcome_ext _ _ _ Hsave []).
        destruct (open_error w2 (resolve_out_path args)) as [e|].
        { right. exists (Raise e). eexists. eexists.
          split; [discriminate|]. repeat split. }
        destruct (save_outcome (save_error w2 (resolve_out_path args)) []
                    (report (column data 0) data (basename (arg_file args))))
          as [[e|] pages] eqn:Hout.
        { right. exists (Raise e). eexists. eexists.
          split; [discriminate|]. repeat split. }
        pose proof (save_outcome_none _ _ _ _ Hout) as Hpages. cbn [app] in Hpages.
        subst pages. left. exists data. split; reflexivity.
Qed.

End Program.

(* ================================================================== *)
(** * Concrete runs                                                     *)
(* ================================================================== *)

(** Tokens are read by [decimal_of_token], a value sits on its axis at
    its own place, and failures are worded by [failure_text]. *)
Definition run_on (fs : string -> option string) (path : string) (out : option string)
  : nat * world (V := Q) :=
  run decimal_of_token failure_text (mk_args path out) (initial_world fs).

(** A log of two samples: all fields 0 at time 0; at time 1.0 the state
    (column 9) is 3. *)
Definition scenario_text : string :=
  line_of (repeat "0" 77) ++
  line_of (["1.0"] ++ repeat "0" 8 ++ ["3"] ++ repeat "0" 67)%list.

Definition scenario_files : string -> option string :=
  one_file "logs/run1.txt" scenario_text.

Definition scenario_rows : list (list Q) :=
  [ repeat 0%Q 77;
    ([10 # 10] ++ repeat 0 8 ++ [3] ++ repeat 0 67)%list%Q ].

Definition scenario_world : world (V := Q) := initial_world scenario_files.

(** A log of one sample of 77 fields, and one of 76. *)
Definition one_row_files : string -> option string :=
  one_file "run.log" (line_of (repeat "0" 77)).

Definition short_row_files : string -> option string :=
  one_file "run.log" (line_of (repeat "0" 76)).

(** Two tables of one row and 77 columns, of zeros and of ones, and the
    worlds in which the global [data] is bound to each. *)
Definition zeros_table : ndarray (V := Q) := {| shape := [1; 77]; buf := repeat 0%Q 77 |}.
Definition ones_table : ndarray (V := Q) := {| shape := [1; 77]; buf := repeat 1%Q 77 |}.

Definition world_with (data : ndarray (V := Q)) : world :=
  {| files := fun _ => None;
     open_error := fun _ => None; save_error := fun _ _ _ => None;
     g_data := Some data; out_lines := []; err_lines := [];
     pdf_open := None; pdf_closed := [] |}.

(** The same values, three to a line and one to a line; a single value;
    a file without data. *)
Definition row_and_column_files : string -> option string :=
  fun p => if String.eqb p "row.txt" then Some (line_of ["1"; "2"; "3"])
           else if String.eqb p "col.txt"
                then Some (line_of ["1"] ++ line_of ["2"] ++ line_of ["3"])
           else if String.eqb p "one.txt" then Some (line_of ["5"])
           else if String.eqb p "none.txt" then Some (String "010" EmptyString)
           else None.

Definition rc_world : world (V := Q) := initial_world row_and_column_files.

(** A log with a token that is no number, and one whose second line is
    short. *)
Definition bad_token_files : string -> option string :=
  one_file "run.log" (line_of ["0"; "abc"; "0"]).

Lemma scenario_reads : reads_as decimal_of_token scenario_files "logs/run1.txt" scenario_rows.
Proof. exists scenario_text. split; reflexivity. Qed.

Definition short_table : ndarray (V := Q) := {| shape := [1; 76]; buf := repeat 0%Q 76 |}.

(** The check on a table of 76 columns, one fewer than required. *)
Lemma ensure_cols_threshold_witness :
  nth_error (shape short_table) 1 = Some 76 /\
  ((ensure_cols short_table (world_with short_table) = (Ret tt, world_with short_table)
    <-> COLS_max < 76) /\
   (76 = COLS_max + 1 ->
    ensure_cols short_table (world_with short_table) = (Ret tt, world_with short_table)) /\
   (76 <= COLS_max ->
    exists msg, ensure_cols short_table (world_with short_table)
                = (Raise (ValueError msg), world_with short_table) /\
                contains msg (str_nat 76) /\
                contains msg (str_nat (COLS_max + 1))) /\
   (76 + 1 = COLS_max + 1 ->
    exists msg, ensure_cols short_table (world_with short_table)
                = (Raise (ValueError msg), world_with short_table) /\
                contains msg (str_nat 76) /\
                contains msg (str_nat (COLS_max + 1)))).
Proof.
  split; [reflexivity|].
  apply (ensure_cols_threshold short_table 76 (world_with short_table)).
  reflexivity.
Defined.

(** The check on both sides of the threshold, run. *)
Example ensure_cols_at_77 :
  ensure_cols zeros_table (world_with zeros_table) = (Ret tt, world_with zeros_table).
Proof. reflexivity. Qed.

Example ensure_cols_at_76 :
  ensure_cols short_table (world_with short_table) =
    (Raise (ValueError "File has 76 cols; expected ≥ 77 from the C++ logger."),
     world_with short_table).
Proof. reflexivity. Qed.

(** A file of the single line [1 2 3]. *)
Lemma single_row_file_is_one_row_table_witness :
  reads_as decimal_of_token (files rc_world) "row.txt"
           [[1; 2; 3]%Q] /\
  2 <= List.length [1; 2; 3]%Q /\
  exists table col,
    load_data decimal_of_token failure_text "row.txt" rc_world
      = (Ret table, rc_world) /\
    shape table = [1; List.length [1; 2; 3]%Q] /\
    buf table = [1; 2; 3]%Q /\
    pick table "time" rc_world
      = (Ret col, rc_world) /\
    shape col = [1] /\
    buf col = firstn 1 [1; 2; 3]%Q /\
    List.length (buf col) = 1.
Proof.
  assert (reads_as decimal_of_token (files rc_world) "row.txt"
                   [[1; 2; 3]%Q]) as Hreads.
  { exists (line_of ["1"; "2"; "3"]). split; reflexivity. }
  split; [exact Hreads|]. split; [simpl; lia|].
  apply (single_row_file_is_one_row_table decimal_of_token failure_text "row.txt"
           rc_world [1; 2; 3]%Q Hreads).
  simpl; lia.
Defined.

(** C3 on the code. The file [one.txt] has exactly one data line, the
    single token [5]. [np.loadtxt] squeezes both axes of its 1 x 1 result
    away and [load_data] reshapes only arrays of one axis, so the loader
    returns an array without axes, not a table of one row; [pick] of
    ["time"] on it raises [IndexError] instead of returning a sequence of
    length 1. The same value followed by a second one on the line loads
    as a table of one row, and so does the file without any data. *)
Theorem single_token_file_is_not_a_table :
  exists a,
    data_lines (line_of ["5"]) = [["5"]] /\
    load_data decimal_of_token failure_text "one.txt" rc_world
      = (Ret a, rc_world) /\
    shape a = [] /\
    ndim a = 0 /\
    buf a = [5%Q] /\
    (forall ncols, shape a <> [1; ncols]) /\
    pick a "time" rc_world
      = (Raise (IndexError
                  "too many indices for array: array is 0-dimensional, but 2 were indexed"),
         rc_world) /\
    (forall col, pick a "time" rc_world <> (Ret col, rc_world)) /\
    fst (load_data decimal_of_token failure_text "row.txt" rc_world)
      = Ret {| shape := [1; 3]; buf := [1; 2; 3]%Q |} /\
    fst (load_data decimal_of_token failure_text "none.txt" rc_world)
      = Ret {| shape := [1; 0]; buf := [] |}.
Proof.
  eexists. split; [reflexivity|]. split; [reflexivity|]. split; [reflexivity|].
  split; [reflexivity|]. split; [reflexivity|].
  split; [intros ncols H; discriminate H|].
  split; [reflexivity|].
  split; [intros col H; discriminate H|].
  split; reflexivity.
Qed.

(** The two-sample log, run from a fresh process. *)
Lemma main_writes_ten_pages_witness :
  reads_as decimal_of_token (files scenario_world)
           (arg_file (mk_args "logs/run1.txt" None)) scenario_rows /\
  1 <= List.length scenario_rows /\
  COLS_max + 1 <= width scenario_rows /\
  can_write scenario_world (resolve_out_path (mk_args "logs/run1.txt" None))
            (report_of (mk_args "logs/run1.txt" None) scenario_rows) /\
  exists w' pages tail n,
    run decimal_of_token failure_text (mk_args "logs/run1.txt" None) scenario_world = (0, w') /\
    pdf_closed w' = (resolve_out_path (mk_args "logs/run1.txt" None), pages)
                    :: pdf_closed scenario_world /\
    pdf_open w' = None /\
    List.length pages = 10 /\
    map fig_suptitle pages = page_titles (basename (arg_file (mk_args "logs/run1.txt" None))) /\
    firstn 9 pages = firstn 9 (report_of (mk_args "logs/run1.txt" None) scenario_rows) /\
    map charts_columns (firstn 9 pages) =
      map (map (map (fun key => column (table_of_rows scenario_rows) (COLS_index key))))
          charts_of_pages_1_to_9 /\
    nth_error pages 9 = Some tail /\
    1 <= n <= List.length tail_keys /\
    charts_columns tail =
      map (fun key => [column (table_of_rows scenario_rows) (COLS_index key)])
          (firstn n tail_keys) /\
    Forall (fun fig =>
              Forall (fun x => x = column (table_of_rows scenario_rows) (COLS_index "time"))
                     (charts_abscissas fig)) pages /\
    out_lines w' = app (out_lines scenario_world)
                       ["Wrote " ++ resolve_out_path (mk_args "logs/run1.txt" None)] /\
    contains ("Wrote " ++ resolve_out_path (mk_args "logs/run1.txt" None))
             (resolve_out_path (mk_args "logs/run1.txt" None)) /\
    err_lines w' = err_lines scenario_world.
Proof.
  assert (can_write scenario_world (resolve_out_path (mk_args "logs/run1.txt" None))
                    (report_of (mk_args "logs/run1.txt" None) scenario_rows)) as Hwrite.
  { split; [reflexivity | intros; reflexivity]. }
  split; [exact scenario_reads|].
  split; [vm_compute; lia|]. split; [vm_compute; lia|]. split; [exact Hwrite|].
  apply (main_writes_ten_pages decimal_of_token failure_text
           (mk_args "logs/run1.txt" None) scenario_world scenario_rows scenario_reads).
  - vm_compute; lia.
  - vm_compute; lia.
  - exact Hwrite.
Defined.

(** A process in which the directory of the output path does not exist:
    the document cannot be created. *)
Definition no_directory_world : world (V := Q) :=
  {| files := scenario_files;
     open_error := fun p =>
       if String.eqb p "nodir/out.pdf"
       then Some (OSError "[Errno 2] No such file or directory: 'nodir/out.pdf'")
       else None;
     save_error := fun p _ _ =>
       if String.eqb p "nodir/out.pdf"
       then Some (OSError "[Errno 2] No such file or directory: 'nodir/out.pdf'")
       else None;
     g_data := None; out_lines := []; err_lines := [];
     pdf_open := None; pdf_closed := [] |}.

(** C4, as stated, fails on the two-sample log, which has two data rows
    of 77 numeric fields, when the output path cannot be written: [main]
    is left by the exception of the write, the process ends with status
    1, and no line is printed on the output stream. *)
Lemma unwritable_output_ends_with_status_1 :
  reads_as decimal_of_token (files no_directory_world) "logs/run1.txt" scenario_rows /\
  1 <= List.length scenario_rows /\
  COLS_max + 1 <= width scenario_rows /\
  resolve_out_path (mk_args "logs/run1.txt" (Some "nodir/out.pdf")) = "nodir/out.pdf" /\
  exists e w',
    main decimal_of_token failure_text (mk_args "logs/run1.txt" (Some "nodir/out.pdf"))
         no_directory_world = (Raise (OSError e), w') /\
    fst (run decimal_of_token failure_text (mk_args "logs/run1.txt" (Some "nodir/out.pdf"))
             no_directory_world) = 1 /\
    out_lines w' = [] /\
    Forall (fun doc => List.length (snd doc) <> 10) (pdf_closed w').
Proof.
  split; [exact scenario_reads|].
  split; [vm_compute; lia|]. split; [vm_compute; lia|]. split; [reflexivity|].
  eexists. eexists.
  split; [vm_compute; reflexivity|].
  split; [vm_compute; reflexivity|]. split; [reflexivity|].
  apply Forall_nil.
Qed.

(** A log of 76 fields stops at the check: status 1, nothing printed by
    the program, no document. *)
Example short_row_run :
  let r := run_on short_row_files "run.log" None in
  fst r = 1 /\ out_lines (snd r) = [] /\ err_lines (snd r) = [] /\
  pdf_open (snd r) = None /\ pdf_closed (snd r) = [].
Proof. vm_compute. repeat split. Qed.

(** What the run of the two-sample log leaves behind. *)
Example scenario_run :
  let r := run_on scenario_files "logs/run1.txt" None in
  fst r = 0 /\
  out_lines (snd r) = ["Wrote logs/run1_all_metrics.pdf"] /\
  err_lines (snd r) = [] /\
  map fst (pdf_closed (snd r)) = ["logs/run1_all_metrics.pdf"] /\
  map (fun d => map fig_suptitle (snd d)) (pdf_closed (snd r)) = [page_titles "run1.txt"].
Proof. vm_compute. repeat split. Qed.

(** The two-sample log: between time 0 and time 1 the state chart stays
    at 0, the state of the first sample. *)
Lemma ca_state_chart_is_post_step_witness :
  reads_as decimal_of_token (files scenario_world)
           (arg_file (mk_args "logs/run1.txt" None)) scenario_rows /\
  1 <= List.length scenario_rows /\
  COLS_max + 1 <= width scenario_rows /\
  can_write scenario_world (resolve_out_path (mk_args "logs/run1.txt" None))
            (report_of (mk_args "logs/run1.txt" None) scenario_rows) /\
  nth_error (buf (column (table_of_rows scenario_rows) (COLS_index "time"))) 0 = Some 0%Q /\
  nth_error (buf (column (table_of_rows scenario_rows) (COLS_index "time"))) 1
    = Some (10 # 10)%Q /\
  nth_error (buf (column (table_of_rows scenario_rows) (COLS_index "ca_state"))) 0
    = Some 0%Q /\
  nth_error (buf (column (table_of_rows scenario_rows) (COLS_index "ca_state"))) 1
    = Some 3%Q /\
  (0 < 10 # 10)%Q /\
  exists w' pages ser,
    main decimal_of_token failure_text (mk_args "logs/run1.txt" None) scenario_world
      = (Ret tt, w') /\
    pdf_closed w' = (resolve_out_path (mk_args "logs/run1.txt" None), pages)
                    :: pdf_closed scenario_world /\
    chart_series pages 2 1 = [ser] /\
    s_kind ser = DrawStep "post" /\
    s_x ser = column (table_of_rows scenario_rows) (COLS_index "time") /\
    s_y ser = column (table_of_rows scenario_rows) (COLS_index "ca_state") /\
    forall x, (0 <= x)%Q -> (x < 10 # 10)%Q ->
      rendered_between (fun q => q) ser 0 x 0%Q /\
      forall y, rendered_between (fun q => q) ser 0 x y -> (y == 0)%Q.
Proof.
  assert (can_write scenario_world (resolve_out_path (mk_args "logs/run1.txt" None))
                    (report_of (mk_args "logs/run1.txt" None) scenario_rows)) as Hwrite.
  { split; [reflexivity | intros; reflexivity]. }
  split; [exact scenario_reads|].
  split; [vm_compute; lia|]. split; [vm_compute; lia|]. split; [exact Hwrite|].
  split; [reflexivity|]. split; [reflexivity|].
  split; [reflexivity|]. split; [reflexivity|].
  split; [reflexivity|].
  apply (ca_state_chart_is_post_step decimal_of_token failure_text (fun q => q)
           (mk_args "logs/run1.txt" None) scenario_world scenario_rows
           0 0%Q (10 # 10)%Q 0%Q 3%Q scenario_reads).
  - vm_compute; lia.
  - vm_compute; lia.
  - exact Hwrite.
  - reflexivity.
  - reflexivity.
  - reflexivity.
  - reflexivity.
  - reflexivity.
Defined.

(** The RTT short-window triplet on a table of zeros. *)
Lemma plot_triplet_three_series_witness :
  shape zeros_table = [1; 77] /\
  COLS_max < 77 /\
  first_dim (column zeros_table 0) = 1 /\
  In "rtt_s" triplet_bases /\
  g_data (world_with zeros_table) = Some zeros_table /\
  exists ax a,
    plot_triplet new_axes (column zeros_table 0) "rtt_s" "RTT short (ms)"
                 (world_with zeros_table) = (Ret ax, world_with zeros_table) /\
    COLS_get (key_avg "rtt_s") = Some a /\
    ax_series ax =
      [ {| s_kind := DrawPlot; s_x := column zeros_table 0; s_y := column zeros_table a;
           s_style := Solid; s_label := Some ("rtt_s" ++ " avg") |};
        {| s_kind := DrawPlot; s_x := column zeros_table 0; s_y := column zeros_table (a + 1);
           s_style := Dashed; s_label := Some ("rtt_s" ++ " min") |};
        {| s_kind := DrawPlot; s_x := column zeros_table 0; s_y := column zeros_table (a + 2);
           s_style := Dotted; s_label := Some ("rtt_s" ++ " max") |} ] /\
    List.length (ax_series ax) = 3 /\
    ax_legend ax = true /\
    ax_ylabel ax = Some "RTT short (ms)".
Proof.
  assert (In "rtt_s" triplet_bases) as Hin by (left; reflexivity).
  assert (COLS_max < 77) as Hwide by (vm_compute; lia).
  split; [reflexivity|]. split; [exact Hwide|]. split; [reflexivity|].
  split; [exact Hin|]. split; [reflexivity|].
  exact (plot_triplet_three_series zeros_table (column zeros_table 0) 1 77
           eq_refl Hwide eq_refl "rtt_s" "RTT short (ms)" (world_with zeros_table)
           Hin eq_refl).
Defined.

Definition bad_token_world : world (V := Q) := initial_world bad_token_files.

(** A log whose second token is [abc]. *)
Lemma load_failure_is_reported_witness :
  cannot_load decimal_of_token (files bad_token_world) (arg_file (mk_args "run.log" None)) /\
  exists f msg w',
    np_loadtxt decimal_of_token (files bad_token_world) (arg_file (mk_args "run.log" None))
      = inl f /\
    msg = "Error reading '" ++ arg_file (mk_args "run.log" None) ++ "': " ++ failure_text f /\
    contains msg (arg_file (mk_args "run.log" None)) /\
    contains msg (failure_text f) /\
    load_data decimal_of_token failure_text (arg_file (mk_args "run.log" None)) bad_token_world
      = (Exit 1, w') /\
    run decimal_of_token failure_text (mk_args "run.log" None) bad_token_world = (1, w') /\
    err_lines w' = (err_lines bad_token_world ++ [msg])%list /\
    out_lines w' = out_lines bad_token_world /\
    pdf_open w' = pdf_open bad_token_world /\
    pdf_closed w' = pdf_closed bad_token_world.
Proof.
  assert (cannot_load decimal_of_token (files bad_token_world)
                      (arg_file (mk_args "run.log" None))) as Hbad.
  { left. exists ["0"; "abc"; "0"], "abc".
    split; [left; reflexivity|]. split; [right; left; reflexivity | reflexivity]. }
  split; [exact Hbad|].
  exact (load_failure_is_reported decimal_of_token failure_text
           (mk_args "run.log" None) bad_token_world Hbad).
Defined.

(** The three ways of failing, run. *)
Example missing_file_run :
  let r := run_on one_row_files "absent.log" None in
  fst r = 1 /\ out_lines (snd r) = [] /\ pdf_closed (snd r) = [] /\
  err_lines (snd r) = ["Error reading 'absent.log': absent.log not found."].
Proof. vm_compute. repeat split. Qed.

Example bad_token_run :
  let r := run_on bad_token_files "run.log" None in
  fst r = 1 /\ out_lines (snd r) = [] /\ pdf_closed (snd r) = [] /\
  err_lines (snd r) =
    ["Error reading 'run.log': could not convert string 'abc' to float64 at row 0, column 2."].
Proof. vm_compute. repeat split. Qed.

Example ragged_rows_run :
  let r := run_on (one_file "run.log" (line_of ["1"; "2"; "3"] ++ line_of ["4"; "5"]))
                  "run.log" None in
  fst r = 1 /\ out_lines (snd r) = [] /\ pdf_closed (snd r) = [] /\
  err_lines (snd r) =
    ["Error reading 'run.log': the number of columns changed from 3 to 2 at row 2; use `usecols` to select a subset and avoid this error"].
Proof. vm_compute. repeat split. Qed.

(** A world like [world_with data] in which a line was already printed. *)
Definition printed_world (data : ndarray (V := Q)) : world :=
  {| files := fun _ => None;
     open_error := fun _ => None; save_error := fun _ _ _ => None;
     g_data := Some data; out_lines := ["started"];
     err_lines := []; pdf_open := None; pdf_closed := [] |}.

(** Two states that differ in what was printed and agree on [data]. *)
Lemma plot_triplet_depends_on_global_data_witness :
  g_data (world_with zeros_table) = g_data (printed_world zeros_table) /\
  fst (plot_triplet new_axes (column zeros_table 0) "rtt_s" "RTT short (ms)"
                    (world_with zeros_table)) =
  fst (plot_triplet new_axes (column zeros_table 0) "rtt_s" "RTT short (ms)"
                    (printed_world zeros_table)) /\
  g_data (snd (plot_triplet new_axes (column zeros_table 0) "rtt_s" "RTT short (ms)"
                            (world_with zeros_table))) = g_data (world_with zeros_table) /\
  g_data (snd (plot_triplet new_axes (column zeros_table 0) "rtt_s" "RTT short (ms)"
                            (printed_world zeros_table))) = g_data (printed_world zeros_table).
Proof.
  split; [reflexivity|].
  exact (plot_triplet_depends_on_global_data new_axes (column zeros_table 0)
           "rtt_s" "RTT short (ms)" (world_with zeros_table) (printed_world zeros_table)
           eq_refl).
Defined.

(** C9, as stated, fails: [plot_triplet] called twice with the same chart,
    the same [t], the same base name and the same label plots the zeros
    in one state and the ones in the other, because the two states bind
    the global [data] to different tables, which is no parameter of the
    call. *)
Lemma plot_triplet_follows_the_global :
  map (fun s => buf (s_y s))
      (match fst (plot_triplet new_axes (column zeros_table 0) "rtt_s" "RTT short (ms)"
                               (world_with zeros_table)) with
       | Ret ax => ax_series ax
       | _ => []
       end) = [[0%Q]; [0%Q]; [0%Q]] /\
  map (fun s => buf (s_y s))
      (match fst (plot_triplet new_axes (column zeros_table 0) "rtt_s" "RTT short (ms)"
                               (world_with ones_table)) with
       | Ret ax => ax_series ax
       | _ => []
       end) = [[1%Q]; [1%Q]; [1%Q]] /\
  fst (plot_triplet new_axes (column zeros_table 0) "rtt_s" "RTT short (ms)"
                    (world_with zeros_table)) <>
  fst (plot_triplet new_axes (column zeros_table 0) "rtt_s" "RTT short (ms)"
                    (world_with ones_table)).
Proof.
  split; [reflexivity|]. split; [reflexivity|].
  vm_compute. intro H. discriminate H.
Qed.

(** The values 1, 2, 3 one to a line load as the row that the line
    [1 2 3] loads as. *)
Lemma one_axis_load_is_one_row_witness :
  load_data decimal_of_token failure_text "col.txt" rc_world
    = (Ret {| shape := [1; 3]; buf := [1; 2; 3]%Q |}, rc_world) /\
  load_data decimal_of_token failure_text "row.txt" rc_world
    = load_data decimal_of_token failure_text "col.txt" rc_world.
Proof.
  destruct (one_axis_load_is_one_row decimal_of_token failure_text rc_world "col.txt")
    as (_ & _ & Hsame).
  apply (Hsame "row.txt" [1; 2; 3]%Q).
  - exists (line_of ["1"] ++ line_of ["2"] ++ line_of ["3"]). split; reflexivity.
  - exists (line_of ["1"; "2"; "3"]). split; reflexivity.
  - simpl; lia.
Defined.

(** C1 on the code. For the one-sample log of 77 fields the run succeeds
    and the tenth page, "Tail metrics", has seven charts of one series
    each, labelled by the first seven of the thirteen names of
    [tail_keys]; the last six names are drawn on no chart of that page. *)
Theorem tail_page_draws_seven_of_thirteen :
  exists w' pages tail,
    run_on one_row_files "run.log" None = (0, w') /\
    pdf_closed w' = [("run_all_metrics.pdf", pages)] /\
    nth_error pages 9 = Some tail /\
    fig_suptitle tail = "Tail metrics" /\
    List.length tail_keys = 13 /\
    List.length (fig_axes tail) = 7 /\
    map (fun ax => List.length (ax_series ax)) (fig_axes tail) = [1; 1; 1; 1; 1; 1; 1] /\
    map ax_ylabel (fig_axes tail) = map Some (firstn 7 tail_keys) /\
    Forall (fun key => ~ In (Some key) (map ax_ylabel (fig_axes tail)))
           (skipn 7 tail_keys).
Proof.
  eexists. eexists. eexists.
  split; [vm_compute; reflexivity|].
  split; [reflexivity|]. split; [reflexivity|]. split; [reflexivity|].
  split; [reflexivity|]. split; [reflexivity|]. split; [reflexivity|].
  split; [reflexivity|].
  repeat (apply Forall_cons;
          [cbn; intro H; repeat (destruct H as [H|H]; [discriminate H|]); exact H|]).
  apply Forall_nil.
Qed.

(* ================================================================== *)
(** * Concrete runs of the further properties                           *)
(* ================================================================== *)

Definition short_row_world : world (V := Q) := initial_world short_row_files.

(** A log of one sample of 76 fields. *)
Lemma main_schema_mismatch_witness :
  reads_as decimal_of_token (files short_row_world)
           (arg_file (mk_args "run.log" None)) [repeat 0%Q 76] /\
  1 <= List.length [repeat 0%Q 76] /\
  2 <= width [repeat 0%Q 76] /\
  width [repeat 0%Q 76] <= COLS_max /\
  exists w',
    main decimal_of_token failure_text (mk_args "run.log" None) short_row_world =
      (Raise (ValueError ("File has " ++ str_nat (width [repeat 0%Q 76])
                          ++ " cols; expected ≥ "
                          ++ str_nat (COLS_max + 1) ++ " from the C++ logger.")), w') /\
    fst (run decimal_of_token failure_text (mk_args "run.log" None) short_row_world) = 1 /\
    g_data w' = Some (table_of_rows [repeat 0%Q 76]) /\
    out_lines w' = out_lines short_row_world /\
    err_lines w' = err_lines short_row_world /\
    pdf_open w' = pdf_open short_row_world /\
    pdf_closed w' = pdf_closed short_row_world.
Proof.
  assert (reads_as decimal_of_token (files short_row_world)
                   (arg_file (mk_args "run.log" None)) [repeat 0%Q 76]) as Hreads.
  { exists (line_of (repeat "0" 76)). split; reflexivity. }
  assert (1 <= List.length [repeat 0%Q 76]) as H1 by (simpl; lia).
  assert (2 <= width [repeat 0%Q 76]) as H2 by (vm_compute; lia).
  assert (width [repeat 0%Q 76] <= COLS_max) as H3 by (vm_compute; lia).
  split; [exact Hreads|]. split; [exact H1|]. split; [exact H2|]. split; [exact H3|].
  exact (main_schema_mismatch decimal_of_token failure_text (mk_args "run.log" None)
           short_row_world [repeat 0%Q 76] Hreads H1 H2 H3).
Defined.

(** A log of comments and blank lines only. *)
Definition comment_text : string :=
  "# no sample yet" ++ String "010" (String "010" "   # still none").

Definition comment_world : world (V := Q) := initial_world (one_file "run.log" comment_text).

Lemma main_on_empty_file_witness :
  files comment_world (arg_file (mk_args "run.log" None)) = Some comment_text /\
  data_lines comment_text = [] /\
  load_data decimal_of_token failure_text (arg_file (mk_args "run.log" None)) comment_world
    = (Ret {| shape := [1; 0]; buf := [] |}, comment_world) /\
  exists w',
    main decimal_of_token failure_text (mk_args "run.log" None) comment_world =
      (Raise (ValueError ("File has " ++ str_nat 0 ++ " cols; expected ≥ "
                          ++ str_nat (COLS_max + 1) ++ " from the C++ logger.")), w') /\
    fst (run decimal_of_token failure_text (mk_args "run.log" None) comment_world) = 1 /\
    out_lines w' = out_lines comment_world /\
    pdf_open w' = pdf_open comment_world /\
    pdf_closed w' = pdf_closed comment_world.
Proof.
  split; [reflexivity|]. split; [reflexivity|].
  exact (main_on_empty_file decimal_of_token failure_text (mk_args "run.log" None)
           comment_world comment_text eq_refl eq_refl).
Defined.

(** The file [one.txt], whose only data is the number 5. *)
Lemma main_on_single_value_witness :
  reads_as decimal_of_token (files rc_world) (arg_file (mk_args "one.txt" None)) [[5%Q]] /\
  load_data decimal_of_token failure_text (arg_file (mk_args "one.txt" None)) rc_world
    = (Ret {| shape := []; buf := [5%Q] |}, rc_world) /\
  exists w',
    main decimal_of_token failure_text (mk_args "one.txt" None) rc_world
      = (Raise (IndexError "tuple index out of range"), w') /\
    fst (run decimal_of_token failure_text (mk_args "one.txt" None) rc_world) = 1 /\
    g_data w' = Some {| shape := []; buf := [5%Q] |} /\
    out_lines w' = out_lines rc_world /\
    err_lines w' = err_lines rc_world /\
    pdf_open w' = pdf_open rc_world /\
    pdf_closed w' = pdf_closed rc_world.
Proof.
  assert (reads_as decimal_of_token (files rc_world) (arg_file (mk_args "one.txt" None))
                   [[5%Q]]) as Hreads.
  { exists (line_of ["5"]). split; reflexivity. }
  split; [exact Hreads|].
  exact (main_on_single_value decimal_of_token failure_text (mk_args "one.txt" None)
           rc_world 5%Q Hreads).
Defined.

(** A log of 77 lines, each holding the number 0. *)
Fixpoint lines_of (n : nat) (tok : string) : string :=
  match n with
  | 0 => EmptyString
  | S k => line_of [tok] ++ lines_of k tok
  end.

Definition column_world : world (V := Q) :=
  initial_world (one_file "col.log" (lines_of 77 "0")).

Definition column_table : ndarray (V := Q) :=
  {| shape := [1; List.length (repeat [0%Q] 77)]; buf := concat (repeat [0%Q] 77) |}.

Lemma main_accepts_single_column_witness :
  reads_as decimal_of_token (files column_world) (arg_file (mk_args "col.log" None))
           (repeat [0%Q] 77) /\
  width (repeat [0%Q] 77) = 1 /\
  COLS_max + 1 <= List.length (repeat [0%Q] 77) /\
  can_write column_world (resolve_out_path (mk_args "col.log" None))
            (report (column column_table 0) column_table
                    (basename (arg_file (mk_args "col.log" None)))) /\
  load_data decimal_of_token failure_text (arg_file (mk_args "col.log" None)) column_world
    = (Ret column_table, column_world) /\
  main decimal_of_token failure_text (mk_args "col.log" None) column_world =
    (Ret tt, world_after_main column_world column_table
               (resolve_out_path (mk_args "col.log" None))
               (report (column column_table 0) column_table
                       (basename (arg_file (mk_args "col.log" None))))) /\
  fst (run decimal_of_token failure_text (mk_args "col.log" None) column_world) = 0 /\
  first_dim (column column_table 0) = 1.
Proof.
  assert (reads_as decimal_of_token (files column_world) (arg_file (mk_args "col.log" None))
                   (repeat [0%Q] 77)) as Hreads.
  { exists (lines_of 77 "0"). split; reflexivity. }
  assert (COLS_max + 1 <= List.length (repeat [0%Q] 77)) as Hlen by (vm_compute; lia).
  assert (can_write column_world (resolve_out_path (mk_args "col.log" None))
                    (report (column column_table 0) column_table
                            (basename (arg_file (mk_args "col.log" None))))) as Hwrite.
  { split; [reflexivity | intros; reflexivity]. }
  split; [exact Hreads|]. split; [reflexivity|]. split; [exact Hlen|].
  split; [exact Hwrite|].
  exact (main_accepts_single_column decimal_of_token failure_text (mk_args "col.log" None)
           column_world (repeat [0%Q] 77) column_table Hreads eq_refl Hlen eq_refl Hwrite).
Defined.

(** The state column of the two-sample log. *)
Lemma pick_reads_the_field_of_each_row_witness :
  reads_as decimal_of_token (files scenario_world) "logs/run1.txt" scenario_rows /\
  1 <= List.length scenario_rows /\
  2 <= width scenario_rows /\
  COLS_get "ca_state" = Some 9 /\
  9 < width scenario_rows /\
  exists table col,
    load_data decimal_of_token failure_text "logs/run1.txt" scenario_world
      = (Ret table, scenario_world) /\
    shape table = [List.length scenario_rows; width scenario_rows] /\
    pick table "ca_state" scenario_world = (Ret col, scenario_world) /\
    shape col = [List.length scenario_rows] /\
    List.length (buf col) = List.length scenario_rows /\
    map Some (buf col) = map (fun r => nth_error r 9) scenario_rows.
Proof.
  assert (1 <= List.length scenario_rows) as H1 by (vm_compute; lia).
  assert (2 <= width scenario_rows) as H2 by (vm_compute; lia).
  assert (9 < width scenario_rows) as Hc by (vm_compute; lia).
  split; [exact scenario_reads|]. split; [exact H1|]. split; [exact H2|].
  split; [reflexivity|]. split; [exact Hc|].
  exact (pick_reads_the_field_of_each_row decimal_of_token failure_text "logs/run1.txt"
           scenario_rows "ca_state" 9 scenario_world scenario_reads H1 H2 eq_refl Hc).
Defined.

Example ca_state_column_of_scenario :
  exists col,
    pick (table_of_rows scenario_rows) "ca_state" scenario_world = (Ret col, scenario_world) /\
    buf col = [0; 3]%Q.
Proof. eexists. split; reflexivity. Qed.

(** [plot_triplet] over the table of zeros, in the world that binds it. *)
Lemma plot_triplet_failures_witness :
  shape zeros_table = [1; 77] /\
  COLS_max < 77 /\
  ((g_data (world_with zeros_table) = None ->
    plot_triplet new_axes (column zeros_table 0) "reward" "reward" (world_with zeros_table)
      = (Raise (NameError "data"), world_with zeros_table)) /\
   (g_data (world_with zeros_table) = Some zeros_table -> ~ In "reward" triplet_bases ->
    plot_triplet new_axes (column zeros_table 0) "reward" "reward" (world_with zeros_table)
      = (Raise (KeyError ("reward" ++ "_avg")), world_with zeros_table)) /\
   (g_data (world_with zeros_table) = Some zeros_table -> In "reward" triplet_bases ->
    first_dim (column zeros_table 0) <> 1 ->
    exists msg,
      plot_triplet new_axes (column zeros_table 0) "reward" "reward" (world_with zeros_table)
        = (Raise (ValueError msg), world_with zeros_table)) /\
   (g_data (world_with zeros_table) = Some zeros_table -> In "reward" triplet_bases ->
    first_dim (column zeros_table 0) = 1 ->
    exists ax',
      plot_triplet new_axes (column zeros_table 0) "reward" "reward" (world_with zeros_table)
        = (Ret ax', world_with zeros_table) /\
      List.length (ax_series ax') = List.length (ax_series (new_axes (V := Q))) + 3)).
Proof.
  assert (COLS_max < 77) as Hwide by (vm_compute; lia).
  split; [reflexivity|]. split; [exact Hwide|].
  exact (plot_triplet_failures decimal_of_token zeros_table (column zeros_table 0) 1 77
           new_axes "reward" "reward" (world_with zeros_table) eq_refl Hwide).
Defined.

(** The failures of [plot_triplet], run: a name that is no triplet, a [t]
    of two entries over a table of one row, and no table bound. *)
Example plot_triplet_unknown_base :
  plot_triplet new_axes (column zeros_table 0) "reward" "reward" (world_with zeros_table)
    = (Raise (KeyError "reward_avg"), world_with zeros_table).
Proof. reflexivity. Qed.

Example plot_triplet_wrong_length :
  plot_triplet new_axes {| shape := [2]; buf := [0; 1]%Q |} "rtt_s" "RTT short (ms)"
               (world_with zeros_table)
    = (Raise (ValueError
                "x and y must have same first dimension, but have shapes (2,) and (1,)"),
       world_with zeros_table).
Proof. reflexivity. Qed.

Example plot_triplet_unbound :
  fst (plot_triplet (V := Q) new_axes (column zeros_table 0) "rtt_s" "RTT short (ms)"
                    (initial_world (fun _ => None)))
    = Raise (NameError "data").
Proof. reflexivity. Qed.

(** The two-sample log: layout of the pages. *)
Lemma pages_are_laid_out_witness :
  reads_as decimal_of_token (files scenario_world)
           (arg_file (mk_args "logs/run1.txt" None)) scenario_rows /\
  1 <= List.length scenario_rows /\
  COLS_max + 1 <= width scenario_rows /\
  can_write scenario_world (resolve_out_path (mk_args "logs/run1.txt" None))
            (report_of (mk_args "logs/run1.txt" None) scenario_rows) /\
  exists w' pages,
    main decimal_of_token failure_text (mk_args "logs/run1.txt" None) scenario_world
      = (Ret tt, w') /\
    pdf_closed w' = (resolve_out_path (mk_args "logs/run1.txt" None), pages)
                    :: pdf_closed scenario_world /\
    Forall page_laid_out pages.
Proof.
  assert (1 <= List.length scenario_rows) as H1 by (vm_compute; lia).
  assert (COLS_max + 1 <= width scenario_rows) as H2 by (vm_compute; lia).
  assert (can_write scenario_world (resolve_out_path (mk_args "logs/run1.txt" None))
                    (report_of (mk_args "logs/run1.txt" None) scenario_rows)) as H3.
  { split; [reflexivity | intros; reflexivity]. }
  split; [exact scenario_reads|]. split; [exact H1|]. split; [exact H2|].
  split; [exact H3|].
  exact (pages_are_laid_out decimal_of_token failure_text (mk_args "logs/run1.txt" None)
           scenario_world scenario_rows scenario_reads H1 H2 H3).
Defined.

(** The two-sample log: the series of the document. *)
Lemma series_are_columns_over_time_witness :
  reads_as decimal_of_token (files scenario_world)
           (arg_file (mk_args "logs/run1.txt" None)) scenario_rows /\
  1 <= List.length scenario_rows /\
  COLS_max + 1 <= width scenario_rows /\
  can_write scenario_world (resolve_out_path (mk_args "logs/run1.txt" None))
            (report_of (mk_args "logs/run1.txt" None) scenario_rows) /\
  exists w' pages,
    main decimal_of_token failure_text (mk_args "logs/run1.txt" None) scenario_world
      = (Ret tt, w') /\
    pdf_closed w' = (resolve_out_path (mk_args "logs/run1.txt" None), pages)
                    :: pdf_closed scenario_world /\
    List.length (all_series pages) = 81 /\
    Forall (fun s =>
              s_x s = column (table_of_rows scenario_rows) (COLS_index "time") /\
              List.length (buf (s_x s)) = List.length scenario_rows /\
              exists key c,
                COLS_get key = Some c /\
                s_y s = column (table_of_rows scenario_rows) c /\
                List.length (buf (s_y s)) = List.length scenario_rows)
           (all_series pages) /\
    map s_y (filter is_step (all_series pages)) =
      [column (table_of_rows scenario_rows) (COLS_index "ca_state")].
Proof.
  assert (1 <= List.length scenario_rows) as H1 by (vm_compute; lia).
  assert (COLS_max + 1 <= width scenario_rows) as H2 by (vm_compute; lia).
  assert (can_write scenario_world (resolve_out_path (mk_args "logs/run1.txt" None))
                    (report_of (mk_args "logs/run1.txt" None) scenario_rows)) as H3.
  { split; [reflexivity | intros; reflexivity]. }
  split; [exact scenario_reads|]. split; [exact H1|]. split; [exact H2|].
  split; [exact H3|].
  exact (series_are_columns_over_time decimal_of_token failure_text
           (mk_args "logs/run1.txt" None) scenario_world scenario_rows scenario_reads
           H1 H2 H3).
Defined.

(** The two-sample log: the names drawn and not drawn. *)
Lemma five_names_are_never_drawn_witness :
  reads_as decimal_of_token (files scenario_world)
           (arg_file (mk_args "logs/run1.txt" None)) scenario_rows /\
  1 <= List.length scenario_rows /\
  COLS_max + 1 <= width scenario_rows /\
  can_write scenario_world (resolve_out_path (mk_args "logs/run1.txt" None))
            (report_of (mk_args "logs/run1.txt" None) scenario_rows) /\
  exists w' pages,
    main decimal_of_token failure_text (mk_args "logs/run1.txt" None) scenario_world
      = (Ret tt, w') /\
    pdf_closed w' = (resolve_out_path (mk_args "logs/run1.txt" None), pages)
                    :: pdf_closed scenario_world /\
    map s_y (all_series pages) =
      map (fun key => column (table_of_rows scenario_rows) (COLS_index key)) drawn_keys /\
    (forall key, In key drawn_keys -> In key COLS_keys) /\
    (forall key, In key COLS_keys ->
       key = "time" \/ In key drawn_keys \/ In key undrawn_keys) /\
    (forall key, In key undrawn_keys ->
       In key COLS_keys /\ key <> "time" /\ ~ In key drawn_keys) /\
    List.length (nodup string_dec drawn_keys) = 71.
Proof.
  assert (1 <= List.length scenario_rows) as H1 by (vm_compute; lia).
  assert (COLS_max + 1 <= width scenario_rows) as H2 by (vm_compute; lia).
  assert (can_write scenario_world (resolve_out_path (mk_args "logs/run1.txt" None))
                    (report_of (mk_args "logs/run1.txt" None) scenario_rows)) as H3.
  { split; [reflexivity | intros; reflexivity]. }
  split; [exact scenario_reads|]. split; [exact H1|]. split; [exact H2|].
  split; [exact H3|].
  exact (five_names_are_never_drawn decimal_of_token failure_text
           (mk_args "logs/run1.txt" None) scenario_world scenario_rows scenario_reads
           H1 H2 H3).
Defined.

(** The two-sample log with other values in the five undrawn columns and
    with a 78th field on each line. *)
Definition scenario_rows' : list (list Q) :=
  [ ([0; 7] ++ repeat 0 69 ++ [1; 2; 3; 4] ++ repeat 0 2 ++ [99])%list%Q;
    ([10 # 10; 8] ++ repeat 0 7 ++ [3] ++ repeat 0 61 ++ [5; 6; 7; 8]
     ++ repeat 0 2 ++ [99])%list%Q ].

Definition scenario_text' : string :=
  line_of (["0"; "7"] ++ repeat "0" 69 ++ ["1"; "2"; "3"; "4"] ++ repeat "0" 2 ++ ["99"])%list
  ++ line_of (["1.0"; "8"] ++ repeat "0" 7 ++ ["3"] ++ repeat "0" 61
              ++ ["5"; "6"; "7"; "8"] ++ repeat "0" 2 ++ ["99"])%list.

Definition scenario_world' : world (V := Q) :=
  initial_world (one_file "logs/run1.txt" scenario_text').

Lemma scenario_reads' :
  reads_as decimal_of_token (files scenario_world') "logs/run1.txt" scenario_rows'.
Proof. exists scenario_text'. split; reflexivity. Qed.

Lemma scenarios_agree (key : string) :
  key = "time" \/ In key drawn_keys ->
  column (table_of_rows scenario_rows) (COLS_index key) =
  column (table_of_rows scenario_rows') (COLS_index key).
Proof.
  intros [-> | Hin]; [reflexivity|].
  cbv [drawn_keys flat_map triplet_keys triplet_bases TRIPLETS map fst app firstn tail_keys
       key_avg key_min key_max append] in Hin.
  repeat (destruct Hin as [<- | Hin]; [reflexivity|]).
  contradiction.
Qed.

Lemma undrawn_columns_do_not_matter_witness :
  reads_as decimal_of_token (files scenario_world)
           (arg_file (mk_args "logs/run1.txt" None)) scenario_rows /\
  reads_as decimal_of_token (files scenario_world')
           (arg_file (mk_args "logs/run1.txt" None)) scenario_rows' /\
  1 <= List.length scenario_rows /\ 1 <= List.length scenario_rows' /\
  COLS_max + 1 <= width scenario_rows /\ COLS_max + 1 <= width scenario_rows' /\
  can_write scenario_world (resolve_out_path (mk_args "logs/run1.txt" None))
            (report_of (mk_args "logs/run1.txt" None) scenario_rows) /\
  can_write scenario_world' (resolve_out_path (mk_args "logs/run1.txt" None))
            (report_of (mk_args "logs/run1.txt" None) scenario_rows') /\
  (forall key, key = "time" \/ In key drawn_keys ->
     column (table_of_rows scenario_rows) (COLS_index key) =
     column (table_of_rows scenario_rows') (COLS_index key)) /\
  exists w1' w2' pages,
    main decimal_of_token failure_text (mk_args "logs/run1.txt" None) scenario_world
      = (Ret tt, w1') /\
    main decimal_of_token failure_text (mk_args "logs/run1.txt" None) scenario_world'
      = (Ret tt, w2') /\
    pdf_closed w1' = (resolve_out_path (mk_args "logs/run1.txt" None), pages)
                     :: pdf_closed scenario_world /\
    pdf_closed w2' = (resolve_out_path (mk_args "logs/run1.txt" None), pages)
                     :: pdf_closed scenario_world'.
Proof.
  assert (1 <= List.length scenario_rows) as H1 by (vm_compute; lia).
  assert (1 <= List.length scenario_rows') as H1' by (vm_compute; lia).
  assert (COLS_max + 1 <= width scenario_rows) as H2 by (vm_compute; lia).
  assert (COLS_max + 1 <= width scenario_rows') as H2' by (vm_compute; lia).
  assert (can_write scenario_world (resolve_out_path (mk_args "logs/run1.txt" None))
                    (report_of (mk_args "logs/run1.txt" None) scenario_rows)) as H3.
  { split; [reflexivity | intros; reflexivity]. }
  assert (can_write scenario_world' (resolve_out_path (mk_args "logs/run1.txt" None))
                    (report_of (mk_args "logs/run1.txt" None) scenario_rows')) as H3'.
  { split; [reflexivity | intros; reflexivity]. }
  split; [exact scenario_reads|]. split; [exact scenario_reads'|].
  split; [exact H1|]. split; [exact H1'|]. split; [exact H2|]. split; [exact H2'|].
  split; [exact H3|]. split; [exact H3'|].
  split; [exact scenarios_agree|].
  exact (undrawn_columns_do_not_matter decimal_of_token failure_text
           (mk_args "logs/run1.txt" None) scenario_world scenario_world'
           scenario_rows scenario_rows' scenario_reads scenario_reads'
           H1 H1' H2 H2' H3 H3' scenarios_agree).
Defined.

(** The two-sample log in a fresh process and in one that has already
    bound [data] to another table, printed, and written a document. *)
Definition used_world : world (V := Q) :=
  {| files := scenario_files;
     open_error := fun _ => None; save_error := fun _ _ _ => None;
     g_data := Some ones_table; out_lines := ["Wrote old.pdf"];
     err_lines := []; pdf_open := None; pdf_closed := [("old.pdf", [])] |}.

Lemma main_ignores_prior_state_witness :
  files scenario_world (arg_file (mk_args "logs/run1.txt" None)) =
  files used_world (arg_file (mk_args "logs/run1.txt" None)) /\
  open_error scenario_world (resolve_out_path (mk_args "logs/run1.txt" None)) =
  open_error used_world (resolve_out_path (mk_args "logs/run1.txt" None)) /\
  (forall pages fig,
     save_error scenario_world (resolve_out_path (mk_args "logs/run1.txt" None)) pages fig =
     save_error used_world (resolve_out_path (mk_args "logs/run1.txt" None)) pages fig) /\
  ((exists data,
      main decimal_of_token failure_text (mk_args "logs/run1.txt" None) scenario_world =
        (Ret tt, world_after_main scenario_world data
                   (resolve_out_path (mk_args "logs/run1.txt" None))
                   (report (column data 0) data
                           (basename (arg_file (mk_args "logs/run1.txt" None))))) /\
      main decimal_of_token failure_text (mk_args "logs/run1.txt" None) used_world =
        (Ret tt, world_after_main used_world data
                   (resolve_out_path (mk_args "logs/run1.txt" None))
                   (report (column data 0) data
                           (basename (arg_file (mk_args "logs/run1.txt" None)))))) \/
   (exists r w1' w2',
      r <> Ret tt /\
      main decimal_of_token failure_text (mk_args "logs/run1.txt" None) scenario_world
        = (r, w1') /\
      main decimal_of_token failure_text (mk_args "logs/run1.txt" None) used_world
        = (r, w2') /\
      out_lines w1' = out_lines scenario_world /\
      out_lines w2' = out_lines used_world)).
Proof.
  split; [reflexivity|]. split; [reflexivity|]. split; [intros; reflexivity|].
  exact (main_ignores_prior_state decimal_of_token failure_text
           (mk_args "logs/run1.txt" None) scenario_world used_world eq_refl eq_refl
           (fun _ _ => eq_refl)).
Defined.

(** The second run in the used process: two documents, newest first. *)
Example second_run_adds_a_document :
  let r := run decimal_of_token failure_text (mk_args "logs/run1.txt" None) used_world in
  fst r = 0 /\
  map fst (pdf_closed (snd r)) = ["logs/run1_all_metrics.pdf"; "old.pdf"] /\
  out_lines (snd r) = ["Wrote old.pdf"; "Wrote logs/run1_all_metrics.pdf"] /\
  g_data (snd r) = Some (table_of_rows scenario_rows).
Proof. vm_compute. repeat split. Qed.

(** The check and the accessor on the table of zeros and on the table of
    76 columns. *)
Lemma ensure_cols_guards_pick_witness :
  (forall key, In key COLS_keys ->
     exists col, pick zeros_table key (world_with zeros_table)
                 = (Ret col, world_with zeros_table) /\
                 first_dim col = first_dim zeros_table) /\
  pick zeros_table "bandwidth" (world_with zeros_table)
    = (Raise (KeyError "bandwidth"), world_with zeros_table) /\
  ~ (forall key, In key COLS_keys ->
       exists col, pick short_table key (world_with short_table)
                   = (Ret col, world_with short_table)).
Proof.
  destruct (ensure_cols_guards_pick decimal_of_token zeros_table (world_with zeros_table))
    as (_ & Hpicks & Hkey).
  destruct (ensure_cols_guards_pick decimal_of_token short_table (world_with short_table))
    as (Hiff & _ & _).
  split; [exact (Hpicks eq_refl)|]. split.
  - apply Hkey. apply not_in_by_test. vm_compute. reflexivity.
  - intro Hall. apply Hiff in Hall. discriminate Hall.
Defined.

(** Output paths for some command lines. *)
Lemma out_path_policy_witness :
  resolve_out_path (mk_args "logs/run1.txt" (Some "report.pdf")) = "report.pdf" /\
  resolve_out_path (mk_args "logs/run1.txt" None) = "logs/run1" ++ "_all_metrics.pdf" /\
  resolve_out_path (mk_args "logs/.hidden" (Some "")) = "logs/.hidden" ++ "_all_metrics.pdf" /\
  resolve_out_path (mk_args "logs.d/run1" None) = "logs.d/run1" ++ "_all_metrics.pdf".
Proof.
  split; [|split; [|split]].
  - apply (proj1 (out_path_policy (mk_args "logs/run1.txt" (Some "report.pdf"))));
      [reflexivity | discriminate].
  - destruct (out_path_policy (mk_args "logs/run1.txt" None)) as (_ & _ & Hext & _).
    apply (Hext (or_introl eq_refl) "logs/run1" "txt"); reflexivity.
  - destruct (out_path_policy (mk_args "logs/.hidden" (Some ""))) as (_ & _ & Hext & _).
    apply (Hext (or_intror eq_refl) "logs/" "hidden"); reflexivity.
  - destruct (out_path_policy (mk_args "logs.d/run1" None)) as (_ & _ & _ & Hnodot).
    apply (Hnodot (or_introl eq_refl)). reflexivity.
Defined.
